(** * AlphApexManager: the template engine and the descriptor watcher

    A shallow embedding of [alpha_manager/directory_manager.py] (class
    [TemplateManager]) and of [alpha_manager/windows_service.py] (class
    [JSONFileMonitorService]), the properties of the specification settled
    against it, and further properties of the code.

    Conventions of the embedding.
    - A loaded JSON document is a value of [json]; a Python [dict] is an
      association list in insertion order, looked up from the front
      ([json.load] never yields two equal keys).
    - A Python exception is the [Raise] outcome of [res]; code that touches
      the disk or the console runs in the monad [M] over [world].
    - Console and log lines are kept as structured [message]s: the text of a
      line is a function of the constructor and its arguments, and no
      property below depends on the wording.
    - The disk is an idealised POSIX file system: a tree of directories and
      files, no symbolic links, no permissions, no limits on lengths. *)

From Stdlib Require Import String Ascii List ZArith QArith Bool Lia.
From stdpp Require Import gmap strings list sorting.
Import ListNotations.
Local Open Scope string_scope.
Local Open Scope list_scope.
Set Warnings "-register-all,-clear-no-such-hyp".

(* ===================================================================== *)
(** * Python values and exceptions *)
(* ===================================================================== *)

(** The exceptions the modelled code can meet. *)
Inductive exn : Type :=
  | TypeError
  | KeyError
  | AttributeError
  | ValueError
  | JSONDecodeError
  | FileNotFoundError
  | FileExistsError
  | NotADirectoryError
  | IsADirectoryError
  | SameFileError
  | CalledProcessError.

(** Outcome of an expression or a call: a value, or a raised exception. *)
Inductive res (A : Type) : Type :=
  | Ret (a : A)
  | Raise (e : exn).
Arguments Ret {A} a.
Arguments Raise {A} e.

Definition res_bind {A B} (r : res A) (k : A -> res B) : res B :=
  match r with
  | Ret a => k a
  | Raise e => Raise e
  end.

Notation "'let!' x ':=' r 'in' k" := (res_bind r (fun x => k))
  (at level 10, x name, r at level 200, k at level 200).

(** [for x in l: f x], collecting what each round leaves behind; the first
    exception ends the loop. *)
Fixpoint res_map {A B} (f : A -> res B) (l : list A) : res (list B) :=
  match l with
  | [] => Ret []
  | a :: l' =>
      match f a with
      | Ret b =>
          match res_map f l' with
          | Ret bs => Ret (b :: bs)
          | Raise e => Raise e
          end
      | Raise e => Raise e
      end
  end.

(** What [json.load] returns.  Numbers carry a rational: the code never
    tells an [int] from a [float], it only tests numbers for truth. *)
Inductive json : Type :=
  | JNull
  | JBool (b : bool)
  | JNum (q : Q)
  | JStr (s : string)
  | JList (l : list json)
  | JDict (d : list (string * json)).

(** ** dict operations on association lists *)

Fixpoint dict_get {A} (k : string) (d : list (string * A)) : option A :=
  match d with
  | [] => None
  | (k', v) :: d' => if String.eqb k' k then Some v else dict_get k d'
  end.

Definition dict_has {A} (k : string) (d : list (string * A)) : bool :=
  match dict_get k d with
  | Some _ => true
  | None => false
  end.

(** [d[k] = v]: an existing key keeps its place, a new one goes last. *)
Fixpoint dict_set {A} (k : string) (v : A) (d : list (string * A))
  : list (string * A) :=
  match d with
  | [] => [(k, v)]
  | (k', v') :: d' =>
      if String.eqb k' k then (k, v) :: d' else (k', v') :: dict_set k v d'
  end.

(** ** str operations *)

(** [needle in hay] on two [str]. *)
Fixpoint str_contains (needle hay : string) : bool :=
  String.prefix needle hay
  || match hay with
     | EmptyString => false
     | String _ hay' => str_contains needle hay'
     end.

(** [s.replace(old, new)] for a non-empty [old]: occurrences are found left
    to right and do not overlap; [skip] counts the characters of a match
    still to be passed over. *)
Fixpoint replace_from (old new : string) (skip : nat) (s : string) : string :=
  match s with
  | EmptyString => EmptyString
  | String c s' =>
      match skip with
      | S k => replace_from old new k s'
      | O =>
          if String.prefix old s
          then new +:+ replace_from old new (String.length old - 1) s'
          else String c (replace_from old new 0 s')
      end
  end.

(** [s.replace("", new)]: [new] goes before every character and at the end. *)
Fixpoint replace_empty (new s : string) : string :=
  match s with
  | EmptyString => new
  | String c s' => new +:+ String c (replace_empty new s')
  end.

Definition str_replace (old new s : string) : string :=
  match old with
  | EmptyString => replace_empty new s
  | _ => replace_from old new 0 s
  end.
Arguments str_replace : simpl never.

(** The characters of a [str], as iteration yields them. *)
Fixpoint str_chars (s : string) : list json :=
  match s with
  | EmptyString => []
  | String c s' => JStr (String c EmptyString) :: str_chars s'
  end.

(** ** Operators on arbitrary values *)

(** [x == s] for a [str] literal [s]. *)
Definition json_is_str (x : json) (s : string) : bool :=
  match x with
  | JStr s' => String.eqb s' s
  | _ => false
  end.

(** [k in x] for a [str] [k]: key of a dict, element of a list, substring of
    a str; anything else is not iterable. *)
Definition py_in (k : string) (x : json) : res bool :=
  match x with
  | JDict d => Ret (dict_has k d)
  | JList l => Ret (existsb (fun e => json_is_str e k) l)
  | JStr s => Ret (str_contains k s)
  | _ => Raise TypeError
  end.

(** [x[k]] for a [str] [k]. *)
Definition py_getitem (x : json) (k : string) : res json :=
  match x with
  | JDict d =>
      match dict_get k d with
      | Some v => Ret v
      | None => Raise KeyError
      end
  | _ => Raise TypeError
  end.

(** [x[k] = v] for a [str] [k]. *)
Definition py_setitem (x : json) (k : string) (v : json) : res json :=
  match x with
  | JDict d => Ret (JDict (dict_set k v d))
  | _ => Raise TypeError
  end.

(** [x.items()]. *)
Definition py_items (x : json) : res (list (string * json)) :=
  match x with
  | JDict d => Ret d
  | _ => Raise AttributeError
  end.

(** [for e in x]: the elements a loop over [x] sees. *)
Definition py_iter (x : json) : res (list json) :=
  match x with
  | JList l => Ret l
  | JDict d => Ret (map (fun kv => JStr (fst kv)) d)
  | JStr s => Ret (str_chars s)
  | _ => Raise TypeError
  end.

(** Truth value of [x] in [if x] and [if not x]. *)
Definition truthy (x : json) : bool :=
  match x with
  | JNull => false
  | JBool b => b
  | JNum q => negb (Qnum q =? 0)%Z
  | JStr s => negb (String.eqb s "")
  | JList l => match l with [] => false | _ => true end
  | JDict d => match d with [] => false | _ => true end
  end.

(* ===================================================================== *)
(** * The template validator (pure part) *)
(* ===================================================================== *)

(** One line of [errors] in [validate_template]; [name] is whatever value
    the entry holds under ["name"], as the f-string renders it. *)
Inductive verror : Type :=
  | MissingRequiredKey (key : string)
  | SubdirectoriesNotDict
  | SubdirNotDict (subdir : string)
  | SubdirMissingFiles (subdir : string)
  | FilesNotList (subdir : string)
  | EntryNotDict (subdir : string)
  | EntryMissingKeys (subdir : string)
  | TemplateMissingSource (name : json) (subdir : string)
  | InvalidFileType (name : json) (subdir : string).

(** [file_info["type"] not in ["empty", "template"]]. *)
Definition type_recognized (ty : json) : bool :=
  json_is_str ty "empty" || json_is_str ty "template".

(** The body of [for file_info in contents["files"]]. *)
Definition check_file_info (subdir : string) (file_info : json) : list verror :=
  match file_info with
  | JDict fi =>
      match dict_get "name" fi, dict_get "type" fi with
      | Some name, Some ty =>
          if json_is_str ty "template" && negb (dict_has "source" fi)
          then [TemplateMissingSource name subdir]
          else if negb (type_recognized ty)
          then [InvalidFileType name subdir]
          else []
      | _, _ => [EntryMissingKeys subdir]
      end
  | _ => [EntryNotDict subdir]
  end.

(** The body of [for subdir, contents in template["subdirectories"].items()]. *)
Definition check_subdir (item : string * json) : list verror :=
  let (subdir, contents) := item in
  match contents with
  | JDict c =>
      match dict_get "files" c with
      | None => [SubdirMissingFiles subdir]
      | Some (JList files) => flat_map (check_file_info subdir) files
      | Some _ => [FilesNotList subdir]
      end
  | _ => [SubdirNotDict subdir]
  end.

(** The list [errors] that [validate_template] builds, in order. *)
Definition validate_errors (template : json) : res (list verror) :=
  let! has_main := py_in "main_directory" template in
  let! has_sub := py_in "subdirectories" template in
  let errors1 :=
    (if has_main then [] else [MissingRequiredKey "main_directory"])
    ++ (if has_sub then [] else [MissingRequiredKey "subdirectories"]) in
  if has_sub then
    (let! subdirs := py_getitem template "subdirectories" in
     match subdirs with
     | JDict items => Ret (errors1 ++ flat_map check_subdir items)
     | _ => Ret (errors1 ++ [SubdirectoriesNotDict])
     end)
  else Ret errors1.

(* ===================================================================== *)
(** * Parameter substitution *)
(* ===================================================================== *)

(** A command-line or console argument: a [str], or [None] when the option
    was not given. *)
Definition fstr (x : option string) : string :=
  match x with
  | Some s => s
  | None => "None"
  end.

(** The body of [for file in contents["files"]] in [modify_template]; it
    returns the entry as the round leaves it. *)
Definition modify_file (project_number : option string) (file : json)
  : res json :=
  let! has_name := py_in "name" file in
  if has_name then
    (let! name := py_getitem file "name" in
     let! has_token := py_in "xxxxx" name in
     if has_token then
       match name, project_number with
       | JStr s, Some pn =>
           py_setitem file "name" (JStr (str_replace "xxxxx" pn s))
       | JStr _, None => Raise TypeError
       | _, _ => Raise AttributeError
       end
     else Ret file)
  else Ret file.

(** The body of [for subdir, contents in ...items()]: only the elements of a
    real list can be changed in place; a loop over the keys of a dict or the
    characters of a str either leaves them alone or raises. *)
Definition modify_contents (project_number : option string) (contents : json)
  : res json :=
  let! has_files := py_in "files" contents in
  if has_files then
    (let! files := py_getitem contents "files" in
     let! seen := py_iter files in
     let! seen' := res_map (modify_file project_number) seen in
     match files with
     | JList _ => py_setitem contents "files" (JList seen')
     | _ => Ret contents
     end)
  else Ret contents.

Definition modify_item (project_number : option string) (item : string * json)
  : res (string * json) :=
  let! contents' := modify_contents project_number (snd item) in
  Ret (fst item, contents').

(** [modify_template(template, project_number, project_name)]: the template
    object after the call (it is also the value returned). *)
Definition modify_template (template : json)
    (project_number project_name : option string) : res json :=
  let! t1 := py_setitem template "main_directory"
               (JStr (fstr project_name +:+ "-" +:+ fstr project_number)) in
  let! subdirs := py_getitem t1 "subdirectories" in
  let! items := py_items subdirs in
  let! items' := res_map (modify_item project_number) items in
  py_setitem t1 "subdirectories" (JDict items').

(* ===================================================================== *)
(** * Paths and the file system *)
(* ===================================================================== *)

(** ** pathlib: pure paths *)

Fixpoint split_on (sep : ascii) (s : string) : list string :=
  match s with
  | EmptyString => [EmptyString]
  | String c s' =>
      if Ascii.eqb c sep then EmptyString :: split_on sep s'
      else match split_on sep s' with
           | [] => [String c EmptyString]
           | w :: ws => String c w :: ws
           end
  end.

(** A [PurePosixPath]: whether it starts at the root, and its components
    (empty and ["."] components are dropped when a path is built, [".."]
    is kept). *)
Record PurePath : Type := mkPath { anchored : bool; parts : list string }.

Definition kept_part (c : string) : bool :=
  negb (String.eqb c "") && negb (String.eqb c ".").

(** [Path(s)]. *)
Definition Path (s : string) : PurePath :=
  {| anchored := String.prefix "/" s;
     parts := List.filter kept_part (split_on "/" s) |}.

(** [p / s] for a [str] [s]: an absolute right operand replaces [p]. *)
Definition joinpath (p : PurePath) (s : string) : PurePath :=
  let q := Path s in
  if anchored q then q
  else {| anchored := anchored p; parts := parts p ++ parts q |}.

(** [p / x] for an arbitrary value [x]. *)
Definition path_div (p : PurePath) (x : json) : res PurePath :=
  match x with
  | JStr s => Ret (joinpath p s)
  | _ => Raise TypeError
  end.

(** [Path(x)] for an arbitrary value [x]. *)
Definition path_of (x : json) : res PurePath :=
  match x with
  | JStr s => Ret (Path s)
  | _ => Raise TypeError
  end.

(** ** The disk *)

(** What a file holds.  [Doc d] stands for any text that [json.load] parses
    to [d] (and is what [json.dump] of [d] writes); [Text s] holds the bytes
    of a file that is not a JSON document, the empty file among them. *)
Inductive content : Type :=
  | Text (bytes : string)
  | Doc (d : json).

(** A directory lists its entries in the order the system reports them. *)
Inductive node : Type :=
  | File (c : content)
  | Dir (entries : list (string * node)).

(** A location on the disk: the names from the root down. *)
Definition location := list string.

Fixpoint lookup_node (n : node) (p : location) : option node :=
  match p with
  | [] => Some n
  | c :: p' =>
      match n with
      | Dir es =>
          match dict_get c es with
          | Some n' => lookup_node n' p'
          | None => None
          end
      | File _ => None
      end
  end.

(** Put [new] at [p]; the directory that is to hold it must exist. *)
Fixpoint write_node (n : node) (p : location) (new : node) : option node :=
  match p with
  | [] => Some new
  | c :: p' =>
      match n with
      | Dir es =>
          match dict_get c es with
          | Some n' =>
              match write_node n' p' new with
              | Some n'' => Some (Dir (dict_set c n'' es))
              | None => None
              end
          | None =>
              match p' with
              | [] => Some (Dir (dict_set c new es))
              | _ => None
              end
          end
      | File _ => None
      end
  end.

Definition is_dir_at (fs : node) (p : location) : bool :=
  match lookup_node fs p with
  | Some (Dir _) => true
  | _ => false
  end.

Definition is_file_at (fs : node) (p : location) : bool :=
  match lookup_node fs p with
  | Some (File _) => true
  | _ => false
  end.

Definition exists_at (fs : node) (p : location) : bool :=
  match lookup_node fs p with
  | Some _ => true
  | None => false
  end.

(** The directory holding [p] (the root holds itself). *)
Definition parent (p : location) : location := removelast p.

(** A NUL character in a name: the system calls refuse it ([ValueError]). *)
Definition has_nul (c : string) : bool := str_contains (String "000" "") c.

(** ** Name resolution *)

(** Where the process runs: the directory of [directory_manager.py]
    ([script_dir]) and the current directory, which relative paths start
    from. *)
Record env : Type := mkEnv { script_dir : PurePath; cwd : location }.

(** The system's walk along the components of a path: every component but
    the last must name a directory, and [".."] steps to the parent.  The
    result is where the last component would be, whether or not anything is
    there. *)
Fixpoint resolve_from (fs : node) (cur : location) (comps : list string)
  : res location :=
  match comps with
  | [] => Ret cur
  | c :: rest =>
      if String.eqb c ".." then
        match lookup_node fs cur with
        | Some (Dir _) => resolve_from fs (parent cur) rest
        | Some (File _) => Raise NotADirectoryError
        | None => Raise FileNotFoundError
        end
      else
        match rest with
        | [] => Ret (cur ++ [c])
        | _ =>
            match lookup_node fs (cur ++ [c]) with
            | Some (Dir _) => resolve_from fs (cur ++ [c]) rest
            | Some (File _) => Raise NotADirectoryError
            | None => Raise FileNotFoundError
            end
        end
  end.

Definition base (e : env) (p : PurePath) : location :=
  if anchored p then [] else cwd e.

(** The location a single system call on [p] works on. *)
Definition locate (e : env) (fs : node) (p : PurePath) : res location :=
  if existsb has_nul (parts p) then Raise ValueError
  else resolve_from fs (base e p) (parts p).

(** [p.exists()] and [p.is_dir()]: a path that cannot be resolved is not
    there. *)
Definition path_exists (e : env) (fs : node) (p : PurePath) : bool :=
  match locate e fs p with
  | Ret q => exists_at fs q
  | Raise _ => false
  end.

Definition path_is_dir (e : env) (fs : node) (p : PurePath) : bool :=
  match locate e fs p with
  | Ret q => is_dir_at fs q
  | Raise _ => false
  end.

(** ** The world and the monad of effects *)

(** A line on the console or in the log file. *)
Inductive message : Type :=
  | TemplateDoesNotExist (template_name : string)
  | TemplateSaved (template_name : string)
  | ValidationErrors (template_name : string) (errors : list verror)
  | NoValidationErrors (template_name : string)
  | GenerationAborted
  | TemplateFileNotFound (source_path : PurePath)
  | UnknownFileType (ty : json)
  | StructureGenerated (main_dir : PurePath)
  | SearchResults (results : list string)
  | NoMatchesFound
  | PathCleaned (given cleaned : string)
  | CloneError (why : string)
  | CloneSuccess (cleaned : string)
  | Generating (template output : string).

(** The disk, the console, and the lines of [LOG_FILE] (kept apart from the
    tree: appending to the log never fails and is never read back). *)
Record world : Type := mkWorld {
  fs : node;
  stdout : list message;
  logfile : list message
}.

Definition set_fs (fs' : node) (w : world) : world :=
  {| fs := fs'; stdout := stdout w; logfile := logfile w |}.

Definition M (A : Type) : Type := world -> res A * world.

Definition M_ret {A} (a : A) : M A := fun w => (Ret a, w).

Definition M_raise {A} (e : exn) : M A := fun w => (Raise e, w).

Definition M_bind {A B} (m : M A) (k : A -> M B) : M B :=
  fun w =>
    match m w with
    | (Ret a, w') => k a w'
    | (Raise e, w') => (Raise e, w')
    end.

Notation "'let*' x ':=' m 'in' k" := (M_bind m (fun x => k))
  (at level 10, x name, m at level 200, k at level 200).
Notation "m ';;' k" := (M_bind m (fun _ => k))
  (at level 100, k at level 200, right associativity).

(** A pure step inside effectful code. *)
Definition lift {A} (r : res A) : M A := fun w => (r, w).

(** [print(...)]. *)
Definition print (m : message) : M unit :=
  fun w => (Ret tt, {| fs := fs w; stdout := stdout w ++ [m];
                       logfile := logfile w |}).

(** [self.log(message)]. *)
Definition log (m : message) : M unit :=
  fun w => (Ret tt, {| fs := fs w; stdout := stdout w;
                       logfile := logfile w ++ [m] |}).

(** [for x in l: body x]. *)
Fixpoint M_for {A} (l : list A) (body : A -> M unit) : M unit :=
  match l with
  | [] => M_ret tt
  | a :: l' => body a ;; M_for l' body
  end.

(** ** System and library calls *)

(** [os.makedirs(p, exist_ok=True)]: the components are visited from the
    left; a missing one is created, an existing directory is entered, and a
    file in the way is an error.  What was created before an error stays. *)
Fixpoint makedirs_from (cur : location) (comps : list string) : M unit :=
  fun w =>
    match comps with
    | [] => (Ret tt, w)
    | c :: rest =>
        if has_nul c then (Raise ValueError, w)
        else if String.eqb c ".." then
          match lookup_node (fs w) cur with
          | Some (Dir _) => makedirs_from (parent cur) rest w
          | Some (File _) => (Raise NotADirectoryError, w)
          | None => (Raise FileNotFoundError, w)
          end
        else
          match lookup_node (fs w) (cur ++ [c]) with
          | Some (Dir _) => makedirs_from (cur ++ [c]) rest w
          | Some (File _) =>
              (Raise match rest with
                     | [] => FileExistsError
                     | _ => NotADirectoryError
                     end, w)
          | None =>
              match write_node (fs w) (cur ++ [c]) (Dir []) with
              | Some fs' => makedirs_from (cur ++ [c]) rest (set_fs fs' w)
              | None => (Raise FileNotFoundError, w)
              end
          end
    end.

Definition makedirs (e : env) (p : PurePath) : M unit :=
  makedirs_from (base e p) (parts p).

(** Create or replace the file at [q]. *)
Definition write_file (q : location) (c : content) : M unit :=
  fun w =>
    match lookup_node (fs w) q with
    | Some (Dir _) => (Raise IsADirectoryError, w)
    | _ =>
        match write_node (fs w) q (File c) with
        | Some fs' => (Ret tt, set_fs fs' w)
        | None => (Raise FileNotFoundError, w)
        end
    end.

(** [p.touch()]: a path that is already there is left as it is (only its
    time stamp moves); otherwise an empty file is created. *)
Definition touch (e : env) (p : PurePath) : M unit :=
  fun w =>
    match locate e (fs w) p with
    | Ret q =>
        if exists_at (fs w) q then (Ret tt, w)
        else write_file q (Text "") w
    | Raise err => (Raise err, w)
    end.

(** [os.path.basename] of a path object, joined to [dst]. *)
Definition into_dir (dst src : PurePath) : PurePath :=
  match last (parts src) with
  | Some name => {| anchored := anchored dst; parts := parts dst ++ [name] |}
  | None => dst
  end.

(** [shutil.copy(src, dst)]. *)
Definition copy (e : env) (src dst : PurePath) : M unit :=
  fun w =>
    let dst := if path_is_dir e (fs w) dst then into_dir dst src else dst in
    if existsb has_nul (parts src) || existsb has_nul (parts dst)
    then (Raise ValueError, w)
    else
      match locate e (fs w) src with
      | Raise err => (Raise err, w)
      | Ret qs =>
          match lookup_node (fs w) qs with
          | None => (Raise FileNotFoundError, w)
          | Some src_node =>
              match locate e (fs w) dst with
              | Raise err =>
                  match src_node with
                  | Dir _ => (Raise IsADirectoryError, w)
                  | File _ => (Raise err, w)
                  end
              | Ret qd =>
                  if exists_at (fs w) qd && bool_decide (qs = qd)
                  then (Raise SameFileError, w)
                  else
                    match src_node with
                    | Dir _ => (Raise IsADirectoryError, w)
                    | File c => write_file qd c w
                    end
              end
          end
      end.

(** [with open(p, "r") as f: json.load(f)]. *)
Definition load_json (e : env) (p : PurePath) : M json :=
  fun w =>
    match locate e (fs w) p with
    | Raise err => (Raise err, w)
    | Ret q =>
        match lookup_node (fs w) q with
        | None => (Raise FileNotFoundError, w)
        | Some (Dir _) => (Raise IsADirectoryError, w)
        | Some (File (Text _)) => (Raise JSONDecodeError, w)
        | Some (File (Doc d)) => (Ret d, w)
        end
    end.

(** [with open(p, "w") as f: json.dump(data, f, indent=4)]. *)
Definition dump_json (e : env) (p : PurePath) (data : json) : M unit :=
  fun w =>
    match locate e (fs w) p with
    | Raise err => (Raise err, w)
    | Ret q => write_file q (Doc data) w
    end.

(* ===================================================================== *)
(** * class TemplateManager *)
(* ===================================================================== *)

Definition TEMPLATES_DIR (e : env) : PurePath :=
  joinpath (script_dir e) "templates".
Definition DEFAULT_TEMPLATES_DIR (e : env) : PurePath :=
  joinpath (TEMPLATES_DIR e) "defaults".
Definition FILE_TEMPLATES_DIR (e : env) : PurePath :=
  joinpath (TEMPLATES_DIR e) "file_templates".
Definition USER_CREATED_DIR (e : env) : PurePath :=
  joinpath (TEMPLATES_DIR e) "user_created".

(** [ensure_directories]: [mkdir(exist_ok=True, parents=True)] on each. *)
Definition ensure_directories (e : env) : M unit :=
  makedirs e (TEMPLATES_DIR e) ;;
  makedirs e (DEFAULT_TEMPLATES_DIR e) ;;
  makedirs e (FILE_TEMPLATES_DIR e) ;;
  makedirs e (USER_CREATED_DIR e).

(** The file a template name stands for. *)
Definition template_path (e : env) (template_name : string) : PurePath :=
  if String.prefix "defaults/" template_name
  then joinpath (DEFAULT_TEMPLATES_DIR e)
         (str_replace "defaults/" "" template_name)
  else joinpath (TEMPLATES_DIR e)
         (str_replace "user_created/" "" template_name).

(** [load_template]; [None] is [JNull]. *)
Definition load_template (e : env) (template_name : string) : M json :=
  fun w =>
    let path := template_path e template_name in
    if negb (path_exists e (fs w) path)
    then (print (TemplateDoesNotExist template_name) ;; M_ret JNull) w
    else load_json e path w.

(** [save_template]. *)
Definition save_template (e : env) (template_name : string) (data : json)
    (is_default : bool) : M unit :=
  let path :=
    if is_default then joinpath (DEFAULT_TEMPLATES_DIR e) template_name
    else joinpath (TEMPLATES_DIR e) template_name in
  dump_json e path data ;;
  print (TemplateSaved template_name) ;;
  log (TemplateSaved template_name).

(** [validate_template]: the errors are printed, the result says whether
    there were none. *)
Definition validate_template (template : json) (template_name : string)
  : M bool :=
  let* errors := lift (validate_errors template) in
  match errors with
  | _ :: _ => print (ValidationErrors template_name errors) ;; M_ret false
  | [] => print (NoValidationErrors template_name) ;; M_ret true
  end.

(** ** Searching *)

(** [any(query in f for f in files)]: stops at the first hit. *)
Fixpoint any_in (query : string) (files : list json) : res bool :=
  match files with
  | [] => Ret false
  | f :: files' =>
      let! hit := py_in query f in
      if hit then Ret true else any_in query files'
  end.

(** The test of the [if] in the loop of [search_template]. *)
Definition search_hit (query : string) (item : string * json) : res bool :=
  if str_contains query (fst item) then Ret true
  else
    let! files := py_getitem (snd item) "files" in
    let! seen := py_iter files in
    any_in query seen.

(** The list [results] that the loop of [search_template] builds. *)
Fixpoint search_items (query : string) (items : list (string * json))
  : res (list string) :=
  match items with
  | [] => Ret []
  | item :: items' =>
      let! hit := search_hit query item in
      let! found := search_items query items' in
      Ret (if hit then fst item :: found else found)
  end.

Definition search_results (template : json) (query : string)
  : res (list string) :=
  let! subdirs := py_getitem template "subdirectories" in
  let! items := py_items subdirs in
  search_items query items.

(** [search_template]. *)
Definition search_template (e : env) (template_name query : string) : M unit :=
  let* template := load_template e template_name in
  if negb (truthy template) then M_ret tt
  else
    let* results := lift (search_results template query) in
    match results with
    | _ :: _ => print (SearchResults results)
    | [] => print NoMatchesFound
    end.

(** ** Generation *)

(** The body of [for file_info in contents["files"]] in
    [generate_from_template]. *)
Definition generate_file (e : env) (subdir_path : PurePath) (file_info : json)
  : M unit :=
  let* name := lift (py_getitem file_info "name") in
  let* file_path := lift (path_div subdir_path name) in
  let* ty := lift (py_getitem file_info "type") in
  if json_is_str ty "empty" then touch e file_path
  else if json_is_str ty "template" then
    let* source := lift (py_getitem file_info "source") in
    let* source_path := lift (path_of source) in
    fun w =>
      if path_exists e (fs w) source_path
      then copy e source_path file_path w
      else print (TemplateFileNotFound source_path) w
  else print (UnknownFileType ty).

(** The body of [for subdir, contents in ...items()] in
    [generate_from_template]. *)
Definition generate_subdir (e : env) (main_dir : PurePath)
    (item : string * json) : M unit :=
  let subdir_path := joinpath main_dir (fst item) in
  makedirs e subdir_path ;;
  let* files := lift (py_getitem (snd item) "files") in
  let* seen := lift (py_iter files) in
  M_for seen (generate_file e subdir_path).

(** [generate_from_template]; the two project arguments are the console
    answers, hence always [str]. *)
Definition generate_from_template (e : env) (template_name output_dir
    project_number project_name : string) : M unit :=
  let* template := load_template e template_name in
  let* template :=
    if negb (String.eqb project_number "") && negb (String.eqb project_name "")
    then lift (modify_template template (Some project_number)
                 (Some project_name))
    else M_ret template in
  if negb (truthy template) then M_ret tt
  else
    let* valid := validate_template template template_name in
    if negb valid then print GenerationAborted
    else
      let* main_name := lift (py_getitem template "main_directory") in
      let* main_dir := lift (path_div (Path output_dir) main_name) in
      makedirs e main_dir ;;
      let* subdirs := lift (py_getitem template "subdirectories") in
      let* items := lift (py_items subdirs) in
      M_for items (generate_subdir e main_dir) ;;
      print (StructureGenerated main_dir) ;;
      log (StructureGenerated main_dir).

(** The body of the inner loop of [generate_default]: only ["empty"] entries
    are looked at. *)
Definition generate_default_file (e : env) (subdir_path : PurePath)
    (file_info : json) : M unit :=
  let* name := lift (py_getitem file_info "name") in
  let* file_path := lift (path_div subdir_path name) in
  let* ty := lift (py_getitem file_info "type") in
  if json_is_str ty "empty" then touch e file_path else M_ret tt.

Definition generate_default_subdir (e : env) (main_dir : PurePath)
    (item : string * json) : M unit :=
  let subdir_path := joinpath main_dir (fst item) in
  makedirs e subdir_path ;;
  let* files := lift (py_getitem (snd item) "files") in
  let* seen := lift (py_iter files) in
  M_for seen (generate_default_file e subdir_path).

(** [not x] for an optional [str]. *)
Definition falsy_arg (x : option string) : bool :=
  match x with
  | None => true
  | Some s => String.eqb s ""
  end.

(** [generate_default]; the project arguments come from the command line
    and are [None] when the option is absent. *)
Definition generate_default (e : env) (project_number project_name
    : option string) (template_name output_dir : string) : M unit :=
  let* template := load_template e template_name in
  let* template :=
    if falsy_arg project_number
       && match project_name with Some s => String.eqb s "" | None => false end
    then lift (modify_template template project_number project_name)
    else M_ret template in
  if negb (truthy template) then M_ret tt
  else
    let* valid := validate_template template template_name in
    if negb valid then print GenerationAborted
    else
      let* template :=
        lift (modify_template template project_number project_name) in
      let* main_name := lift (py_getitem template "main_directory") in
      let* main_dir := lift (path_div (Path output_dir) main_name) in
      makedirs e main_dir ;;
      let* subdirs := lift (py_getitem template "subdirectories") in
      let* items := lift (py_items subdirs) in
      M_for items (generate_default_subdir e main_dir).

(** [main] when [--generate] is given: a manager is built (which makes sure
    the store directories exist) and [generate_default] is called with the
    four options. *)
Definition main_generate (e : env) (template output : string)
    (project_name project_number : option string) : M unit :=
  ensure_directories e ;;
  print (Generating template output) ;;
  generate_default e project_number project_name template output.

(** ** Cloning *)

(** The characters [validate_directory_path] strips from both ends. *)
Definition strip_set : string := "!@#$%^&*()_+={}[]|:;'<>,.?~`".

Definition in_strip_set (c : ascii) : bool :=
  str_contains (String c EmptyString) strip_set.

Fixpoint lstrip (s : string) : string :=
  match s with
  | EmptyString => EmptyString
  | String c s' => if in_strip_set c then lstrip s' else s
  end.

Fixpoint rstrip (s : string) : string :=
  match s with
  | EmptyString => EmptyString
  | String c s' =>
      match rstrip s' with
      | EmptyString => if in_strip_set c then EmptyString
                       else String c EmptyString
      | r => String c r
      end
  end.

(** [path.strip("!@#...")]. *)
Definition strip (s : string) : string := rstrip (lstrip s).

(** [os.path.basename]: what follows the last slash. *)
Definition basename (s : string) : string :=
  match last (split_on "/" s) with
  | Some b => b
  | None => EmptyString
  end.

Definition ends_with_slash (s : string) : bool :=
  match last (split_on "/" s) with
  | Some EmptyString => negb (String.eqb s "")
  | _ => false
  end.

(** The location an [os.path] test on the string [s] looks at: the empty
    string names nothing, and a trailing slash asks for a directory. *)
Definition os_locate (e : env) (fs : node) (s : string) : res location :=
  if String.eqb s "" then Raise FileNotFoundError
  else
    let! q := locate e fs (Path s) in
    if ends_with_slash s && is_file_at fs q then Raise NotADirectoryError
    else Ret q.

Definition os_path_exists (e : env) (fs : node) (s : string) : bool :=
  match os_locate e fs s with
  | Ret q => exists_at fs q
  | Raise _ => false
  end.

Definition os_path_isfile (e : env) (fs : node) (s : string) : bool :=
  match os_locate e fs s with
  | Ret q => is_file_at fs q
  | Raise _ => false
  end.

Definition os_path_isdir (e : env) (fs : node) (s : string) : bool :=
  match os_locate e fs s with
  | Ret q => is_dir_at fs q
  | Raise _ => false
  end.

(** What [validate_directory_path] returns: a pair on the failing paths, a
    triple on the passing one. *)
Inductive path_check : Type :=
  | CheckPair (ok : bool) (why : string)
  | CheckTriple (ok : bool) (cleaned : string).

(** [validate_directory_path] (the disk has no permissions, so the listing
    at the end always succeeds). *)
Definition validate_directory_path (e : env) (path : string) : M path_check :=
  let cleaned_path := strip path in
  (if String.eqb cleaned_path path then M_ret tt
   else print (PathCleaned path cleaned_path)) ;;
  fun w =>
    if negb (os_path_exists e (fs w) cleaned_path)
    then (Ret (CheckPair false "Path does not exist"), w)
    else if os_path_isfile e (fs w) cleaned_path
    then (Ret (CheckPair false "Path is a file, not a directory"), w)
    else if negb (os_path_isdir e (fs w) cleaned_path)
    then (Ret (CheckPair false "Path is not a valid directory"), w)
    else (Ret (CheckTriple true cleaned_path), w).

(** The names of the files among the entries. *)
Definition file_names (es : list (string * node)) : list string :=
  flat_map (fun kv => match snd kv with
                      | File _ => [fst kv]
                      | Dir _ => []
                      end) es.

(** [os.walk(top)], top-down: each directory with the names of its files;
    [rel] is the way from [top] to the directory. *)
Fixpoint walk (rel : list string) (n : node)
  : list (list string * list string) :=
  match n with
  | File _ => []
  | Dir es =>
      (rel, file_names es)
      :: flat_map (fun kv => walk (rel ++ [fst kv]) (snd kv)) es
  end.

(** [os.path.relpath(root, top)] for a directory of the walk, with ["."]
    turned into the empty string. *)
Definition relative_root (rel : list string) : string := String.concat "/" rel.

(** The loop of [clone_directory]: the mapping ["subdirectories"]. *)
Fixpoint clone_subdirectories (visits : list (list string * list string))
    (subdirs : list (string * json)) : list (string * json) :=
  match visits with
  | [] => subdirs
  | (rel, files) :: visits' =>
      let key := relative_root rel in
      clone_subdirectories visits'
        (if dict_has key subdirs then subdirs
         else dict_set key (JDict [("files", JList (map JStr files))]) subdirs)
  end.

(** [os.walk] on a path: a top that cannot be listed yields nothing. *)
Definition os_walk (e : env) (fs : node) (top : string)
  : list (list string * list string) :=
  match os_locate e fs top with
  | Ret q =>
      match lookup_node fs q with
      | Some n => walk [] n
      | None => []
      end
  | Raise _ => []
  end.

(** The template [clone_directory] builds from the visits of the walk. *)
Definition clone_template (cleaned_path : string)
    (visits : list (list string * list string)) : json :=
  JDict [("main_directory", JStr (basename cleaned_path));
         ("subdirectories", JDict (clone_subdirectories visits []))].

(** [clone_directory]: unpacking the result of the check into three names
    fails on a pair. *)
Definition clone_directory (e : env) (source_dir output_template_name : string)
  : M unit :=
  let* check := validate_directory_path e source_dir in
  match check with
  | CheckPair _ _ => M_raise ValueError
  | CheckTriple is_valid cleaned_path =>
      if negb is_valid then print (CloneError cleaned_path)
      else
        print (CloneSuccess cleaned_path) ;;
        fun w =>
          save_template e output_template_name
            (clone_template cleaned_path (os_walk e (fs w) cleaned_path))
            false w
  end.

(* ===================================================================== *)
(** * class JSONFileMonitorService *)
(* ===================================================================== *)

(** A line in the service log. *)
Inductive service_message : Type :=
  | CopiedJSON (project_dir : string)
  | TimeoutWaiting (project_dir : string)
  | Processed (project_dir : string)
  | MissingKeys (filename : string)
  | ErrorRunning (err : exn)
  | MonitorError (err : exn)
  | ErrorWritingSeenFiles (err : exn).

(** What the surroundings answer while one descriptor is processed: the
    outcome of opening and parsing the file, the exception (if any) of
    [subprocess.run(..., check=True)], the round of the wait loop in which
    the project directory is first seen as a directory (if ever), and the
    exception (if any) of [shutil.copyfile]. *)
Record file_answers : Type := mkAnswers {
  descriptor : res json;
  launch_error : option exn;
  appears_at : option nat;
  copy_error : option exn
}.

(** [data.get(key)]. *)
Definition py_get (data : json) (key : string) : res json :=
  match data with
  | JDict d =>
      match dict_get key d with
      | Some v => Ret v
      | None => Ret JNull
      end
  | _ => Raise AttributeError
  end.

(** The [for _ in range(40)] loop with its [else] branch; [round] counts the
    rounds already made. *)
Fixpoint wait_for_directory (rounds round : nat) (a : file_answers)
    (project_dir : string) : res (list service_message) :=
  match rounds with
  | O => Ret [TimeoutWaiting project_dir]
  | S rounds' =>
      if match appears_at a with
         | Some r => (r <=? round)%nat
         | None => false
         end
      then match copy_error a with
           | Some err => Raise err
           | None => Ret [CopiedJSON project_dir]
           end
      else wait_for_directory rounds' (S round) a project_dir
  end.

(** The [try] block of [run_directory_manager]. *)
Definition run_directory_manager_body (filename : string) (a : file_answers)
  : res (list service_message) :=
  let! data := descriptor a in
  let! project_name := py_get data "project_name" in
  let! project_number := py_get data "project_number" in
  if truthy project_name && truthy project_number then
    match project_name, project_number with
    | JStr name, JStr number =>
        match launch_error a with
        | Some err => Raise err
        | None =>
            let project_dir := name +:+ "-" +:+ number in
            let! waited := wait_for_directory 40 0 a project_dir in
            Ret (waited ++ [Processed project_dir])
        end
    | _, _ => Raise TypeError
    end
  else Ret [MissingKeys filename].

(** [run_directory_manager]: whatever is raised inside is logged, nothing
    gets out. *)
Definition run_directory_manager (filename : string) (a : file_answers)
  : list service_message :=
  match run_directory_manager_body filename a with
  | Ret lines => lines
  | Raise err => [ErrorRunning err]
  end.

(** The state of [monitor_directory]: the set [seen_files], the set whose
    names [SEEN_FILES_LOG] holds, the service log, and (for the record) the
    names [run_directory_manager] was called for, in order. *)
Record monitor : Type := mkMonitor {
  seen_files : gset string;
  saved_files : gset string;
  service_log : list service_message;
  handled : list string
}.

(** How the two calls in the [try] block of [save_seen_files] end.
    [Path.write_text] opens the log for writing, which empties it, and then
    encodes the text and writes it.  So either the text is written; or
    [mkdir] or the opening raises, and the log is as it was; or the text
    cannot be encoded, and the log is left open and empty.  (The disk of
    the model has room: what has been encoded is written in full.) *)
Inductive save_outcome : Type :=
  | LogWritten
  | LogNotOpened (err : exn)
  | LogEmptied (err : exn).

(** What the surroundings answer during one round of the loop: the names
    the glob yields (or the exception it raises), the answers for each
    descriptor, and how the write of the seen-files log ends. *)
Record round_answers : Type := mkRound {
  listing : res (gset string);
  answers : string -> file_answers;
  save : save_outcome
}.

(** The body of [for filename in new_files]. *)
Definition handle_file (r : round_answers) (m : monitor) (filename : string)
  : monitor :=
  {| seen_files := {[filename]} ∪ seen_files m;
     saved_files := saved_files m;
     service_log :=
       service_log m ++ run_directory_manager filename (answers r filename);
     handled := handled m ++ [filename] |}.

(** [save_seen_files]: a failure is logged by the method itself, and
    nothing is raised to the loop. *)
Definition save_seen_files (r : round_answers) (m : monitor) : monitor :=
  {| seen_files := seen_files m;
     saved_files :=
       match save r with
       | LogWritten => seen_files m
       | LogNotOpened _ => saved_files m
       | LogEmptied _ => ∅
       end;
     service_log :=
       service_log m
       ++ match save r with
          | LogWritten => []
          | LogNotOpened err => [ErrorWritingSeenFiles err]
          | LogEmptied err => [ErrorWritingSeenFiles err]
          end;
     handled := handled m |}.

(** One round of the [while] loop of [monitor_directory]. *)
Definition poll (m : monitor) (r : round_answers) : monitor :=
  match listing r with
  | Raise err =>
      {| seen_files := seen_files m;
         saved_files := saved_files m;
         service_log := service_log m ++ [MonitorError err];
         handled := handled m |}
  | Ret current_files =>
      let new_files := current_files ∖ seen_files m in
      save_seen_files r (foldl (handle_file r) m (elements new_files))
  end.

(** [monitor_directory] over the rounds made before the service stops. *)
Definition monitor_directory (m : monitor) (rounds : list round_answers)
  : monitor :=
  foldl poll m rounds.

(* ===================================================================== *)
(** * Notions of the specification *)
(* ===================================================================== *)

(** The entries of the mapping under ["subdirectories"], when the document
    has one. *)
Definition subdirectory_items (t : json) : list (string * json) :=
  match t with
  | JDict d =>
      match dict_get "subdirectories" d with
      | Some (JDict items) => items
      | _ => []
      end
  | _ => []
  end.

(** The ["files"] list of a subdirectory value, when it has one. *)
Definition files_list (contents : json) : option (list json) :=
  match contents with
  | JDict c =>
      match dict_get "files" c with
      | Some (JList files) => Some files
      | _ => None
      end
  | _ => None
  end.

(** All the file entries of a document, subdirectory after subdirectory. *)
Definition file_entries (t : json) : list json :=
  flat_map (fun item => match files_list (snd item) with
                        | Some files => files
                        | None => []
                        end) (subdirectory_items t).

(** What a file entry holds under a key. *)
Definition entry_get (k : string) (f : json) : option json :=
  match f with
  | JDict fi => dict_get k fi
  | _ => None
  end.

(** The four conditions of the validation property, in its words. *)
Definition every_subdirectory_has_files (t : json) : Prop :=
  Forall (fun item => files_list (snd item) <> None) (subdirectory_items t).

Definition every_entry_has_name_and_type (t : json) : Prop :=
  Forall (fun f => entry_get "name" f <> None /\ entry_get "type" f <> None)
    (file_entries t).

Definition every_type_is_recognized (t : json) : Prop :=
  Forall (fun f => forall ty, entry_get "type" f = Some ty ->
                     ty = JStr "empty" \/ ty = JStr "template")
    (file_entries t).

Definition every_template_entry_has_source (t : json) : Prop :=
  Forall (fun f => entry_get "type" f = Some (JStr "template") ->
                   entry_get "source" f <> None)
    (file_entries t).

Definition four_conditions (t : json) : Prop :=
  every_subdirectory_has_files t
  /\ every_entry_has_name_and_type t
  /\ every_type_is_recognized t
  /\ every_template_entry_has_source t.

(** The checks the four conditions leave out: the two required keys, and
    ["subdirectories"] being a mapping. *)
Definition has_required_keys (t : json) : Prop :=
  exists d items,
    t = JDict d
    /\ dict_get "main_directory" d <> None
    /\ dict_get "subdirectories" d = Some (JDict items).

(** An entry passes the inner checks exactly when it meets the last three
    conditions. *)
Definition entry_ok (f : json) : Prop :=
  (entry_get "name" f <> None /\ entry_get "type" f <> None)
  /\ (forall ty, entry_get "type" f = Some ty ->
        ty = JStr "empty" \/ ty = JStr "template")
  /\ (entry_get "type" f = Some (JStr "template") ->
      entry_get "source" f <> None).

(** A document the four conditions accept and the validator refuses. *)
Definition doc_without_main : json :=
  JDict [("subdirectories",
          JDict [("docs",
                  JDict [("files",
                          JList [JDict [("name", JStr "readme.txt");
                                        ("type", JStr "empty")]])])])].

(** A world with an empty disk. *)
Definition blank : world := {| fs := Dir []; stdout := []; logfile := [] |}.

(** ** Substitution, in the words of the specification *)

(** A file entry with every ["xxxxx"] of its name replaced. *)
Definition rename_entry (project_number : string) (f : json) : json :=
  match f with
  | JDict fi =>
      match dict_get "name" fi with
      | Some (JStr s) =>
          JDict (dict_set "name" (JStr (str_replace "xxxxx" project_number s)) fi)
      | _ => f
      end
  | _ => f
  end.

Definition rename_contents (project_number : string) (contents : json) : json :=
  match contents with
  | JDict c =>
      match dict_get "files" c with
      | Some (JList files) =>
          JDict (dict_set "files"
                   (JList (map (rename_entry project_number) files)) c)
      | _ => contents
      end
  | _ => contents
  end.

Definition rename_item (project_number : string) (item : string * json)
  : string * json :=
  (fst item, rename_contents project_number (snd item)).

(** The template with ["main_directory"] set and every name substituted. *)
Definition substituted (project_number project_name : string) (t : json) : json :=
  match t with
  | JDict d =>
      let d1 := dict_set "main_directory"
                  (JStr (project_name +:+ "-" +:+ project_number)) d in
      match dict_get "subdirectories" d1 with
      | Some (JDict items) =>
          JDict (dict_set "subdirectories"
                   (JDict (map (rename_item project_number) items)) d1)
      | _ => t
      end
  | _ => t
  end.

(** A template as the data model has it: a mapping whose ["subdirectories"]
    is a mapping of subdirectory values, each a mapping with a ["files"]
    list of file entries, each a mapping with a [str] under ["name"]. *)
Definition typed_entry (f : json) : Prop :=
  exists fi s, f = JDict fi /\ dict_get "name" fi = Some (JStr s).

Definition typed_contents (contents : json) : Prop :=
  exists c files,
    contents = JDict c
    /\ dict_get "files" c = Some (JList files)
    /\ Forall typed_entry files.

Definition typed_template (t : json) : Prop :=
  exists d items,
    t = JDict d
    /\ dict_get "subdirectories" d = Some (JDict items)
    /\ Forall (fun item => typed_contents (snd item)) items.

(** The project number does not contain the letter of the token. *)
Definition x_free (s : string) : Prop := str_contains "x" s = false.

(** A template and a project number on which a second [modify_template]
    changes the names again. *)
Definition plan_template : json :=
  JDict [("main_directory", JStr "project");
         ("subdirectories",
          JDict [("drawings",
                  JDict [("files",
                          JList [JDict [("name", JStr "xxxxx_plan.dwg");
                                        ("type", JStr "empty")]])])])].

Definition plan_template_once : json :=
  JDict [("main_directory", JStr "Acme-xxxxx-7");
         ("subdirectories",
          JDict [("drawings",
                  JDict [("files",
                          JList [JDict [("name", JStr "xxxxx-7_plan.dwg");
                                        ("type", JStr "empty")]])])])].

Definition plan_template_twice : json :=
  JDict [("main_directory", JStr "Acme-xxxxx-7");
         ("subdirectories",
          JDict [("drawings",
                  JDict [("files",
                          JList [JDict [("name", JStr "xxxxx-7-7_plan.dwg");
                                        ("type", JStr "empty")]])])])].

(** ** The template a generation works on *)

(** The first two steps of [generate_from_template]: the template is
    loaded, and modified when both project arguments are given.  The result
    is the template that is then validated. *)
Definition prepared_template (e : env) (template_name project_number
    project_name : string) : M json :=
  let* template := load_template e template_name in
  if negb (String.eqb project_number "") && negb (String.eqb project_name "")
  then lift (modify_template template (Some project_number)
               (Some project_name))
  else M_ret template.

(** What is stored under a template name: the node at the place its path
    resolves to, if any. *)
Definition stored (e : env) (fs : node) (template_name : string) : option node :=
  match locate e fs (template_path e template_name) with
  | Ret q => lookup_node fs q
  | Raise _ => None
  end.

(** ** A small installation, for the examples *)

Definition site_template : json :=
  JDict [("main_directory", JStr "site");
         ("subdirectories",
          JDict [("src",
                  JDict [("files",
                          JList [JDict [("name", JStr "main.py");
                                        ("type", JStr "empty")];
                                 JDict [("name", JStr "readme.txt");
                                        ("type", JStr "template");
                                        ("source", JStr "/tpl/readme.txt")]])])])].

(** The script lives in [/app]; the process runs in [/home]. *)
Definition demo_env : env := {| script_dir := Path "/app"; cwd := ["home"] |}.

Definition demo_store : node :=
  Dir [("templates",
        Dir [("defaults", Dir []);
             ("site.json", File (Doc site_template));
             ("draft.json", File (Doc doc_without_main));
             ("broken.json", File (Text "{"))])].

Definition demo_disk : node :=
  Dir [("app", demo_store);
       ("tpl", Dir [("readme.txt", File (Text "Read me first."))]);
       ("home", Dir []);
       ("work", Dir [])].

Definition demo_world : world :=
  {| fs := demo_disk; stdout := []; logfile := [] |}.

(** ** Answers of the surroundings, for the examples of the watcher *)

(** A descriptor with both keys; everything goes well. *)
Definition smooth_answers : file_answers :=
  {| descriptor := Ret (JDict [("project_name", JStr "Acme");
                               ("project_number", JStr "042")]);
     launch_error := None;
     appears_at := Some 2;
     copy_error := None |}.

(** The same descriptor; the generation process exits with an error. *)
Definition failed_launch_answers : file_answers :=
  {| descriptor := Ret (JDict [("project_name", JStr "Acme");
                               ("project_number", JStr "042")]);
     launch_error := Some CalledProcessError;
     appears_at := None;
     copy_error := None |}.

(** A descriptor without ["project_number"]. *)
Definition missing_key_answers : file_answers :=
  {| descriptor := Ret (JDict [("project_name", JStr "Acme")]);
     launch_error := None;
     appears_at := None;
     copy_error := None |}.

(** A file that is not JSON. *)
Definition unparsable_answers : file_answers :=
  {| descriptor := Raise JSONDecodeError;
     launch_error := None;
     appears_at := None;
     copy_error := None |}.

Definition fresh_monitor : monitor :=
  {| seen_files := ∅; saved_files := ∅; service_log := []; handled := [] |}.

(** A round in which the watched directory holds [a.json], which cannot be
    parsed. *)
Definition bad_round : round_answers :=
  {| listing := Ret {["a.json"]};
     answers := fun _ => unparsable_answers;
     save := LogWritten |}.

(** ** Directories as they are found on a disk *)

(** A name of a directory entry: not empty, and without a slash. *)
Definition entry_name (c : string) : Prop :=
  c <> "" /\ str_contains "/" c = false.

(** In a directory no name is used twice, and every name is an entry name;
    the same holds further down. *)
Fixpoint wf_node (n : node) : Prop :=
  match n with
  | File _ => True
  | Dir es =>
      NoDup (map fst es)
      /\ Forall entry_name (map fst es)
      /\ (fix all (es : list (string * node)) : Prop :=
            match es with
            | [] => True
            | kv :: es' => wf_node (snd kv) /\ all es'
            end) es
  end.

(** The subdirectory value [clone_directory] records for a directory. *)
Definition cloned_entry (es : list (string * node)) : json :=
  JDict [("files", JList (map JStr (file_names es)))].

(** The directory of the cloning example: [a/] with [a/f1.txt], and an
    empty [b/]. *)
Definition example_tree : node :=
  Dir [("a", Dir [("f1.txt", File (Text "one"))]); ("b", Dir [])].

Definition example_disk : node :=
  Dir [("app", Dir [("templates", Dir [])]);
       ("srv", Dir [("proj", example_tree)])].

Definition example_world : world :=
  {| fs := example_disk; stdout := []; logfile := [] |}.

Definition example_clone : json :=
  JDict [("main_directory", JStr "proj");
         ("subdirectories",
          JDict [("", JDict [("files", JList [])]);
                 ("a", JDict [("files", JList [JStr "f1.txt"])]);
                 ("b", JDict [("files", JList [])])])].

(** The same disk, with the directory under a name that ends in an
    underscore. *)
Definition underscore_disk : node :=
  Dir [("app", Dir [("templates", Dir [])]);
       ("srv", Dir [("proj_", example_tree)])].

Definition underscore_world : world :=
  {| fs := underscore_disk; stdout := []; logfile := [] |}.

(** The first visit of a walk whose directory has the key [k]. *)
Fixpoint first_visit (k : string) (visits : list (list string * list string))
  : option (list string) :=
  match visits with
  | [] => None
  | (rel, files) :: visits' =>
      if String.eqb (relative_root rel) k then Some files
      else first_visit k visits'
  end.

(** The tree holds a file somewhere. *)
Definition has_file (n : node) : Prop :=
  exists p c, lookup_node n p = Some (File c).

(** The template [clone_directory] built, after a [modify_template] that
    went through. *)
Definition renamed_clone (main : string)
    (visits : list (list string * list string)) : json :=
  JDict [("main_directory", JStr main);
         ("subdirectories", JDict (clone_subdirectories visits []))].

(** The example disk after [/srv/proj] has been cloned to [proj.json]. *)
Definition cloned_disk : node :=
  Dir [("app", Dir [("templates",
                     Dir [("proj.json", File (Doc example_clone))])]);
       ("srv", Dir [("proj", example_tree)])].

Definition cloned_world : world :=
  {| fs := cloned_disk; stdout := []; logfile := [] |}.

(** ** The structure a template declares *)

(** A component that a path may go through as it stands. *)
Definition plain (c : string) : Prop := c <> ".." /\ has_nul c = false.

(** A plain name: one component, naming an entry of a directory. *)
Definition simple_name (c : string) : Prop :=
  c <> "" /\ c <> "." /\ c <> ".." /\ str_contains "/" c = false
  /\ has_nul c = false.

(** The file a file entry declares: an empty file, or a copy of the source,
    which must be there as a file. *)
Definition declared_file (e : env) (fs : node) (f : json)
  : option (string * node) :=
  match entry_get "name" f, entry_get "type" f with
  | Some (JStr name), Some (JStr ty) =>
      if String.eqb ty "empty" then Some (name, File (Text ""))
      else if String.eqb ty "template" then
        match entry_get "source" f with
        | Some (JStr source) =>
            match locate e fs (Path source) with
            | Ret q =>
                match lookup_node fs q with
                | Some (File c) => Some (name, File c)
                | _ => None
                end
            | Raise _ => None
            end
        | _ => None
        end
      else None
  | _, _ => None
  end.

Fixpoint declared_files (e : env) (fs : node) (files : list json)
  : option (list (string * node)) :=
  match files with
  | [] => Some []
  | f :: files' =>
      match declared_file e fs f, declared_files e fs files' with
      | Some x, Some xs => Some (x :: xs)
      | _, _ => None
      end
  end.

(** What a subdirectory entry adds to the main directory: its files, when
    the key is empty; otherwise a directory holding them. *)
Definition declared_subdir (e : env) (fs : node) (item : string * json)
  : option (list (string * node)) :=
  match files_list (snd item) with
  | Some files =>
      match declared_files e fs files with
      | Some held =>
          Some (if String.eqb (fst item) "" then held
                else [(fst item, Dir held)])
      | None => None
      end
  | None => None
  end.

(** The entries of the main directory, in the order of the template. *)
Fixpoint declared_entries (e : env) (fs : node) (items : list (string * json))
  : option (list (string * node)) :=
  match items with
  | [] => Some []
  | item :: items' =>
      match declared_subdir e fs item, declared_entries e fs items' with
      | Some es, Some rest => Some (es ++ rest)
      | _, _ => None
      end
  end.

(** No directory of the tree holds a name twice, and every name is plain. *)
Fixpoint plain_node (n : node) : Prop :=
  match n with
  | File _ => True
  | Dir es =>
      NoDup (map fst es)
      /\ Forall simple_name (map fst es)
      /\ (fix all (es : list (string * node)) : Prop :=
            match es with
            | [] => True
            | kv :: es' => plain_node (snd kv) /\ all es'
            end) es
  end.

(** [after] has everything [before] has: the files with their contents, and
    the directories (possibly with more in them). *)
Definition grown (before after : node) : Prop :=
  forall q,
    (forall c, lookup_node before q = Some (File c) ->
               lookup_node after q = Some (File c))
    /\ (is_dir_at before q = true -> is_dir_at after q = true).

(** ** A template with a file name that is a path *)

(** It passes validation; its first file name has a directory part. *)
Definition nested_name_template : json :=
  JDict [("main_directory", JStr "site");
         ("subdirectories",
          JDict [("src",
                  JDict [("files",
                          JList [JDict [("name", JStr "docs/readme.txt");
                                        ("type", JStr "empty")];
                                 JDict [("name", JStr "main.py");
                                        ("type", JStr "empty")]])])])].

Definition nested_name_disk : node :=
  Dir [("app", Dir [("templates",
                     Dir [("nested.json", File (Doc nested_name_template))])]);
       ("work", Dir [])].

Definition nested_name_world : world :=
  {| fs := nested_name_disk; stdout := []; logfile := [] |}.

(** ** Two more templates that pass validation *)

(** The name [docs] is declared twice in the main directory: as a file (under
    the empty key) and as a subdirectory. *)
Definition twice_declared_template : json :=
  JDict [("main_directory", JStr "site");
         ("subdirectories",
          JDict [("", JDict [("files", JList [JDict [("name", JStr "docs");
                                                     ("type", JStr "empty")]])]);
                 ("docs", JDict [("files", JList [JDict [("name", JStr "a.txt");
                                                         ("type", JStr "empty")]])])])].

(** The source of the entry is there, and is a directory. *)
Definition directory_source_template : json :=
  JDict [("main_directory", JStr "site");
         ("subdirectories",
          JDict [("src",
                  JDict [("files",
                          JList [JDict [("name", JStr "readme.txt");
                                        ("type", JStr "template");
                                        ("source", JStr "/tpl")]])])])].

Definition odd_templates_disk : node :=
  Dir [("app",
        Dir [("templates",
              Dir [("twice.json", File (Doc twice_declared_template));
                   ("dirsource.json", File (Doc directory_source_template))])]);
       ("tpl", Dir [("readme.txt", File (Text "Read me first."))]);
       ("work", Dir [])].

Definition odd_templates_world : world :=
  {| fs := odd_templates_disk; stdout := []; logfile := [] |}.

(** What [site_template], with the project [Acme], [042], declares under
    its main directory. *)
Definition site_entries : list (string * node) :=
  [("src", Dir [("main.py", File (Text ""));
                ("readme.txt", File (Text "Read me first."))])].

(* ===================================================================== *)
(** * class TemplateManager: the store *)
(* ===================================================================== *)

(** ** The configuration file *)

Definition CONFIG_FILE (e : env) : PurePath :=
  joinpath (script_dir e) "config.json".

(** [save_config]. *)
Definition save_config (e : env) (data : json) : M unit :=
  dump_json e (CONFIG_FILE e) data.

(** [load_config]; [None] is [JNull]. *)
Definition load_config (e : env) : M json :=
  fun w =>
    if path_exists e (fs w) (CONFIG_FILE e)
    then load_json e (CONFIG_FILE e) w
    else (Ret JNull, w).

(** ** Listing the templates *)

(** [s.endswith(suffix)]. *)
Fixpoint ends_with (suffix s : string) : bool :=
  String.eqb s suffix
  || match s with
     | EmptyString => false
     | String _ s' => ends_with suffix s'
     end.

(** [dir.glob("*.json")]: the names in the directory that end in [.json]
    (a leading dot does not hide a name from [pathlib]), in the order of the
    listing, whatever kind of entry they name; nothing when [dir] is not a
    directory. *)
Definition glob_json (e : env) (fs : node) (dir : PurePath) : list string :=
  match locate e fs dir with
  | Ret q =>
      match lookup_node fs q with
      | Some (Dir es) => List.filter (ends_with ".json") (map fst es)
      | _ => []
      end
  | Raise _ => []
  end.

(** [list_templates]: the templates directory itself and [user_created]
    both go under the prefix [user_created/]. *)
Definition list_templates (e : env) (fs : node) : list string :=
  map (fun name => "defaults/" +:+ name)
    (glob_json e fs (DEFAULT_TEMPLATES_DIR e))
  ++ map (fun name => "user_created/" +:+ name)
       (glob_json e fs (TEMPLATES_DIR e))
  ++ map (fun name => "user_created/" +:+ name)
       (glob_json e fs (USER_CREATED_DIR e)).

(** A store with a default template, a template in the templates directory
    and one in [user_created]. *)
Definition listing_disk : node :=
  Dir [("app",
        Dir [("templates",
              Dir [("defaults", Dir [("ace_basic.json", File (Doc site_template))]);
                   ("file_templates", Dir []);
                   ("user_created", Dir [("mine.json", File (Doc site_template))]);
                   ("site.json", File (Doc site_template));
                   ("notes.txt", File (Text "to do"))])])].

Definition listing_world : world :=
  {| fs := listing_disk; stdout := []; logfile := [] |}.

(* ===================================================================== *)
(** * class TemplateManager: the console *)
(* ===================================================================== *)

(** ** The dialogue of [create_template] *)

(** How a dialogue ends: with a result, with [input] finding no further
    answer ([EOFError], which the code above never meets), or with another
    exception. *)
Inductive asked (A : Type) : Type :=
  | Told (a : A)
  | EndOfAnswers
  | Broke (err : exn).
Arguments Told {A} a.
Arguments EndOfAnswers {A}.
Arguments Broke {A} err.

(** The call of [input] that comes next in the two loops. *)
Inductive prompt : Type :=
  | AskSubdirectory
  | AskFileName (subdir : string)
  | AskFileType (subdir file_name : string)
  | AskSource (subdir file_name : string).

(** [template["subdirectories"][subdir]["files"].append(entry)]. *)
Definition append_file (subdir : string) (entry : json)
    (subdirs : list (string * json)) : res (list (string * json)) :=
  let! contents := py_getitem (JDict subdirs) subdir in
  let! files := py_getitem contents "files" in
  match files with
  | JList l =>
      let! contents' := py_setitem contents "files" (JList (l ++ [entry])) in
      Ret (dict_set subdir contents' subdirs)
  | _ => Raise AttributeError
  end.

(** The two loops of [create_template].  [answers] holds what the calls of
    [input(...).strip()] return, in order; [subdirs] is the mapping under
    ["subdirectories"] as built so far, and [invalid] counts the lines
    "Invalid choice" printed so far.  The result is the mapping when the
    outer loop ends, with the answers not yet used. *)
Fixpoint ask_subdirectories (answers : list string) (next : prompt)
    (subdirs : list (string * json)) (invalid : nat)
  : asked (list (string * json) * nat * list string) :=
  match answers with
  | [] => EndOfAnswers
  | answer :: rest =>
      match next with
      | AskSubdirectory =>
          if String.eqb answer "" then Told (subdirs, invalid, rest)
          else
            ask_subdirectories rest (AskFileName answer)
              (dict_set answer (JDict [("files", JList [])]) subdirs) invalid
      | AskFileName subdir =>
          if String.eqb answer ""
          then ask_subdirectories rest AskSubdirectory subdirs invalid
          else ask_subdirectories rest (AskFileType subdir answer) subdirs
                 invalid
      | AskFileType subdir file_name =>
          if String.eqb answer "1" then
            match append_file subdir
                    (JDict [("name", JStr file_name); ("type", JStr "empty")])
                    subdirs with
            | Ret subdirs' =>
                ask_subdirectories rest (AskFileName subdir) subdirs' invalid
            | Raise err => Broke err
            end
          else if String.eqb answer "2" then
            ask_subdirectories rest (AskSource subdir file_name) subdirs invalid
          else
            ask_subdirectories rest (AskFileName subdir) subdirs (S invalid)
      | AskSource subdir file_name =>
          match append_file subdir
                  (JDict [("name", JStr file_name); ("type", JStr "template");
                          ("source", JStr answer)])
                  subdirs with
          | Ret subdirs' =>
              ask_subdirectories rest (AskFileName subdir) subdirs' invalid
          | Raise err => Broke err
          end
      end
  end.

(** The dialogue of [create_template]: the name under which the template is
    saved, the template, and the number of "Invalid choice" lines. *)
Definition create_template_dialogue (answers : list string)
  : asked (string * json * nat) :=
  match answers with
  | [] => EndOfAnswers
  | main_directory :: answers =>
      match ask_subdirectories answers AskSubdirectory [] 0 with
      | Told (subdirs, invalid, rest) =>
          match rest with
          | [] => EndOfAnswers
          | template_name :: _ =>
              Told (template_name,
                    JDict [("main_directory", JStr main_directory);
                           ("subdirectories", JDict subdirs)],
                    invalid)
          end
      | EndOfAnswers => EndOfAnswers
      | Broke err => Broke err
      end
  end.

(** [create_template]: the dialogue, then [save_template]. *)
Definition create_template (e : env) (answers : list string)
  : asked (M unit) :=
  match create_template_dialogue answers with
  | Told (template_name, template, _) =>
      Told (save_template e template_name template false)
  | EndOfAnswers => EndOfAnswers
  | Broke err => Broke err
  end.

(** The answers that describe [site_template], with one choice that is
    neither 1 nor 2. *)
Definition site_answers : list string :=
  ["site"; "src"; "main.py"; "1"; "notes.txt"; "3"; "readme.txt"; "2";
   "/tpl/readme.txt"; ""; ""; "site.json"].

(** ** The preview *)

(** A line of the preview.  A branch or a leaf is drawn with the connector
    of a last sibling or with that of an earlier one; the leaves of a
    subdirectory are indented by a bar when the subdirectory is not the
    last one.  [file] is the file entry as the f-string renders it. *)
Inductive tree_line : Type :=
  | BlankLine
  | PreviewTitle (main : json)
  | MainDirectory (main : json)
  | Branch (is_last_subdir : bool) (sub : string)
  | EmptyMarker
  | Leaf (is_last_subdir is_last_file : bool) (file : json).

(** The loop over the files of a subdirectory. *)
Fixpoint print_files (is_last_subdir : bool) (files : list json)
  : list tree_line :=
  match files with
  | [] => []
  | [file] => [Leaf is_last_subdir true file]
  | file :: files' =>
      Leaf is_last_subdir false file :: print_files is_last_subdir files'
  end.

(** [print_tree("", contents)]: the lines printed, and how the call ends. *)
Fixpoint print_tree (items : list (string * json))
  : list tree_line * res unit :=
  match items with
  | [] => ([], Ret tt)
  | (sub, contents) :: items' =>
      let is_last_subdir := match items' with [] => true | _ => false end in
      match py_getitem contents "files" with
      | Raise err => ([Branch is_last_subdir sub], Raise err)
      | Ret files =>
          if negb (truthy files) then
            let (lines, r) := print_tree items' in
            (Branch is_last_subdir sub :: EmptyMarker :: lines, r)
          else
            match py_iter files with
            | Raise err => ([Branch is_last_subdir sub], Raise err)
            | Ret seen =>
                let (lines, r) := print_tree items' in
                (Branch is_last_subdir sub
                 :: print_files is_last_subdir seen ++ lines, r)
            end
      end
  end.

(** [display_template_tree] (and [preview_template], which only calls
    it). *)
Definition display_template_tree (template : json)
  : list tree_line * res unit :=
  match py_getitem template "main_directory" with
  | Raise err => ([BlankLine], Raise err)
  | Ret main =>
      let header := [BlankLine; PreviewTitle main; MainDirectory main] in
      match res_bind (py_getitem template "subdirectories") py_items with
      | Raise err => (header, Raise err)
      | Ret items =>
          let (lines, r) := print_tree items in (header ++ lines, r)
      end
  end.

(* ===================================================================== *)
(** * class TemplateManager: the directory map *)
(* ===================================================================== *)

(** [os.path.join(path, name)] for a name that does not start with a
    slash. *)
Definition os_path_join (path name : string) : string :=
  if String.eqb path "" || ends_with "/" path then path +:+ name
  else path +:+ "/" +:+ name.

(** The string that [os.walk(top)] yields as [root] for the directory that
    lies [rel] below the top. *)
Definition walk_root (top : string) (rel : list string) : string :=
  fold_left os_path_join rel top.

(** [s.count(os.sep)]. *)
Fixpoint count_sep (s : string) : nat :=
  match s with
  | EmptyString => 0
  | String c s' => (if Ascii.eqb c "/" then 1 else 0) + count_sep s'
  end.

(** [" " * n]. *)
Fixpoint spaces (n : nat) : string :=
  match n with
  | O => EmptyString
  | S n' => String " " (spaces n')
  end.

(** The lines that the body of the loop of [export_directory_map] writes
    for one directory of the walk. *)
Definition map_lines (root_dir : string) (visit : list string * list string)
  : list string :=
  let root := walk_root root_dir (fst visit) in
  let level := count_sep (str_replace root_dir "" root) in
  let indent := spaces (4 * level) in
  (indent +:+ basename root +:+ "/")
  :: map (fun f => indent +:+ "    " +:+ f) (snd visit).

(** The lines of the whole map. *)
Definition directory_map (root_dir : string)
    (visits : list (list string * list string)) : list string :=
  flat_map (map_lines root_dir) visits.

(** The text of the lines, each ended by a line feed. *)
Definition lines_text (lines : list string) : string :=
  fold_right (fun line text => line +:+ String "010" text) "" lines.

(** A console line of a method of the menu that prints one line as its last
    step; in the model the line is the result of the call. *)
Inductive menu_line : Type :=
  | DirectoryMapExported (output_map_file : string)
  | NotAValidFile (source_path : string)
  | FileTemplateAdded (destination_path : PurePath)
  | ErrorAddingFileTemplate (err : exn).

(** [open(s, "w")] on a [str]: the file is created, or emptied when it is
    there; the result is its place. *)
Definition open_for_writing (e : env) (s : string) : M location :=
  fun w =>
    if String.eqb s "" then (Raise FileNotFoundError, w)
    else
      match locate e (fs w) (Path s) with
      | Raise err => (Raise err, w)
      | Ret q =>
          if ends_with_slash s
          then (Raise (if is_file_at (fs w) q then NotADirectoryError
                       else IsADirectoryError), w)
          else
            match write_file q (Text "") w with
            | (Ret _, w') => (Ret q, w')
            | (Raise err, w') => (Raise err, w')
            end
      end.

(** [export_directory_map]: the walk starts when the map file has been
    opened, and sees it. *)
Definition export_directory_map (e : env) (root_dir output_map_file : string)
  : M menu_line :=
  let* q := open_for_writing e output_map_file in
  (fun w =>
     write_file q
       (Text (lines_text (directory_map root_dir (os_walk e (fs w) root_dir))))
       w) ;;
  M_ret (DirectoryMapExported output_map_file).

(* ===================================================================== *)
(** * class TemplateManager: the file templates *)
(* ===================================================================== *)

(** [p.name]: the last component, or the empty string. *)
Definition path_name (p : PurePath) : string :=
  match last (parts p) with
  | Some name => name
  | None => EmptyString
  end.

(** [add_file_template], for the path answered at the prompt.  The path is
    handed to [shutil.copy] as a [str]; it names a file there, so it names
    what [Path(source_path)] names. *)
Definition add_file_template (e : env) (source_path : string)
  : world -> menu_line * world :=
  fun w =>
    if negb (os_path_isfile e (fs w) source_path)
    then (NotAValidFile source_path, w)
    else
      let destination_path :=
        joinpath (FILE_TEMPLATES_DIR e) (path_name (Path source_path)) in
      match copy e (Path source_path) destination_path w with
      | (Ret _, w') => (FileTemplateAdded destination_path, w')
      | (Raise err, w') => (ErrorAddingFileTemplate err, w')
      end.

(** [list_file_templates]: the names in the directory of the file
    templates ([iterdir] raises when the directory is not there).
    [iterdir] hands the entries out in the order of the system, which
    neither the names nor the time of their making determine: [order] is
    that order, an arrangement of the names the directory holds.  The lines
    printed are a function of the result: that there are none, or a heading
    and the numbered names. *)
Definition list_file_templates (e : env) (order : list string -> list string)
    (fs : node) : res (list string) :=
  let! q := locate e fs (FILE_TEMPLATES_DIR e) in
  match lookup_node fs q with
  | Some (Dir es) => Ret (order (map fst es))
  | Some (File _) => Raise NotADirectoryError
  | None => Raise FileNotFoundError
  end.

(** A store with one file template, and a file to add. *)
Definition file_templates_disk : node :=
  Dir [("app",
        Dir [("templates",
              Dir [("file_templates", Dir [("old.txt", File (Text "old"))])])]);
       ("tpl", Dir [("readme.txt", File (Text "Read me first."))])].

Definition file_templates_world : world :=
  {| fs := file_templates_disk; stdout := []; logfile := [] |}.

(* ===================================================================== *)
(** * class JSONFileMonitorService: the seen-files log as text *)
(* ===================================================================== *)

(** A [str] is held as the string of the bytes of its UTF-8 encoding, in
    which no character starts inside another.  [str.splitlines] ends a
    line at LF, VT, FF, CR, FS, GS and RS, which are one byte each, at CR
    directly followed by LF, at NEL (U+0085, the bytes C2 85), and at the
    line and the paragraph separator (U+2028 and U+2029, the bytes E2 80 A8
    and E2 80 A9). *)

(** The line boundaries of one byte. *)
Definition line_break (c : ascii) : bool :=
  existsb (Ascii.eqb c) ["010"; "011"; "012"; "013"; "028"; "029"; "030"]%char.

(** A character put in front of the lines of the text behind it. *)
Definition in_front (c : ascii) (lines : list string) : list string :=
  match lines with
  | [] => [String c EmptyString]
  | line :: lines' => String c line :: lines'
  end.

(** [s.splitlines()]: the text after the last line boundary is a line
    unless it is empty. *)
Fixpoint splitlines (s : string) : list string :=
  match s with
  | EmptyString => []
  | String c s1 =>
      if line_break c then
        EmptyString
        :: splitlines
             match s1 with
             | String c1 s2 =>
                 if Ascii.eqb c "013" && Ascii.eqb c1 "010" then s2 else s1
             | EmptyString => s1
             end
      else
        match s1 with
        | String c1 s2 =>
            if Ascii.eqb c "194" && Ascii.eqb c1 "133"
            then EmptyString :: splitlines s2
            else
              match s2 with
              | String c2 s3 =>
                  if Ascii.eqb c "226" && Ascii.eqb c1 "128"
                     && (Ascii.eqb c2 "168" || Ascii.eqb c2 "169")
                  then EmptyString :: splitlines s3
                  else in_front c (splitlines s1)
              | EmptyString => in_front c (splitlines s1)
              end
        | EmptyString => in_front c (splitlines s1)
        end
  end.

(** What is left of [s] behind the line boundary it starts with, when it
    starts with one. *)
Definition after_line_break (s : string) : option string :=
  match s with
  | EmptyString => None
  | String c s1 =>
      if line_break c then
        Some match s1 with
             | String c1 s2 =>
                 if Ascii.eqb c "013" && Ascii.eqb c1 "010" then s2 else s1
             | EmptyString => s1
             end
      else
        match s1 with
        | String c1 s2 =>
            if Ascii.eqb c "194" && Ascii.eqb c1 "133" then Some s2
            else
              match s2 with
              | String c2 s3 =>
                  if Ascii.eqb c "226" && Ascii.eqb c1 "128"
                     && (Ascii.eqb c2 "168" || Ascii.eqb c2 "169")
                  then Some s3
                  else None
              | EmptyString => None
              end
        | EmptyString => None
        end
  end.

(** A file opened as text: on writing every LF becomes the line separator
    of the system (CR LF on Windows, LF elsewhere); on reading CR LF and a
    single CR become LF. *)
Fixpoint written_text (crlf : bool) (text : string) : string :=
  match text with
  | EmptyString => EmptyString
  | String c s =>
      if Ascii.eqb c "010" && crlf
      then String "013" (String "010" (written_text crlf s))
      else String c (written_text crlf s)
  end.

Fixpoint read_text (bytes : string) : string :=
  match bytes with
  | EmptyString => EmptyString
  | String c s =>
      if Ascii.eqb c "013" then
        String "010"
          (read_text
             match s with
             | String c' s' => if Ascii.eqb c' "010" then s' else s
             | EmptyString => s
             end)
      else String c (read_text s)
  end.

(** [sorted(files_set)]: by code points. *)
Definition sorted (names : list string) : list string :=
  merge_sort (fun a b => String.leb a b) names.

(** The text [save_seen_files] hands over to be written. *)
Definition seen_files_text (files_set : gset string) : string :=
  String.concat (String "010" "") (sorted (elements files_set)).

(** [load_seen_files], from what [SEEN_FILES_LOG] holds: nothing when the
    file is not there, an exception when it cannot be read; both give the
    empty set. *)
Definition load_seen_files (log : option (res string)) : gset string :=
  match log with
  | Some (Ret bytes) => list_to_set (splitlines (read_text bytes))
  | Some (Raise _) => ∅
  | None => ∅
  end.

(* ===================================================================== *)
(** * Notions of the further properties *)
(* ===================================================================== *)

(** ** A call without a project number *)

(** The name of the entry holds the token ["xxxxx"]. *)
Definition has_placeholder (f : json) : bool :=
  match entry_get "name" f with
  | Some (JStr s) => str_contains "xxxxx" s
  | _ => false
  end.

(** The document with ["main_directory"] set to [main]. *)
Definition with_main_directory (main : string) (t : json) : json :=
  match t with
  | JDict d => JDict (dict_set "main_directory" (JStr main) d)
  | _ => t
  end.

(** A store that holds [plan_template]. *)
Definition plan_disk : node :=
  Dir [("app", Dir [("templates",
                     Dir [("plan.json", File (Doc plan_template))])]);
       ("work", Dir [])].

Definition plan_world : world :=
  {| fs := plan_disk; stdout := []; logfile := [] |}.

(** ** Searching a cloned template *)

(** The query is part of the key of the subdirectory or of one of the file
    names held under it as bare strings. *)
Definition names_hit (query : string) (item : string * json) : bool :=
  str_contains query (fst item)
  || existsb (fun f => match f with
                       | JStr name => str_contains query name
                       | _ => false
                       end)
       match files_list (snd item) with
       | Some files => files
       | None => []
       end.

(** ** Generating where everything is in place *)

(** An entry at which [generate_from_template] leaves the disk alone: an
    ["empty"] entry whose path is there already, or a ["template"] entry
    whose source is not there. *)
Definition settled_entry (e : env) (fs : node) (subdir_path : PurePath)
    (f : json) : Prop :=
  exists name,
    entry_get "name" f = Some (JStr name)
    /\ ((entry_get "type" f = Some (JStr "empty")
         /\ path_exists e fs (joinpath subdir_path name) = true)
        \/ (entry_get "type" f = Some (JStr "template")
            /\ exists source,
                 entry_get "source" f = Some (JStr source)
                 /\ path_exists e fs (Path source) = false)).

(** The warning printed for a ["template"] entry whose source is missing. *)
Definition entry_warning (f : json) : list message :=
  match entry_get "type" f, entry_get "source" f with
  | Some ty, Some (JStr source) =>
      if json_is_str ty "template" then [TemplateFileNotFound (Path source)]
      else []
  | _, _ => []
  end.

(** The world after some lines have been printed. *)
Definition said (lines : list message) (w : world) : world :=
  {| fs := fs w; stdout := stdout w ++ lines; logfile := logfile w |}.

(** A template with a file that is there already and a source that is
    missing, and the disk it meets. *)
Definition settled_template : json :=
  JDict [("main_directory", JStr "site");
         ("subdirectories",
          JDict [("src",
                  JDict [("files",
                          JList [JDict [("name", JStr "main.py");
                                        ("type", JStr "empty")];
                                 JDict [("name", JStr "readme.txt");
                                        ("type", JStr "template");
                                        ("source", JStr "/tpl/gone.txt")]])])])].

Definition settled_disk : node :=
  Dir [("app", Dir [("templates",
                     Dir [("settled.json", File (Doc settled_template))])]);
       ("work",
        Dir [("site",
              Dir [("src", Dir [("main.py", File (Text "print(1)"))])])])].

Definition settled_world : world :=
  {| fs := settled_disk; stdout := []; logfile := [] |}.

(** ** Templates made by the dialogue *)

(** An entry as the dialogue appends it. *)
Definition dialogue_entry (f : json) : Prop :=
  exists name,
    f = JDict [("name", JStr name); ("type", JStr "empty")]
    \/ exists source,
         f = JDict [("name", JStr name); ("type", JStr "template");
                    ("source", JStr source)].

(** A subdirectory value as the dialogue builds it. *)
Definition dialogue_contents (contents : json) : Prop :=
  exists files,
    contents = JDict [("files", JList files)] /\ Forall dialogue_entry files.

Definition dialogue_subdirs (subdirs : list (string * json)) : Prop :=
  Forall (fun item => dialogue_contents (snd item)) subdirs.

(** The subdirectory the dialogue is filling is in the mapping. *)
Definition prompt_known (next : prompt) (subdirs : list (string * json))
  : Prop :=
  match next with
  | AskSubdirectory => True
  | AskFileName subdir
  | AskFileType subdir _
  | AskSource subdir _ => exists contents, dict_get subdir subdirs = Some contents
  end.

(** ** What a preview shows *)

(** The subdirectories and the files a preview shows, in order. *)
Definition shown_subdirectories (lines : list tree_line) : list string :=
  flat_map (fun line => match line with
                        | Branch _ sub => [sub]
                        | _ => []
                        end) lines.

Definition shown_files (lines : list tree_line) : list json :=
  flat_map (fun line => match line with
                        | Leaf _ _ file => [file]
                        | _ => []
                        end) lines.

(** ** The indented listing *)

(** The way below the top, as the walk spells it: every name after a
    slash. *)
Definition below (rel : list string) : string :=
  fold_right (fun name rest => String "/" name +:+ rest) "" rel.

(** The name a directory of the walk is written under. *)
Definition written_name (root_dir : string) (rel : list string) : string :=
  match last rel with
  | Some name => name
  | None => basename root_dir
  end.

(** The lines of a listing in which every directory is indented by four
    spaces for each step below the top, and its files by four more. *)
Definition indented_lines (root_dir : string)
    (visit : list string * list string) : list string :=
  let indent := spaces (4 * length (fst visit)) in
  (indent +:+ written_name root_dir (fst visit) +:+ "/")
  :: map (fun f => indent +:+ "    " +:+ f) (snd visit).

(** ** Names in the seen-files log *)

(** The name holds no line boundary of [str.splitlines]. *)
Fixpoint one_line (name : string) : bool :=
  match name with
  | EmptyString => true
  | String _ s =>
      match after_line_break name with
      | Some _ => false
      | None => one_line s
      end
  end.

(** A name with the line separator (U+2028) in it. *)
Definition separator_name : string :=
  String "a" (String "226" (String "128" (String "168" "b.json"))).

(** ** A write of the seen-files log that fails *)

(** A name with the ohm sign (U+2126) in front, for which the encoding of
    a system may have no character. *)
Definition ohm_name : string :=
  String "226" (String "132" (String "166" ".json")).

(** A round in which the watched directory holds [a.json] and the file of
    that name, neither of which can be parsed, and in which the text of the
    log cannot be encoded ([UnicodeEncodeError] is a [ValueError]). *)
Definition unencodable_round : round_answers :=
  {| listing := Ret ({["a.json"]} ∪ {[ohm_name]});
     answers := fun _ => unparsable_answers;
     save := LogEmptied ValueError |}.

(** ** What stays on the disk *)

(** Every file of [before] is a file of [after] (whatever it holds now),
    and every directory a directory. *)
Definition kept (before after : node) : Prop :=
  forall q,
    (is_file_at before q = true -> is_file_at after q = true)
    /\ (is_dir_at before q = true -> is_dir_at after q = true).

(** A call that keeps every file and every directory, however it ends. *)
Definition keeps_paths {A} (m : M A) : Prop :=
  forall w, kept (fs w) (fs (snd (m w))).

(** ** What the command-line generation creates *)

(** An entry [generate_default] creates a file for: its ["type"] is
    ["empty"]. *)
Definition is_empty_entry (f : json) : bool :=
  match entry_get "type" f with
  | Some ty => json_is_str ty "empty"
  | None => false
  end.

(** A subdirectory entry with nothing but its ["empty"] entries. *)
Definition empty_entries_only (item : string * json) : string * json :=
  match files_list (snd item) with
  | Some files =>
      (fst item, JDict [("files", JList (List.filter is_empty_entry files))])
  | None => item
  end.

(** A file entry with a [str] under ["name"] and something under
    ["type"]. *)
Definition named_entry (f : json) : Prop :=
  exists fi s ty,
    f = JDict fi
    /\ dict_get "name" fi = Some (JStr s)
    /\ dict_get "type" fi = Some ty.

(** What [generate_default] leaves in [/work] for [site_template]: the
    empty file, and no copy of the file template. *)
Definition site_empty_entries : list (string * node) :=
  [("src", Dir [("main.py", File (Text ""))])].

(* ===================================================================== *)
(** * Properties *)
(* ===================================================================== *)

Example replace_doc_example :
  str_replace "xxxxx" "042" "xxxxx_plan_xxxxx.dwg" = "042_plan_042.dwg".
Proof. reflexivity. Qed.

(** ** Elementary facts *)

Lemma json_is_str_true x s : json_is_str x s = true <-> x = JStr s.
Proof.
  destruct x; simpl; try (split; [discriminate | intros H; discriminate H]).
  rewrite String.eqb_eq. split; [intros -> | intros [= ->]]; reflexivity.
Qed.

Lemma type_recognized_true ty :
  type_recognized ty = true <-> ty = JStr "empty" \/ ty = JStr "template".
Proof.
  unfold type_recognized. rewrite orb_true_iff, !json_is_str_true. tauto.
Qed.

Lemma flat_map_nil {A B} (f : A -> list B) l :
  flat_map f l = [] <-> Forall (fun a => f a = []) l.
Proof.
  induction l as [|a l IH]; simpl.
  - split; [constructor | reflexivity].
  - split.
    + intros H. apply app_eq_nil in H as [Ha Hl].
      constructor; [exact Ha | apply IH, Hl].
    + intros H. inversion H as [|? ? Ha Hl]; subst.
      rewrite Ha. apply IH, Hl.
Qed.

(** ** The validator *)

Lemma check_file_info_nil subdir f :
  check_file_info subdir f = [] <-> entry_ok f.
Proof.
  unfold entry_ok, check_file_info.
  destruct f as [| | | |l|fi]; simpl;
    try (split; [discriminate | intros [[H _] _]; congruence]).
  destruct (dict_get "name" fi) as [name|] eqn:Hn;
    [|split; [discriminate | intros [[H _] _]; congruence]].
  destruct (dict_get "type" fi) as [ty|] eqn:Ht;
    [|split; [discriminate | intros [[_ H] _]; congruence]].
  destruct (json_is_str ty "template") eqn:Htpl; simpl.
  - apply json_is_str_true in Htpl. subst ty.
    unfold dict_has. destruct (dict_get "source" fi) eqn:Hs; simpl.
    + split; [|reflexivity]. intros _.
      repeat split; try congruence. intros ty [= <-]. now right.
    + split; [discriminate|]. intros (_ & _ & H). now specialize (H eq_refl).
  - destruct (type_recognized ty) eqn:Hr; simpl.
    + apply type_recognized_true in Hr. split; [|reflexivity]. intros _.
      repeat split; try congruence.
      intros [= ->]. discriminate Htpl.
    + split; [discriminate|]. intros (_ & H & _).
      specialize (H ty eq_refl). apply type_recognized_true in H. congruence.
Qed.

Lemma check_subdir_nil item :
  check_subdir item = []
  <-> exists files, files_list (snd item) = Some files /\ Forall entry_ok files.
Proof.
  destruct item as [subdir contents]. unfold check_subdir, files_list. simpl.
  destruct contents as [| | | |l|c];
    try (split; [discriminate | intros (? & [=] & _)]).
  destruct (dict_get "files" c) as [[| | | |files|]|];
    try (split; [discriminate | intros (? & [=] & _)]).
  rewrite flat_map_nil. split.
  - intros H. exists files. split; [reflexivity|].
    eapply Forall_impl; [exact H|]. intros f. apply check_file_info_nil.
  - intros (files' & [= <-] & H).
    eapply Forall_impl; [exact H|]. intros f. apply check_file_info_nil.
Qed.

Lemma validate_errors_nil t :
  validate_errors t = Ret []
  <-> has_required_keys t
      /\ Forall (fun item => exists files,
                   files_list (snd item) = Some files /\ Forall entry_ok files)
           (subdirectory_items t).
Proof.
  unfold has_required_keys, subdirectory_items, validate_errors.
  destruct t as [| | |s|l|d]; simpl;
    try (split; [discriminate | intros [(? & ? & [=] & _) _]]).
  - (* a str: a subscript with a str fails *)
    split; [|intros [(? & ? & [=] & _) _]].
    destruct (str_contains "subdirectories" s); simpl; [discriminate|].
    destruct (str_contains "main_directory" s); discriminate.
  - (* a list *)
    split; [|intros [(? & ? & [=] & _) _]].
    destruct (existsb _ l); simpl; [discriminate|].
    destruct (existsb _ l); discriminate.
  - unfold dict_has.
    destruct (dict_get "subdirectories" d) as [subdirs|] eqn:Hs; simpl.
    + destruct (dict_get "main_directory" d) as [m|] eqn:Hm; simpl.
      * destruct subdirs as [| | | | |items];
          try (split;
               [discriminate
               | intros [(d' & items & [= <-] & _ & H) _]; congruence]).
        split.
        -- intros [= H]. apply flat_map_nil in H. split.
           ++ exists d, items. repeat split; congruence.
           ++ eapply Forall_impl; [exact H|]. intros item. apply check_subdir_nil.
        -- intros [_ H]. f_equal.
           apply flat_map_nil.
           eapply Forall_impl; [exact H|]. intros item. apply check_subdir_nil.
      * split.
        -- destruct subdirs; discriminate.
        -- intros [(d' & items & [= <-] & Hm' & _) _]. congruence.
    + split.
      * destruct (dict_get "main_directory" d); discriminate.
      * intros [(d' & items & [= <-] & _ & H) _]. congruence.
Qed.

Lemma validate_template_true t name w :
  fst (validate_template t name w) = Ret true <-> validate_errors t = Ret [].
Proof.
  unfold validate_template, M_bind, lift.
  destruct (validate_errors t) as [[|err errs]|e]; simpl;
    split; congruence.
Qed.

Lemma subdirs_ok_split items :
  Forall (fun item : string * json => exists files,
            files_list (snd item) = Some files /\ Forall entry_ok files) items
  <-> Forall (fun item : string * json => files_list (snd item) <> None) items
      /\ Forall entry_ok
           (flat_map (fun item : string * json =>
                        match files_list (snd item) with
                        | Some files => files
                        | None => []
                        end) items).
Proof.
  induction items as [|item items IH]; simpl.
  - split; [intros _; split; constructor | constructor].
  - rewrite Forall_app. split.
    + intros H. inversion H as [|? ? (files & Hf & Hok) Hrest]; subst.
      apply IH in Hrest as [H1 H2]. rewrite Hf.
      repeat split; [constructor; [congruence | exact H1] | exact Hok | exact H2].
    + intros (H1 & Hok & H2). inversion H1 as [|? ? Hne Hrest]; subst.
      constructor; [|apply IH; split; assumption].
      destruct (files_list (snd item)) as [files|]; [|congruence].
      exists files. split; [reflexivity | exact Hok].
Qed.

(** C2, as amended.  [validate_template] returns [True] exactly when the
    document is a mapping that has the keys ["main_directory"] and
    ["subdirectories"], the latter holding a mapping, and the four conditions
    hold: every subdirectory value has a ["files"] list, every file entry
    has ["name"] and ["type"], every ["type"] is ["empty"] or ["template"],
    and every ["template"] entry has a ["source"]. *)
Theorem validate_template_success_iff (t : json) (name : string) (w : world) :
  fst (validate_template t name w) = Ret true
  <-> has_required_keys t /\ four_conditions t.
Proof.
  rewrite validate_template_true, validate_errors_nil, subdirs_ok_split.
  unfold four_conditions, every_subdirectory_has_files,
    every_entry_has_name_and_type, every_type_is_recognized,
    every_template_entry_has_source, file_entries, entry_ok.
  rewrite !Forall_and. tauto.
Qed.

(** C2, as stated, fails: a document without ["main_directory"] meets the
    four conditions, and [validate_template] returns [False] on it. *)
Lemma four_conditions_do_not_suffice :
  four_conditions doc_without_main
  /\ validate_errors doc_without_main
     = Ret [MissingRequiredKey "main_directory"]
  /\ fst (validate_template doc_without_main "t.json" blank) = Ret false.
Proof.
  split; [|split; reflexivity].
  unfold four_conditions, every_subdirectory_has_files,
    every_entry_has_name_and_type, every_type_is_recognized,
    every_template_entry_has_source.
  simpl. repeat split; repeat (apply Forall_cons_2 || apply Forall_nil_2);
    simpl; try congruence.
  - split; congruence.
  - intros ty Hty. left. congruence.
Qed.

(** ** Substitution *)

Lemma dict_get_set_eq {A} k (v : A) d : dict_get k (dict_set k v d) = Some v.
Proof.
  induction d as [|[k' v'] d IH]; simpl.
  - now rewrite String.eqb_refl.
  - destruct (String.eqb k' k) eqn:E; simpl.
    + now rewrite String.eqb_refl.
    + now rewrite E.
Qed.

Lemma dict_get_set_ne {A} k k' (v : A) d :
  k <> k' -> dict_get k' (dict_set k v d) = dict_get k' d.
Proof.
  intros Hne. induction d as [|[k0 v0] d IH]; simpl.
  - destruct (String.eqb k k') eqn:E; [|reflexivity].
    apply String.eqb_eq in E. contradiction.
  - destruct (String.eqb k0 k) eqn:E; simpl.
    + apply String.eqb_eq in E. subst k0.
      destruct (String.eqb k k') eqn:E'; [|reflexivity].
      apply String.eqb_eq in E'. contradiction.
    + now rewrite IH.
Qed.

Lemma dict_set_same {A} k (v : A) d : dict_get k d = Some v -> dict_set k v d = d.
Proof.
  induction d as [|[k' v'] d IH]; simpl; [discriminate|].
  destruct (String.eqb k' k) eqn:E.
  - apply String.eqb_eq in E. intros [= ->]. now subst.
  - intros H. now rewrite IH.
Qed.

Lemma dict_set_set {A} k (v v' : A) d :
  dict_set k v' (dict_set k v d) = dict_set k v' d.
Proof.
  induction d as [|[k0 v0] d IH]; simpl.
  - now rewrite String.eqb_refl.
  - destruct (String.eqb k0 k) eqn:E; simpl.
    + now rewrite String.eqb_refl.
    + now rewrite E, IH.
Qed.

Lemma res_map_ret {A B} (f : A -> res B) (g : A -> B) l :
  Forall (fun a => f a = Ret (g a)) l -> res_map f l = Ret (map g l).
Proof.
  induction 1 as [|a l Ha _ IH]; simpl; [reflexivity|].
  now rewrite Ha, IH.
Qed.

(** *** Facts about [str.replace] *)

Lemma prefix_nil_l s : String.prefix "" s = true.
Proof. destruct s; reflexivity. Qed.

Lemma prefix_cons a p b s :
  String.prefix (String a p) (String b s)
  = if ascii_dec a b then String.prefix p s else false.
Proof. reflexivity. Qed.

Lemma prefix_shorter p q s :
  String.prefix p q = true -> String.prefix q s = true -> String.prefix p s = true.
Proof.
  revert q s. induction p as [|a p IH]; intros q s Hpq Hqs;
    [apply prefix_nil_l|].
  destruct q as [|b q]; [discriminate|].
  destruct s as [|c s]; [discriminate|].
  rewrite prefix_cons in *.
  destruct (ascii_dec a b) as [->|]; [|discriminate].
  destruct (ascii_dec b c) as [->|]; [|discriminate].
  eauto.
Qed.

Lemma replace_absent old new s :
  str_contains old s = false -> str_replace old new s = s.
Proof.
  unfold str_replace. destruct old as [|a old].
  - destruct s; discriminate.
  - induction s as [|c s IH]; [reflexivity|].
    cbn [str_contains replace_from]. intros H.
    apply orb_false_iff in H as [Hp Hs]. rewrite Hp. now rewrite IH.
Qed.

Lemma x_free_cons c s :
  x_free (String c s) -> c <> "x"%char /\ x_free s.
Proof.
  unfold x_free. cbn [str_contains]. intros H.
  apply orb_false_iff in H as [Hp Hs]. split; [|exact Hs].
  intros ->. rewrite prefix_cons in Hp.
  destruct (ascii_dec "x" "x") as [_|ne]; [|now apply ne].
  rewrite prefix_nil_l in Hp. discriminate Hp.
Qed.

Lemma token_not_across new rest :
  x_free new ->
  str_contains "xxxxx" (new +:+ rest) = str_contains "xxxxx" rest.
Proof.
  induction new as [|c new IH]; intros Hx; [reflexivity|].
  apply x_free_cons in Hx as [Hc Hx].
  change (String c new +:+ rest) with (String c (new +:+ rest)).
  cbn [str_contains]. rewrite IH by exact Hx.
  rewrite prefix_cons.
  destruct (ascii_dec "x" c) as [<-|]; [congruence | reflexivity].
Qed.

(** A run of the token's letter at the head of the result was already at
    the head of the argument. *)
Lemma replace_head new p s :
  x_free new ->
  String.prefix p "xxxxx" = true ->
  String.prefix p (replace_from "xxxxx" new 0 s) = true ->
  String.prefix p s = true.
Proof.
  intros Hx. revert p. induction s as [|c s IH]; intros p Hp Hout.
  - exact Hout.
  - cbn [replace_from] in Hout.
    destruct (String.prefix "xxxxx" (String c s)) eqn:Hm.
    + apply prefix_shorter with (q := "xxxxx"); assumption.
    + destruct p as [|a p]; [apply prefix_nil_l|].
      rewrite prefix_cons in Hout |- *.
      destruct (ascii_dec a c) as [->|]; [|discriminate].
      apply IH; [|exact Hout].
      apply prefix_shorter with (q := "xxxx"); [|reflexivity].
      rewrite prefix_cons in Hp.
      destruct (ascii_dec c "x"); [exact Hp | discriminate].
Qed.

Lemma replace_leaves_no_token new skip s :
  x_free new ->
  str_contains "xxxxx" (replace_from "xxxxx" new skip s) = false.
Proof.
  intros Hx. revert skip. induction s as [|c s IH]; intros skip.
  - reflexivity.
  - destruct skip as [|k]; [|apply IH].
    destruct (String.prefix "xxxxx" (String c s)) eqn:Hm.
    + cbn [replace_from]. rewrite Hm.
      rewrite token_not_across by exact Hx. apply IH.
    + destruct (String.prefix "xxxxx" (replace_from "xxxxx" new 0 (String c s)))
        eqn:Hout.
      * apply replace_head in Hout; [congruence | exact Hx | reflexivity].
      * cbn [replace_from] in Hout |- *. rewrite Hm in Hout |- *.
        cbn [str_contains]. rewrite Hout. apply IH.
Qed.

Lemma str_replace_idempotent new s :
  x_free new ->
  str_replace "xxxxx" new (str_replace "xxxxx" new s) = str_replace "xxxxx" new s.
Proof.
  intros Hx. apply replace_absent. now apply replace_leaves_no_token.
Qed.

(** *** [modify_template] against the words of the specification *)

Lemma modify_file_typed pn f :
  typed_entry f -> modify_file (Some pn) f = Ret (rename_entry pn f).
Proof.
  intros (fi & name & -> & Hname). unfold modify_file, rename_entry. simpl.
  unfold dict_has. rewrite Hname. simpl.
  destruct (str_contains "xxxxx" name) eqn:Htok; [reflexivity|].
  rewrite replace_absent by exact Htok.
  now rewrite dict_set_same.
Qed.

Lemma modify_contents_typed pn contents :
  typed_contents contents ->
  modify_contents (Some pn) contents = Ret (rename_contents pn contents).
Proof.
  intros (c & files & -> & Hfiles & Htyped).
  unfold modify_contents, rename_contents. simpl.
  unfold dict_has. rewrite Hfiles. simpl.
  rewrite (res_map_ret _ (rename_entry pn)); [reflexivity|].
  eapply Forall_impl; [exact Htyped|]. intros f. apply modify_file_typed.
Qed.

Lemma modify_template_typed pn pname t :
  typed_template t ->
  modify_template t (Some pn) (Some pname) = Ret (substituted pn pname t).
Proof.
  intros (d & items & -> & Hsub & Htyped).
  unfold modify_template, substituted. simpl.
  rewrite dict_get_set_ne by discriminate. rewrite Hsub. simpl.
  rewrite (res_map_ret _ (rename_item pn)); [reflexivity|].
  eapply Forall_impl; [exact Htyped|]. intros [subdir contents] H.
  unfold modify_item, rename_item. simpl in *.
  now rewrite modify_contents_typed.
Qed.

Lemma rename_entry_idempotent pn f :
  x_free pn -> rename_entry pn (rename_entry pn f) = rename_entry pn f.
Proof.
  intros Hx. unfold rename_entry at 2 3.
  destruct f as [| | | | |fi]; try reflexivity.
  destruct (dict_get "name" fi) as [[| | |name| |]|] eqn:Hname;
    try (simpl; now rewrite Hname).
  simpl. rewrite dict_get_set_eq, dict_set_set.
  now rewrite str_replace_idempotent.
Qed.

Lemma rename_contents_idempotent pn contents :
  x_free pn ->
  rename_contents pn (rename_contents pn contents) = rename_contents pn contents.
Proof.
  intros Hx. unfold rename_contents at 2 3.
  destruct contents as [| | | | |c]; try reflexivity.
  destruct (dict_get "files" c) as [[| | | |files|]|] eqn:Hfiles;
    try (simpl; now rewrite Hfiles).
  simpl. rewrite dict_get_set_eq, dict_set_set. do 3 f_equal.
  rewrite map_map. apply map_ext. intros f. now apply rename_entry_idempotent.
Qed.

Lemma substituted_idempotent pn pname t :
  x_free pn ->
  substituted pn pname (substituted pn pname t) = substituted pn pname t.
Proof.
  intros Hx. unfold substituted at 2 3.
  destruct t as [| | | | |d]; try reflexivity.
  set (main := JStr (pname +:+ "-" +:+ pn)).
  destruct (dict_get "subdirectories" (dict_set "main_directory" main d))
    as [[| | | | |items]|] eqn:Hsub;
    try (unfold substituted; fold main; now rewrite Hsub).
  unfold substituted. fold main.
  rewrite (dict_set_same "main_directory" main);
    [|rewrite dict_get_set_ne by discriminate; apply dict_get_set_eq].
  rewrite dict_get_set_eq, dict_set_set. do 3 f_equal.
  rewrite map_map. apply map_ext. intros [subdir contents].
  unfold rename_item. simpl. now rewrite rename_contents_idempotent.
Qed.

Lemma rename_entry_typed pn f : typed_entry f -> typed_entry (rename_entry pn f).
Proof.
  intros (fi & name & -> & Hname). unfold rename_entry. rewrite Hname.
  eexists _, _. split; [reflexivity | apply dict_get_set_eq].
Qed.

Lemma rename_contents_typed pn contents :
  typed_contents contents -> typed_contents (rename_contents pn contents).
Proof.
  intros (c & files & -> & Hfiles & Htyped). unfold rename_contents.
  rewrite Hfiles. eexists _, _.
  split; [reflexivity | split; [apply dict_get_set_eq|]].
  apply Forall_map. eapply Forall_impl; [exact Htyped|].
  intros f. apply rename_entry_typed.
Qed.

Lemma substituted_typed pn pname t :
  typed_template t -> typed_template (substituted pn pname t).
Proof.
  intros (d & items & -> & Hsub & Htyped). unfold substituted.
  rewrite dict_get_set_ne by discriminate. rewrite Hsub.
  eexists _, _. split; [reflexivity | split; [apply dict_get_set_eq|]].
  apply Forall_map. eapply Forall_impl; [exact Htyped|].
  intros [subdir contents]. apply rename_contents_typed.
Qed.

Lemma substituted_main_directory pn pname t :
  typed_template t ->
  py_getitem (substituted pn pname t) "main_directory"
  = Ret (JStr (pname +:+ "-" +:+ pn)).
Proof.
  intros (d & items & -> & Hsub & _). unfold substituted.
  rewrite dict_get_set_ne by discriminate. rewrite Hsub. simpl.
  rewrite dict_get_set_ne by discriminate. now rewrite dict_get_set_eq.
Qed.

Lemma substituted_file_entries pn pname t :
  typed_template t ->
  file_entries (substituted pn pname t) = map (rename_entry pn) (file_entries t).
Proof.
  intros (d & items & -> & Hsub & Htyped). unfold substituted.
  rewrite dict_get_set_ne by discriminate. rewrite Hsub.
  unfold file_entries, subdirectory_items.
  rewrite dict_get_set_eq, Hsub. clear Hsub.
  induction Htyped as [|[subdir contents] items Hc _ IH]; [reflexivity|].
  simpl in Hc |- *. rewrite map_app, IH. f_equal.
  destruct Hc as (c & files & -> & Hfiles & _). simpl.
  rewrite Hfiles. simpl. now rewrite dict_get_set_eq.
Qed.

Lemma plan_template_typed : typed_template plan_template.
Proof.
  eexists _, _. split; [reflexivity | split; [reflexivity|]].
  repeat constructor. eexists _, _.
  split; [reflexivity | split; [reflexivity|]].
  repeat constructor. eexists _, _. split; reflexivity.
Qed.

(** C4, as amended.  On a template of the data model, [modify_template]
    sets ["main_directory"] to [project_name-project_number] and replaces
    the token ["xxxxx"] in the name of every file entry by the project
    number, as [str.replace] does; and when the project number does not
    contain the letter [x], a second call with the same arguments returns
    the template unchanged. *)
Theorem modify_template_substitutes (t : json) (pn pname : string) :
  typed_template t ->
  modify_template t (Some pn) (Some pname) = Ret (substituted pn pname t)
  /\ py_getitem (substituted pn pname t) "main_directory"
     = Ret (JStr (pname +:+ "-" +:+ pn))
  /\ file_entries (substituted pn pname t)
     = map (rename_entry pn) (file_entries t)
  /\ (x_free pn ->
      modify_template (substituted pn pname t) (Some pn) (Some pname)
      = Ret (substituted pn pname t)).
Proof.
  intros Ht. split; [now apply modify_template_typed|].
  split; [now apply substituted_main_directory|].
  split; [now apply substituted_file_entries|].
  intros Hx. rewrite modify_template_typed by now apply substituted_typed.
  now rewrite substituted_idempotent.
Qed.

Lemma modify_template_substitutes_witness :
  typed_template plan_template
  /\ modify_template plan_template (Some "042") (Some "Acme")
     = Ret (substituted "042" "Acme" plan_template)
  /\ py_getitem (substituted "042" "Acme" plan_template) "main_directory"
     = Ret (JStr "Acme-042")
  /\ file_entries (substituted "042" "Acme" plan_template)
     = [JDict [("name", JStr "042_plan.dwg"); ("type", JStr "empty")]]
  /\ modify_template (substituted "042" "Acme" plan_template)
       (Some "042") (Some "Acme")
     = Ret (substituted "042" "Acme" plan_template).
Proof.
  split; [exact plan_template_typed|].
  destruct (modify_template_substitutes plan_template "042" "Acme"
              plan_template_typed) as (H1 & H2 & H3 & H4).
  split; [exact H1|]. split; [exact H2|]. split; [exact H3|].
  apply H4. reflexivity.
Defined.

(** C4, as stated, fails: with the project number ["xxxxx-7"] the second
    call changes the name once more. *)
Lemma modify_template_not_idempotent :
  modify_template plan_template (Some "xxxxx-7") (Some "Acme")
  = Ret plan_template_once
  /\ modify_template plan_template_once (Some "xxxxx-7") (Some "Acme")
     = Ret plan_template_twice
  /\ plan_template_once <> plan_template_twice.
Proof.
  split; [reflexivity|]. split; [reflexivity|]. discriminate.
Qed.

(** ** Searching *)

(** On file entries that are mappings, the test [query in f] looks at the
    keys of the entry, not at the file name it holds. *)
Lemma any_in_mappings query files :
  Forall (fun f => exists fi, f = JDict fi) files ->
  any_in query files
  = Ret (existsb (fun f => match entry_get query f with
                           | Some _ => true
                           | None => false
                           end) files).
Proof.
  induction 1 as [|f files (fi & ->) _ IH]; [reflexivity|].
  cbn [any_in existsb py_in res_bind entry_get]. unfold dict_has.
  destruct (dict_get query fi); [reflexivity | exact IH].
Qed.

(** C5, the defect.  [site_template] passes validation and its
    subdirectory ["src"] holds a file named ["main.py"], yet a search for
    ["main"] finds nothing, and a search for ["name"], a key of every file
    entry, finds ["src"]. *)
Theorem search_template_misses_file_names :
  validate_errors site_template = Ret []
  /\ str_contains "main" "main.py" = true
  /\ search_results site_template "main" = Ret []
  /\ search_results site_template "name" = Ret ["src"]
  /\ search_template demo_env "site.json" "main" demo_world
     = (Ret tt, {| fs := demo_disk; stdout := [NoMatchesFound]; logfile := [] |}).
Proof. repeat split; reflexivity. Qed.

(** ** Loading *)

Lemma stored_exists e fs name :
  path_exists e fs (template_path e name)
  = match stored e fs name with Some _ => true | None => false end.
Proof.
  unfold path_exists, stored, exists_at.
  destruct (locate e fs (template_path e name)); reflexivity.
Qed.

(** A stored document is what [load_template] returns. *)
Lemma load_stored_template e name w t :
  stored e (fs w) name = Some (File (Doc t)) ->
  load_template e name w = (Ret t, w).
Proof.
  intros Hs. unfold load_template. rewrite stored_exists, Hs. simpl.
  revert Hs. unfold stored, load_json.
  destruct (locate e (fs w) (template_path e name)) as [q|err]; [|discriminate].
  now intros ->.
Qed.

(** C8, as amended.  A name that starts with ["defaults/"] is looked up in
    the defaults directory, any other name in the templates directory
    itself, the prefix removed.  When nothing is stored there,
    [load_template] reports it and returns [None]; a stored JSON document is
    returned; and a stored file that is not JSON makes [load_template] raise
    the decoding error to its caller. *)
Theorem load_template_outcomes (e : env) (template_name : string) (w : world) :
  template_path e template_name
  = (if String.prefix "defaults/" template_name
     then joinpath (joinpath (joinpath (script_dir e) "templates") "defaults")
            (str_replace "defaults/" "" template_name)
     else joinpath (joinpath (script_dir e) "templates")
            (str_replace "user_created/" "" template_name))
  /\ (stored e (fs w) template_name = None ->
      load_template e template_name w
      = (Ret JNull,
         {| fs := fs w;
            stdout := stdout w ++ [TemplateDoesNotExist template_name];
            logfile := logfile w |}))
  /\ (forall d, stored e (fs w) template_name = Some (File (Doc d)) ->
      load_template e template_name w = (Ret d, w))
  /\ (forall bytes, stored e (fs w) template_name = Some (File (Text bytes)) ->
      load_template e template_name w = (Raise JSONDecodeError, w)).
Proof.
  split; [reflexivity|].
  unfold load_template. rewrite stored_exists.
  unfold stored, load_json.
  destruct (locate e (fs w) (template_path e template_name)) as [q|err].
  - split; [|split].
    + intros ->. reflexivity.
    + intros d ->. reflexivity.
    + intros bytes ->. reflexivity.
  - split; [|split].
    + reflexivity.
    + discriminate.
    + discriminate.
Qed.

Lemma load_template_outcomes_witness :
  load_template demo_env "absent.json" demo_world
  = (Ret JNull,
     {| fs := demo_disk; stdout := [TemplateDoesNotExist "absent.json"];
        logfile := [] |})
  /\ load_template demo_env "user_created/site.json" demo_world
     = (Ret site_template, demo_world)
  /\ load_template demo_env "broken.json" demo_world
     = (Raise JSONDecodeError, demo_world).
Proof.
  split; [|split].
  - apply (load_template_outcomes demo_env "absent.json" demo_world).
    reflexivity.
  - apply (load_template_outcomes demo_env "user_created/site.json" demo_world).
    reflexivity.
  - apply (load_template_outcomes demo_env "broken.json" demo_world) with "{".
    reflexivity.
Defined.

(** C8, as stated, fails: the file under ["broken.json"] is there and is
    not JSON, and [load_template] does not return [None], it raises. *)
Lemma load_template_raises_on_malformed :
  stored demo_env demo_disk "broken.json" = Some (File (Text "{"))
  /\ load_template demo_env "broken.json" demo_world
     = (Raise JSONDecodeError, demo_world).
Proof. split; reflexivity. Qed.

(** ** Generation stops at the validation *)

Lemma M_bind_assoc {A B C} (m : M A) (f : A -> M B) (g : B -> M C) w :
  M_bind (M_bind m f) g w = M_bind m (fun a => M_bind (f a) g) w.
Proof. unfold M_bind. destruct (m w) as [[a|err] w1]; reflexivity. Qed.

Lemma load_template_keeps_disk e name w :
  fs (snd (load_template e name w)) = fs w
  /\ logfile (snd (load_template e name w)) = logfile w.
Proof.
  unfold load_template, load_json.
  destruct (negb (path_exists e (fs w) (template_path e name)));
    [split; reflexivity|].
  destruct (locate e (fs w) (template_path e name)) as [q|err];
    [|split; reflexivity].
  destruct (lookup_node (fs w) q) as [[[bytes|d]|es]|]; split; reflexivity.
Qed.

Lemma prepared_template_keeps_disk e name pn pname w :
  fs (snd (prepared_template e name pn pname w)) = fs w
  /\ logfile (snd (prepared_template e name pn pname w)) = logfile w.
Proof.
  unfold prepared_template, M_bind.
  pose proof (load_template_keeps_disk e name w) as H.
  destruct (load_template e name w) as [[t|err] w1]; [|exact H].
  destruct (negb (String.eqb pn "") && negb (String.eqb pname ""));
    [|exact H].
  unfold lift. simpl. exact H.
Qed.

(** What [generate_from_template] does once the template is prepared. *)
Lemma generate_from_template_prepared e name out pn pname w :
  generate_from_template e name out pn pname w
  = M_bind (prepared_template e name pn pname)
      (fun template =>
         if negb (truthy template) then M_ret tt
         else
           let* valid := validate_template template name in
           if negb valid then print GenerationAborted
           else
             let* main_name := lift (py_getitem template "main_directory") in
             let* main_dir := lift (path_div (Path out) main_name) in
             makedirs e main_dir ;;
             let* subdirs := lift (py_getitem template "subdirectories") in
             let* items := lift (py_items subdirs) in
             M_for items (generate_subdir e main_dir) ;;
             print (StructureGenerated main_dir) ;;
             log (StructureGenerated main_dir)) w.
Proof.
  unfold generate_from_template, prepared_template.
  now rewrite M_bind_assoc.
Qed.

(** C3.  When the template that [generate_from_template] has loaded (and
    modified, if project arguments were given) fails validation, the call
    ends with the disk and the log file as they were: no directory and no
    file has been created or overwritten. *)
Theorem generate_invalid_template_leaves_disk (e : env)
    (name out pn pname : string) (w w1 : world) (t : json) :
  prepared_template e name pn pname w = (Ret t, w1) ->
  validate_errors t <> Ret [] ->
  fs (snd (generate_from_template e name out pn pname w)) = fs w
  /\ logfile (snd (generate_from_template e name out pn pname w)) = logfile w.
Proof.
  intros Hprep Hinvalid.
  pose proof (prepared_template_keeps_disk e name pn pname w) as Hkeep.
  rewrite Hprep in Hkeep. simpl in Hkeep.
  rewrite generate_from_template_prepared.
  match goal with |- context [M_bind _ ?k w] => set (rest := k) end.
  unfold M_bind. rewrite Hprep. subst rest. cbv beta.
  destruct (negb (truthy t)); [exact Hkeep|].
  unfold validate_template, M_bind, lift, print, M_ret.
  destruct (validate_errors t) as [[|err errs]|err]; simpl;
    [congruence | exact Hkeep | exact Hkeep].
Qed.

Lemma generate_invalid_template_leaves_disk_witness :
  fs (snd (generate_from_template demo_env "draft.json" "/work" "" ""
             demo_world)) = demo_disk
  /\ logfile (snd (generate_from_template demo_env "draft.json" "/work" "" ""
                     demo_world)) = [].
Proof.
  apply (generate_invalid_template_leaves_disk demo_env "draft.json" "/work"
           "" "" demo_world demo_world doc_without_main).
  - reflexivity.
  - discriminate.
Defined.

(** The stored template [draft.json] has no ["main_directory"] and does not
    validate.  With project arguments, [modify_template] supplies the key
    before the validation, and the generation goes through. *)
Example generate_draft_with_project :
  validate_errors doc_without_main = Ret [MissingRequiredKey "main_directory"]
  /\ prepared_template demo_env "draft.json" "042" "Acme" demo_world
     = (Ret (substituted "042" "Acme" doc_without_main), demo_world)
  /\ validate_errors (substituted "042" "Acme" doc_without_main) = Ret []
  /\ lookup_node
       (fs (snd (generate_from_template demo_env "draft.json" "/work"
                   "042" "Acme" demo_world)))
       ["work"; "Acme-042"; "docs"; "readme.txt"]
     = Some (File (Text "")).
Proof. repeat split; reflexivity. Qed.

(** ** The command-line generation *)

(** The inner loop of [generate_default] passes over every entry whose type
    is not ["empty"], whatever its source. *)
Lemma generate_default_file_passes_over e subdir_path fi name ty w :
  dict_get "name" fi = Some (JStr name) ->
  dict_get "type" fi = Some ty ->
  json_is_str ty "empty" = false ->
  generate_default_file e subdir_path (JDict fi) w = (Ret tt, w).
Proof.
  intros Hname Hty Hempty.
  unfold generate_default_file, M_bind, lift. simpl.
  now rewrite Hname, Hty, Hempty.
Qed.

(** C6, the defect.  [site_template] is valid and the source of its
    ["template"] entry exists.  The interactive generation copies it; the
    generation started by [--generate] makes the directories and the empty
    file, and neither copies the source nor prints a warning. *)
Theorem generate_default_skips_template_files :
  validate_errors site_template = Ret []
  /\ path_exists demo_env demo_disk (Path "/tpl/readme.txt") = true
  /\ (let w' := snd (generate_from_template demo_env "site.json" "/work"
                       "042" "Acme" demo_world) in
      lookup_node (fs w') ["work"; "Acme-042"; "src"; "main.py"]
      = Some (File (Text ""))
      /\ lookup_node (fs w') ["work"; "Acme-042"; "src"; "readme.txt"]
         = Some (File (Text "Read me first.")))
  /\ (let w' := snd (main_generate demo_env "site.json" "/work"
                       (Some "Acme") (Some "042") demo_world) in
      fst (main_generate demo_env "site.json" "/work"
             (Some "Acme") (Some "042") demo_world) = Ret tt
      /\ lookup_node (fs w') ["work"; "Acme-042"; "src"; "main.py"]
         = Some (File (Text ""))
      /\ lookup_node (fs w') ["work"; "Acme-042"; "src"; "readme.txt"] = None
      /\ stdout w' = [Generating "site.json" "/work";
                      NoValidationErrors "site.json"]).
Proof. repeat split; reflexivity. Qed.

(** ** The watcher *)

Example run_directory_manager_smooth :
  run_directory_manager "a.json" smooth_answers
  = [CopiedJSON "Acme-042"; Processed "Acme-042"].
Proof. reflexivity. Qed.

Example run_directory_manager_failed_launch :
  run_directory_manager "a.json" failed_launch_answers
  = [ErrorRunning CalledProcessError].
Proof. reflexivity. Qed.

Example run_directory_manager_missing_key :
  run_directory_manager "a.json" missing_key_answers = [MissingKeys "a.json"].
Proof. reflexivity. Qed.

Example run_directory_manager_unparsable :
  run_directory_manager "a.json" unparsable_answers
  = [ErrorRunning JSONDecodeError].
Proof. reflexivity. Qed.

Lemma handle_files_seen r m (names : list string) :
  seen_files (foldl (handle_file r) m names) = list_to_set names ∪ seen_files m.
Proof.
  revert m. induction names as [|name names IH]; intros m; simpl.
  - set_solver.
  - rewrite IH. simpl. set_solver.
Qed.

Lemma handle_files_handled r m (names : list string) :
  handled (foldl (handle_file r) m names) = handled m ++ names.
Proof.
  revert m. induction names as [|name names IH]; intros m; simpl.
  - now rewrite app_nil_r.
  - rewrite IH. simpl. now rewrite <- app_assoc.
Qed.

(** One round: the names listed end up in the set, nothing leaves it, and
    the names handled are new ones, each once. *)
Lemma poll_seen m r :
  seen_files m ⊆ seen_files (poll m r)
  /\ (forall current, listing r = Ret current -> current ⊆ seen_files (poll m r))
  /\ (exists new,
        handled (poll m r) = handled m ++ new
        /\ NoDup new
        /\ (forall name, name ∈ new ->
              (name ∉ seen_files m) /\ name ∈ seen_files (poll m r))).
Proof.
  unfold poll. destruct (listing r) as [current|err]; simpl.
  - rewrite handle_files_seen, handle_files_handled.
    split; [set_solver|]. split.
    + intros current' [= <-]. intros name Hname.
      destruct (decide (name ∈ seen_files m)); set_solver.
    + exists (elements (current ∖ seen_files m)).
      split; [reflexivity|]. split; [apply NoDup_elements|].
      intros name Hname. set_solver.
  - split; [set_solver|]. split; [discriminate|].
    exists []. split; [now rewrite app_nil_r|]. split; [constructor|].
    intros name Hname. inversion Hname.
Qed.

Lemma monitor_directory_grows m rounds :
  seen_files m ⊆ seen_files (monitor_directory m rounds).
Proof.
  unfold monitor_directory. revert m.
  induction rounds as [|r rounds IH]; intros m; simpl; [set_solver|].
  pose proof (poll_seen m r) as (H & _). specialize (IH (poll m r)). set_solver.
Qed.

(** Any number of rounds: the names handled are names that were not in the
    set, each once; they are in the set afterwards. *)
Lemma monitor_directory_handles_new m rounds :
  exists later,
    handled (monitor_directory m rounds) = handled m ++ later
    /\ NoDup later
    /\ (forall name, name ∈ later ->
          (name ∉ seen_files m)
          /\ name ∈ seen_files (monitor_directory m rounds)).
Proof.
  revert m. induction rounds as [|r rounds IH]; intros m.
  - exists []. split; [symmetry; apply app_nil_r|]. split; [constructor|].
    intros name H. inversion H.
  - destruct (poll_seen m r) as (Hgrow & _ & new & Hnew & Hnd & Hfresh).
    destruct (IH (poll m r)) as (later & Hlater & Hnd' & Hfresh').
    pose proof (monitor_directory_grows (poll m r) rounds) as Hgrow'.
    change (monitor_directory m (r :: rounds))
      with (monitor_directory (poll m r) rounds).
    exists (new ++ later). split; [|split].
    + rewrite Hlater, Hnew. now rewrite <- app_assoc.
    + apply NoDup_app. split; [exact Hnd|]. split; [|exact Hnd'].
      intros name H1 H2. apply Hfresh in H1. apply Hfresh' in H2. tauto.
    + intros name Hname. apply elem_of_app in Hname as [H|H].
      * apply Hfresh in H. set_solver.
      * apply Hfresh' in H. set_solver.
Qed.

(** C9.  Take the watcher in any state, let it make one round [r] and then
    any further rounds, whatever the surroundings answer (unparsable
    descriptors, missing keys and failing generation processes included).
    Every name listed in round [r] is in the seen set when the round ends;
    no name leaves the set, in that round or later; and in the later rounds
    [run_directory_manager] is called only for names that were not in the
    set at the end of round [r], and once for each. *)
Theorem seen_files_only_grow_and_guard (m : monitor) (r : round_answers)
    (after : list round_answers) :
  let m1 := poll m r in
  let m2 := monitor_directory m1 after in
  (forall current name,
     listing r = Ret current -> name ∈ current -> name ∈ seen_files m1)
  /\ seen_files m ⊆ seen_files m1
  /\ seen_files m1 ⊆ seen_files m2
  /\ (exists later,
        handled m2 = handled m1 ++ later
        /\ NoDup later
        /\ (forall name, name ∈ later -> name ∉ seen_files m1)).
Proof.
  intros m1 m2.
  destruct (poll_seen m r) as (Hgrow & Hlisted & _).
  split; [intros current name Hl Hin; now apply (Hlisted current Hl)|].
  split; [exact Hgrow|].
  split; [apply monitor_directory_grows|].
  destruct (monitor_directory_handles_new m1 after) as (later & H1 & H2 & H3).
  exists later. split; [exact H1|]. split; [exact H2|].
  intros name Hname. now apply H3.
Qed.

(** The round [bad_round] on a fresh monitor: the descriptor cannot be
    parsed, the error is logged, and the name is in the seen set all the
    same. *)
Example poll_bad_round :
  let m := poll fresh_monitor bad_round in
  "a.json" ∈ seen_files m
  /\ handled m = ["a.json"]
  /\ service_log m = [ErrorRunning JSONDecodeError]
  /\ handled (poll m bad_round) = ["a.json"].
Proof.
  cbv zeta. split; [|split; [|split]].
  - apply (poll_seen fresh_monitor bad_round) with {["a.json"]};
      [reflexivity | set_solver].
  - vm_compute. reflexivity.
  - vm_compute. reflexivity.
  - vm_compute. reflexivity.
Qed.

(** ** Cloning *)

Example clone_example_tree :
  clone_template "/srv/proj" (walk [] example_tree) = example_clone.
Proof. reflexivity. Qed.

Example clone_directory_example :
  clone_directory demo_env "/srv/proj" "proj.json" example_world
  = (Ret tt,
     {| fs := Dir [("app", Dir [("templates",
                                 Dir [("proj.json", File (Doc example_clone))])]);
                   ("srv", Dir [("proj", example_tree)])];
        stdout := [CloneSuccess "/srv/proj"; TemplateSaved "proj.json"];
        logfile := [TemplateSaved "proj.json"] |}).
Proof. reflexivity. Qed.

(** Induction on a tree, with the hypothesis for every entry of a directory. *)
Lemma node_induction (P : node -> Prop) :
  (forall c, P (File c)) ->
  (forall es, Forall (fun kv => P (snd kv)) es -> P (Dir es)) ->
  forall n, P n.
Proof.
  intros Hfile Hdir.
  fix IH 1. intros [c|es]; [apply Hfile|].
  apply Hdir. induction es as [|kv es IHes]; constructor.
  - apply IH.
  - exact IHes.
Qed.

Lemma wf_node_entries es :
  wf_node (Dir es) ->
  NoDup (map fst es)
  /\ Forall entry_name (map fst es)
  /\ Forall (fun kv => wf_node (snd kv)) es.
Proof.
  intros (Hnd & Hnames & Hall). split; [exact Hnd|]. split; [exact Hnames|].
  clear Hnd Hnames. induction es as [|kv es IH]; constructor.
  - apply Hall.
  - apply IH, Hall.
Qed.

Lemma dict_get_in {A} k (v : A) d : dict_get k d = Some v -> In (k, v) d.
Proof.
  induction d as [|[k' v'] d IH]; simpl; [discriminate|].
  destruct (String.eqb k' k) eqn:E.
  - apply String.eqb_eq in E. intros [= ->]. left. now subst.
  - intros H. right. now apply IH.
Qed.

Lemma in_dict_get {A} k (v : A) d :
  NoDup (map fst d) -> In (k, v) d -> dict_get k d = Some v.
Proof.
  induction d as [|[k' v'] d IH]; simpl; [contradiction|].
  intros Hnd [[= -> ->]|Hin].
  - now rewrite String.eqb_refl.
  - apply NoDup_cons in Hnd as [Hk Hnd].
    destruct (String.eqb k' k) eqn:E; [|now apply IH].
    apply String.eqb_eq in E. subst k'. exfalso. apply Hk.
    apply list_elem_of_In. apply (in_map fst) in Hin. exact Hin.
Qed.

(** The walk visits exactly the directories of the tree, each with the
    names of its files. *)
Lemma walk_visits n :
  wf_node n ->
  forall pre rel files,
    In (rel, files) (walk pre n)
    <-> exists p es,
          rel = pre ++ p
          /\ lookup_node n p = Some (Dir es)
          /\ files = file_names es.
Proof.
  induction n as [c|es IH] using node_induction; intros Hwf pre rel files.
  - simpl. split; [contradiction|].
    intros (p & es & _ & Hl & _). destruct p; simpl in Hl; discriminate.
  - apply wf_node_entries in Hwf as (Hnd & _ & Hwf).
    cbn [walk]. split.
    + intros [[= <- <-]|Hin].
      * exists [], es. rewrite app_nil_r. repeat split.
      * apply in_flat_map in Hin as ([k v] & Hkv & Hin). simpl in Hin.
        rewrite Forall_forall in IH, Hwf.
        apply list_elem_of_In in Hkv.
        apply (IH _ Hkv (Hwf _ Hkv)) in Hin as (p & es' & -> & Hl & ->).
        exists (k :: p), es'. rewrite <- app_assoc. split; [reflexivity|].
        split; [|reflexivity]. simpl.
        rewrite (in_dict_get k v); [exact Hl | exact Hnd|].
        now apply list_elem_of_In.
    + intros (p & es' & -> & Hl & ->). destruct p as [|k p].
      * simpl in Hl. injection Hl as <-. left. now rewrite app_nil_r.
      * right. simpl in Hl.
        destruct (dict_get k es) as [v|] eqn:Hk; [|discriminate].
        apply dict_get_in in Hk. apply in_flat_map. exists (k, v).
        split; [exact Hk|]. simpl.
        rewrite Forall_forall in IH, Hwf. apply list_elem_of_In in Hk.
        apply (IH _ Hk (Hwf _ Hk)). exists p, es'.
        rewrite <- app_assoc. repeat split. exact Hl.
Qed.

(** *** Keys of the cloned mapping *)

Lemma str_contains_cons needle c hay :
  str_contains needle (String c hay) = false -> str_contains needle hay = false.
Proof.
  cbn [str_contains]. intros H. now apply orb_false_iff in H as [_ H].
Qed.

Lemma no_slash_head c s :
  str_contains "/" (String c s) = false -> Ascii.eqb c "/" = false.
Proof.
  cbn [str_contains]. intros H. apply orb_false_iff in H as [H _].
  rewrite prefix_cons in H.
  destruct (Ascii.eqb c "/") eqn:E; [|reflexivity].
  apply Ascii.eqb_eq in E. subst c.
  destruct (ascii_dec "/" "/") as [_|ne]; [|now contradiction ne].
  now rewrite prefix_nil_l in H.
Qed.

Lemma split_on_name name :
  str_contains "/" name = false -> split_on "/" name = [name].
Proof.
  induction name as [|c name IH]; intros H; [reflexivity|].
  cbn [split_on]. rewrite (no_slash_head _ _ H).
  now rewrite IH by (eapply str_contains_cons; exact H).
Qed.

Lemma split_on_name_slash name rest :
  str_contains "/" name = false ->
  split_on "/" (name +:+ String "/" rest) = name :: split_on "/" rest.
Proof.
  induction name as [|c name IH]; intros H; [reflexivity|].
  change (String c name +:+ String "/" rest)
    with (String c (name +:+ String "/" rest)).
  cbn [split_on]. rewrite (no_slash_head _ _ H).
  now rewrite IH by (eapply str_contains_cons; exact H).
Qed.

Lemma split_relative_root p :
  Forall entry_name p -> p <> [] -> split_on "/" (relative_root p) = p.
Proof.
  unfold relative_root. induction 1 as [|c p [_ Hc] Hp IH]; intros Hne;
    [contradiction|].
  destruct p as [|c' p].
  - simpl. now apply split_on_name.
  - change (String.concat "/" (c :: c' :: p))
      with (c +:+ String "/" (String.concat "/" (c' :: p))).
    rewrite split_on_name_slash by exact Hc. f_equal. now apply IH.
Qed.

Lemma relative_root_nil p :
  Forall entry_name p -> relative_root p = "" -> p = [].
Proof.
  intros Hp Hroot. destruct p as [|c p]; [reflexivity|].
  pose proof (split_relative_root _ Hp ltac:(discriminate)) as Hsplit.
  rewrite Hroot in Hsplit. simpl in Hsplit. injection Hsplit as <- <-.
  apply Forall_cons in Hp as [[Hc _] _]. contradiction.
Qed.

Lemma relative_root_injective p q :
  Forall entry_name p -> Forall entry_name q ->
  relative_root p = relative_root q -> p = q.
Proof.
  intros Hp Hq Heq.
  destruct p as [|c p].
  - symmetry. apply relative_root_nil; [exact Hq | now rewrite <- Heq].
  - destruct q as [|c' q].
    + apply relative_root_nil; [exact Hp | exact Heq].
    + rewrite <- (split_relative_root (c :: p)) by (assumption || discriminate).
      rewrite <- (split_relative_root (c' :: q)) by (assumption || discriminate).
      now rewrite Heq.
Qed.

Lemma lookup_node_names n p found :
  wf_node n -> lookup_node n p = Some found -> Forall entry_name p.
Proof.
  revert n. induction p as [|c p IH]; intros n Hwf Hl; [constructor|].
  destruct n as [|es]; [discriminate|]. simpl in Hl.
  destruct (dict_get c es) as [v|] eqn:Hc; [|discriminate].
  apply dict_get_in in Hc.
  apply wf_node_entries in Hwf as (_ & Hnames & Hwf).
  rewrite Forall_forall in Hnames. rewrite Forall_forall in Hwf. constructor.
  - apply Hnames. apply list_elem_of_In.
    change c with (fst (c, v)). now apply in_map.
  - apply (IH v); [|exact Hl]. apply (Hwf (c, v)). now apply list_elem_of_In.
Qed.

(** The mapping the loop builds holds, under each key, what was there
    before or else what the first visit with that key recorded. *)
Lemma clone_subdirectories_get visits : forall subdirs k,
  dict_get k (clone_subdirectories visits subdirs)
  = match dict_get k subdirs with
    | Some v => Some v
    | None =>
        match first_visit k visits with
        | Some files => Some (JDict [("files", JList (map JStr files))])
        | None => None
        end
    end.
Proof.
  induction visits as [|[rel files] visits IH]; intros subdirs k.
  - simpl. now destruct (dict_get k subdirs).
  - cbn [clone_subdirectories first_visit]. rewrite IH. unfold dict_has.
    destruct (String.eqb (relative_root rel) k) eqn:E.
    + apply String.eqb_eq in E. subst k.
      destruct (dict_get (relative_root rel) subdirs) eqn:Hk.
      * now rewrite Hk.
      * now rewrite dict_get_set_eq.
    + assert (Hne : relative_root rel <> k)
        by (intros Heq; rewrite Heq, String.eqb_refl in E; discriminate E).
      destruct (dict_get (relative_root rel) subdirs);
        [reflexivity | now rewrite dict_get_set_ne].
Qed.

Lemma first_visit_in k visits files :
  first_visit k visits = Some files ->
  exists rel, In (rel, files) visits /\ relative_root rel = k.
Proof.
  induction visits as [|[rel files'] visits IH]; simpl; [discriminate|].
  destruct (String.eqb (relative_root rel) k) eqn:E.
  - intros [= <-]. apply String.eqb_eq in E. exists rel. split; [now left | exact E].
  - intros H. destruct (IH H) as (rel' & Hin & Hk). exists rel'. split; [now right | exact Hk].
Qed.

Lemma in_first_visit rel files visits :
  In (rel, files) visits ->
  exists files', first_visit (relative_root rel) visits = Some files'.
Proof.
  induction visits as [|[rel' files''] visits IH]; simpl; [contradiction|].
  intros [[= -> ->]|Hin].
  - rewrite String.eqb_refl. now eexists.
  - destruct (String.eqb (relative_root rel') (relative_root rel));
      [now eexists | now apply IH].
Qed.

(** The cloned mapping: one entry per directory of the tree, under the path
    from the top, holding the names of the files of that directory. *)
Lemma cloned_subdirectories top :
  wf_node top ->
  (forall p es,
     lookup_node top p = Some (Dir es) ->
     dict_get (relative_root p) (clone_subdirectories (walk [] top) [])
     = Some (cloned_entry es))
  /\ (forall k v,
       dict_get k (clone_subdirectories (walk [] top) []) = Some v ->
       exists p es,
         k = relative_root p
         /\ lookup_node top p = Some (Dir es)
         /\ v = cloned_entry es).
Proof.
  intros Hwf. split.
  - intros p es Hl. rewrite clone_subdirectories_get. simpl.
    assert (Hin : In (p, file_names es) (walk [] top)).
    { apply walk_visits; [exact Hwf|]. now exists p, es. }
    destruct (in_first_visit _ _ _ Hin) as (files' & Hfirst). rewrite Hfirst.
    apply first_visit_in in Hfirst as (rel & Hin' & Hkey).
    apply walk_visits in Hin' as (p' & es' & -> & Hl' & ->); [|exact Hwf].
    simpl in Hkey. apply relative_root_injective in Hkey;
      [|eapply lookup_node_names; eassumption..].
    subst p'. rewrite Hl in Hl'. injection Hl' as <-. reflexivity.
  - intros k v. rewrite clone_subdirectories_get. simpl.
    destruct (first_visit k (walk [] top)) as [files|] eqn:Hfirst;
      [|discriminate].
    intros [= <-].
    apply first_visit_in in Hfirst as (rel & Hin & <-).
    apply walk_visits in Hin as (p & es & -> & Hl & ->); [|exact Hwf].
    now exists p, es.
Qed.

(** *** [clone_directory] *)

(** On a path that names a directory, [clone_directory] saves the template
    built from the walk. *)
Lemma clone_directory_on_directory e source_dir name w q es :
  os_locate e (fs w) (strip source_dir) = Ret q ->
  lookup_node (fs w) q = Some (Dir es) ->
  clone_directory e source_dir name w
  = save_template e name
      (clone_template (strip source_dir) (walk [] (Dir es))) false
      {| fs := fs w;
         stdout := (stdout w
                    ++ (if String.eqb (strip source_dir) source_dir then []
                        else [PathCleaned source_dir (strip source_dir)]))
                   ++ [CloneSuccess (strip source_dir)];
         logfile := logfile w |}.
Proof.
  intros Hq Hdir.
  unfold clone_directory, validate_directory_path, M_bind.
  destruct (String.eqb (strip source_dir) source_dir); simpl;
    unfold os_path_exists, os_path_isfile, os_path_isdir, os_walk,
      exists_at, is_file_at, is_dir_at; simpl;
    rewrite ?app_nil_r, Hq, Hdir; simpl; rewrite Hq, Hdir; reflexivity.
Qed.

Lemma example_tree_wf : wf_node example_tree.
Proof.
  simpl. repeat split; try (repeat constructor; set_solver);
    repeat constructor; discriminate.
Qed.

(** ** A cloned template does not validate *)

Lemma lookup_file_parent p : forall es c,
  lookup_node (Dir es) p = Some (File c) ->
  exists p' name es',
    p = p' ++ [name]
    /\ lookup_node (Dir es) p' = Some (Dir es')
    /\ In name (file_names es').
Proof.
  induction p as [|k p IH]; intros es c Hl; [discriminate|].
  simpl in Hl. destruct (dict_get k es) as [v|] eqn:Hk; [|discriminate].
  destruct p as [|k' p].
  - simpl in Hl. injection Hl as ->.
    exists [], k, es. repeat split. apply dict_get_in in Hk.
    unfold file_names. apply in_flat_map. exists (k, File c).
    split; [exact Hk | now left].
  - destruct v as [c'|es0]; [discriminate|].
    destruct (IH es0 c Hl) as (p' & name & es' & Hp & Hl' & Hin).
    exists (k :: p'), name, es'. rewrite Hp. split; [reflexivity|].
    split; [|exact Hin]. simpl. now rewrite Hk.
Qed.

Lemma check_cloned_entry k es :
  check_subdir (k, cloned_entry es)
  = map (fun _ => EntryNotDict k) (file_names es).
Proof.
  unfold check_subdir, cloned_entry. simpl.
  induction (file_names es) as [|name names IH]; [reflexivity|].
  simpl. now rewrite IH.
Qed.

Lemma validate_renamed_clone main visits :
  validate_errors (renamed_clone main visits)
  = Ret (flat_map check_subdir (clone_subdirectories visits [])).
Proof. reflexivity. Qed.

(** With a file somewhere in the tree, the cloned template draws the error
    "file entry must be a dictionary". *)
Lemma renamed_clone_rejected main es :
  wf_node (Dir es) -> has_file (Dir es) ->
  exists subdir err errs,
    validate_errors (renamed_clone main (walk [] (Dir es))) = Ret (err :: errs)
    /\ In (EntryNotDict subdir) (err :: errs).
Proof.
  intros Hwf (p & c & Hfile).
  destruct (lookup_file_parent p es c Hfile) as (p' & name & es' & _ & Hdir & Hin).
  destruct (cloned_subdirectories (Dir es) Hwf) as (Hget & _).
  specialize (Hget p' es' Hdir). apply dict_get_in in Hget.
  assert (Herr : In (EntryNotDict (relative_root p'))
                   (flat_map check_subdir
                      (clone_subdirectories (walk [] (Dir es)) []))).
  { apply in_flat_map. eexists. split; [exact Hget|].
    rewrite check_cloned_entry.
    apply in_map_iff. now exists name. }
  rewrite validate_renamed_clone.
  destruct (flat_map check_subdir _) as [|err errs]; [contradiction|].
  now exists (relative_root p'), err, errs.
Qed.

(** *** [modify_template] on a cloned template *)

Lemma modify_file_names pn names : forall seen,
  res_map (modify_file pn) (map JStr names) = Ret seen -> seen = map JStr names.
Proof.
  induction names as [|name names IH]; intros seen; simpl.
  - now intros [= <-].
  - unfold modify_file at 1. simpl.
    destruct (str_contains "name" name); simpl; [discriminate|].
    destruct (res_map (modify_file pn) (map JStr names)) as [seen'|];
      [|discriminate].
    intros [= <-]. now rewrite (IH seen').
Qed.

Lemma modify_cloned_contents pn files contents :
  modify_contents pn (JDict [("files", JList (map JStr files))]) = Ret contents ->
  contents = JDict [("files", JList (map JStr files))].
Proof.
  unfold modify_contents. simpl.
  destruct (res_map (modify_file pn) (map JStr files)) as [seen|] eqn:Hseen;
    [|discriminate].
  apply modify_file_names in Hseen. subst seen. simpl. now intros [= <-].
Qed.

Lemma clone_subdirectories_shape visits : forall subdirs,
  Forall (fun item : string * json => exists files,
            snd item = JDict [("files", JList (map JStr files))]) subdirs ->
  Forall (fun item : string * json => exists files,
            snd item = JDict [("files", JList (map JStr files))])
    (clone_subdirectories visits subdirs).
Proof.
  induction visits as [|[rel files] visits IH]; intros subdirs H; [exact H|].
  cbn [clone_subdirectories]. apply IH.
  destruct (dict_has (relative_root rel) subdirs); [exact H|].
  clear IH. induction H as [|[k v] subdirs Hv Hrest IH]; simpl.
  - repeat constructor. now exists files.
  - destruct (String.eqb k (relative_root rel)).
    + constructor; [now exists files | exact Hrest].
    + constructor; [exact Hv | exact IH].
Qed.

Lemma modify_cloned_items pn items : forall items',
  Forall (fun item : string * json => exists files,
            snd item = JDict [("files", JList (map JStr files))]) items ->
  res_map (modify_item pn) items = Ret items' -> items' = items.
Proof.
  induction items as [|[k v] items IH]; intros items' H; simpl.
  - now intros [= <-].
  - apply Forall_cons in H as [(files & Hv) H]. simpl in Hv. subst v.
    unfold modify_item at 1. simpl fst. simpl snd.
    destruct (modify_contents pn _) as [contents|] eqn:Hc; [|discriminate].
    apply modify_cloned_contents in Hc. subst contents. simpl.
    destruct (res_map (modify_item pn) items) as [rest|]; [|discriminate].
    intros [= <-]. now rewrite (IH rest).
Qed.

(** A [modify_template] that goes through leaves the file lists alone. *)
Lemma modify_clone_template cleaned visits pn pname t :
  modify_template (clone_template cleaned visits) pn pname = Ret t ->
  t = renamed_clone (fstr pname +:+ "-" +:+ fstr pn) visits.
Proof.
  unfold modify_template, clone_template. simpl.
  destruct (res_map (modify_item pn) (clone_subdirectories visits []))
    as [items'|] eqn:Hitems; [|discriminate].
  apply modify_cloned_items in Hitems;
    [|apply clone_subdirectories_shape; constructor].
  subst items'. simpl. now intros [= <-].
Qed.

(** *** Generation from a cloned template *)

(** What [generate_from_template] does with a rejected template. *)
Lemma generate_rejected e name out pn pname w w1 t err errs :
  prepared_template e name pn pname w = (Ret t, w1) ->
  truthy t = true ->
  validate_errors t = Ret (err :: errs) ->
  generate_from_template e name out pn pname w
  = (Ret tt,
     {| fs := fs w1;
        stdout := (stdout w1 ++ [ValidationErrors name (err :: errs)])
                  ++ [GenerationAborted];
        logfile := logfile w1 |}).
Proof.
  intros Hprep Htruthy Herrors.
  rewrite generate_from_template_prepared.
  match goal with |- context [M_bind _ ?k w] => set (rest := k) end.
  unfold M_bind. rewrite Hprep. subst rest. cbv beta.
  rewrite Htruthy. simpl.
  unfold validate_template, M_bind, lift. rewrite Herrors. reflexivity.
Qed.

(** C10.  Clone a directory that holds a file somewhere.  The template does
    not validate: among the errors is "file entry must be a dictionary" for
    some subdirectory.  And a generation from the stored template, with any
    arguments, leaves the disk and the log file as they were: it either
    raises, or returns after printing that the generation is aborted. *)
Theorem cloned_template_is_rejected (cleaned : string)
    (es : list (string * node)) :
  wf_node (Dir es) ->
  has_file (Dir es) ->
  let template := clone_template cleaned (walk [] (Dir es)) in
  (exists subdir errs,
     validate_errors template = Ret errs
     /\ In (EntryNotDict subdir) errs
     /\ forall name w, fst (validate_template template name w) = Ret false)
  /\ (forall e name out pn pname w,
        stored e (fs w) name = Some (File (Doc template)) ->
        let r := generate_from_template e name out pn pname w in
        fs (snd r) = fs w
        /\ logfile (snd r) = logfile w
        /\ (fst r = Ret tt -> last (stdout (snd r)) = Some GenerationAborted)).
Proof.
  intros Hwf Hfile template.
  assert (Ht : template = renamed_clone (basename cleaned) (walk [] (Dir es)))
    by reflexivity.
  clearbody template. subst template. split.
  - destruct (renamed_clone_rejected (basename cleaned) es Hwf Hfile)
      as (subdir & err & errs & Herrors & Hin).
    exists subdir, (err :: errs). split; [exact Herrors|]. split; [exact Hin|].
    intros name w. unfold validate_template, M_bind, lift.
    now rewrite Herrors.
  - intros e name out pn pname w Hstored r.
    set (template := renamed_clone (basename cleaned) (walk [] (Dir es))) in *.
    assert (Hload : load_template e name w = (Ret template, w))
      by now apply load_stored_template.
    destruct (prepared_template e name pn pname w) as [[t|raised] w1] eqn:Hprep.
    + assert (Hw1 : w1 = w /\ exists main,
                t = renamed_clone main (walk [] (Dir es))).
      { revert Hprep. unfold prepared_template, M_bind. rewrite Hload.
        destruct (negb (String.eqb pn "") && negb (String.eqb pname "")).
        - unfold lift.
          destruct (modify_template template (Some pn) (Some pname))
            as [t'|] eqn:Hmod; [|discriminate].
          apply modify_clone_template in Hmod. intros [= <- <-].
          split; [reflexivity|]. eexists. exact Hmod.
        - intros [= <- <-]. split; [reflexivity|]. eexists. reflexivity. }
      destruct Hw1 as (-> & main & ->).
      destruct (renamed_clone_rejected main es Hwf Hfile)
        as (subdir & err & errs & Herrors & _).
      subst r. rewrite (generate_rejected _ _ _ _ _ _ _ _ _ _ Hprep eq_refl Herrors).
      simpl. split; [reflexivity|]. split; [reflexivity|].
      intros _. now rewrite last_snoc.
    + pose proof (prepared_template_keeps_disk e name pn pname w) as Hkeep.
      rewrite Hprep in Hkeep. simpl in Hkeep.
      subst r. rewrite generate_from_template_prepared.
      match goal with |- context [M_bind _ ?k w] => set (rest := k) end.
      unfold M_bind. rewrite Hprep. simpl.
      split; [apply Hkeep|]. split; [apply Hkeep|]. discriminate.
Qed.

Lemma example_tree_has_file : has_file example_tree.
Proof. exists ["a"; "f1.txt"], (Text "one"). reflexivity. Qed.

Lemma cloned_template_is_rejected_witness :
  (exists subdir errs,
     validate_errors example_clone = Ret errs
     /\ In (EntryNotDict subdir) errs)
  /\ fs (snd (generate_from_template demo_env "proj.json" "/srv/out"
                "042" "Acme" cloned_world)) = cloned_disk
  /\ last (stdout (snd (generate_from_template demo_env "proj.json" "/srv/out"
                          "042" "Acme" cloned_world)))
     = Some GenerationAborted.
Proof.
  destruct (cloned_template_is_rejected "/srv/proj"
              [("a", Dir [("f1.txt", File (Text "one"))]); ("b", Dir [])]
              example_tree_wf example_tree_has_file)
    as ((subdir & errs & Herrors & Hin & _) & Hgen).
  split; [exists subdir, errs; split; [exact Herrors | exact Hin]|].
  destruct (Hgen demo_env "proj.json" "/srv/out" "042" "Acme" cloned_world
              eq_refl) as (Hfs & _ & Hlast).
  split; [exact Hfs|]. apply Hlast. reflexivity.
Defined.

(** ** Generation creates the declared structure *)

(** *** Reading and writing in a tree *)

Lemma lookup_node_app n p q :
  lookup_node n (p ++ q)
  = match lookup_node n p with
    | Some x => lookup_node x q
    | None => None
    end.
Proof.
  revert n. induction p as [|c p IH]; intros n; [reflexivity|].
  simpl. destruct n as [|es]; [reflexivity|].
  destruct (dict_get c es); [apply IH | reflexivity].
Qed.

(** Whatever lies below a path lies in a directory. *)
Lemma lookup_below_dir n p c q x :
  lookup_node n (p ++ c :: q) = Some x ->
  exists es, lookup_node n p = Some (Dir es).
Proof.
  rewrite lookup_node_app.
  destruct (lookup_node n p) as [[|es]|]; [discriminate | now eexists | discriminate].
Qed.

Lemma write_node_lookup n p x n' :
  write_node n p x = Some n' -> lookup_node n' p = Some x.
Proof.
  revert n n'. induction p as [|c p IH]; intros n n'; simpl.
  - now intros [= ->].
  - destruct n as [|es]; [discriminate|].
    destruct (dict_get c es) as [v|] eqn:Hc.
    + destruct (write_node v p x) as [v'|] eqn:Hw; [|discriminate].
      intros [= <-]. simpl. rewrite dict_get_set_eq. now apply (IH v).
    + destruct p; [|discriminate]. intros [= <-]. simpl.
      now rewrite dict_get_set_eq.
Qed.

(** Writing at a place that was written before forgets the earlier write. *)
Lemma write_node_again n p x y n' :
  write_node n p x = Some n' -> write_node n' p y = write_node n p y.
Proof.
  revert n n'. induction p as [|c p IH]; intros n n'; simpl; [reflexivity|].
  destruct n as [|es]; [discriminate|].
  destruct (dict_get c es) as [v|] eqn:Hc.
  - destruct (write_node v p x) as [v'|] eqn:Hw; [|discriminate].
    intros [= <-]. simpl. rewrite dict_get_set_eq, (IH v v' Hw).
    destruct (write_node v p y); [now rewrite dict_set_set | reflexivity].
  - destruct p; [|discriminate]. intros [= <-]. simpl.
    rewrite dict_get_set_eq. simpl. now rewrite dict_set_set.
Qed.

(** Writing below a place is writing the changed subtree at that place. *)
Lemma write_node_app n p q x y :
  lookup_node n p = Some x ->
  write_node n (p ++ q) y
  = match write_node x q y with
    | Some x' => write_node n p x'
    | None => None
    end.
Proof.
  revert n. induction p as [|c p IH]; intros n; simpl.
  - intros [= ->]. now destruct (write_node x q y).
  - destruct n as [|es]; [discriminate|].
    destruct (dict_get c es) as [v|] eqn:Hc; [|discriminate].
    intros Hl. rewrite (IH v Hl).
    destruct (write_node x q y) as [x'|]; reflexivity.
Qed.

Lemma dict_set_fresh {A} k (v : A) d :
  dict_get k d = None -> dict_set k v d = d ++ [(k, v)].
Proof.
  induction d as [|[k' v'] d IH]; simpl; [reflexivity|].
  destruct (String.eqb k' k); [discriminate|].
  intros H. now rewrite IH.
Qed.

Lemma dict_get_none {A} k (d : list (string * A)) :
  k ∉ map fst d -> dict_get k d = None.
Proof.
  induction d as [|[k' v'] d IH]; simpl; [reflexivity|].
  intros H. apply not_elem_of_cons in H as [Hne H].
  destruct (String.eqb k' k) eqn:E; [|now apply IH].
  apply String.eqb_eq in E. congruence.
Qed.

(** A new entry in the directory at [dir]. *)
Lemma write_new_entry n dir held name x :
  lookup_node n dir = Some (Dir held) ->
  name ∉ map fst held ->
  write_node n (dir ++ [name]) x = write_node n dir (Dir (held ++ [(name, x)])).
Proof.
  intros Hdir Hfresh. rewrite (write_node_app _ _ _ _ _ Hdir). simpl.
  rewrite (dict_get_none _ _ Hfresh).
  now rewrite dict_set_fresh by now apply dict_get_none.
Qed.

Lemma lookup_new_entry n dir held name :
  lookup_node n dir = Some (Dir held) ->
  name ∉ map fst held ->
  lookup_node n (dir ++ [name]) = None.
Proof.
  intros Hdir Hfresh. rewrite lookup_node_app, Hdir. simpl.
  now rewrite (dict_get_none _ _ Hfresh).
Qed.

Lemma lookup_prefix_dir n p q es :
  lookup_node n (p ++ q) = Some (Dir es) ->
  exists es', lookup_node n p = Some (Dir es').
Proof.
  destruct q as [|c q].
  - rewrite app_nil_r. intros H. now exists es.
  - apply lookup_below_dir.
Qed.

(** *** Growth of the disk *)

Lemma grown_trans a b c : grown a b -> grown b c -> grown a c.
Proof.
  intros Hab Hbc q. destruct (Hab q) as [H1 H2]. destruct (Hbc q) as [H3 H4].
  split; auto.
Qed.

Lemma write_fresh_grown p : forall n x n',
  lookup_node n p = None -> write_node n p x = Some n' -> grown n n'.
Proof.
  induction p as [|c p IH]; intros n x n'; simpl; [discriminate|].
  destruct n as [|es]; [discriminate|].
  destruct (dict_get c es) as [v|] eqn:Hc.
  - intros Hnone. destruct (write_node v p x) as [v'|] eqn:Hw; [|discriminate].
    intros [= <-]. pose proof (IH v x v' Hnone Hw) as Hv.
    intros [|c0 q]; [split; [discriminate | reflexivity]|].
    unfold is_dir_at. simpl.
    destruct (String.eqb c c0) eqn:E.
    + apply String.eqb_eq in E. subst c0. rewrite Hc, dict_get_set_eq.
      apply (Hv q).
    + rewrite dict_get_set_ne
        by (intros ->; rewrite String.eqb_refl in E; discriminate E).
      split; auto.
  - intros _. destruct p; [|discriminate]. intros [= <-].
    intros [|c0 q]; [split; [discriminate | reflexivity]|].
    unfold is_dir_at. simpl.
    destruct (String.eqb c c0) eqn:E.
    + apply String.eqb_eq in E. subst c0. rewrite Hc.
      split; [discriminate | discriminate].
    + rewrite dict_get_set_ne
        by (intros ->; rewrite String.eqb_refl in E; discriminate E).
      split; auto.
Qed.

Lemma grown_dir before after q es :
  grown before after -> lookup_node before q = Some (Dir es) ->
  exists es', lookup_node after q = Some (Dir es').
Proof.
  intros Hg Hq. destruct (Hg q) as [_ H]. unfold is_dir_at in H.
  rewrite Hq in H. specialize (H eq_refl).
  destruct (lookup_node after q) as [[|es']|]; [discriminate | now eexists | discriminate].
Qed.

Lemma grown_resolve before after comps : forall cur q,
  grown before after ->
  resolve_from before cur comps = Ret q -> resolve_from after cur comps = Ret q.
Proof.
  induction comps as [|c rest IH]; intros cur q Hg; simpl; [trivial|].
  destruct (String.eqb c "..").
  - destruct (lookup_node before cur) as [[|es]|] eqn:Hcur; try discriminate.
    destruct (grown_dir _ _ _ _ Hg Hcur) as (es' & ->). now apply IH.
  - destruct rest as [|c' rest']; [trivial|].
    destruct (lookup_node before (cur ++ [c])) as [[|es]|] eqn:Hcur;
      try discriminate.
    destruct (grown_dir _ _ _ _ Hg Hcur) as (es' & ->). now apply IH.
Qed.

Lemma grown_locate e before after p q :
  grown before after ->
  locate e before p = Ret q -> locate e after p = Ret q.
Proof.
  unfold locate. intros Hg. destruct (existsb has_nul (parts p)); [discriminate|].
  now apply grown_resolve.
Qed.

(** *** Paths made of plain names *)

Lemma simple_name_plain c : simple_name c -> plain c.
Proof. intros (_ & _ & H1 & _ & H2). now split. Qed.

Lemma eqb_false a b : a <> b -> String.eqb a b = false.
Proof. intros H. now apply String.eqb_neq. Qed.

Lemma Path_simple c : simple_name c -> Path c = {| anchored := false; parts := [c] |}.
Proof.
  intros (Hne & Hdot & _ & Hslash & _). unfold Path.
  rewrite (split_on_name _ Hslash). simpl.
  unfold kept_part. rewrite (eqb_false _ _ Hne), (eqb_false _ _ Hdot). simpl.
  f_equal. destruct c as [|a c]; [contradiction|].
  rewrite prefix_cons. pose proof (no_slash_head _ _ Hslash) as Ha.
  destruct (ascii_dec "/" a) as [<-|]; [discriminate Ha | reflexivity].
Qed.

Lemma joinpath_simple p c :
  simple_name c ->
  joinpath p c = {| anchored := anchored p; parts := parts p ++ [c] |}.
Proof. intros Hc. unfold joinpath. now rewrite (Path_simple _ Hc). Qed.

Lemma joinpath_empty p :
  joinpath p "" = {| anchored := anchored p; parts := parts p ++ [] |}.
Proof. reflexivity. Qed.

Lemma resolve_plain fs init : forall cur c es,
  Forall plain init -> c <> ".." ->
  lookup_node fs (cur ++ init) = Some (Dir es) ->
  resolve_from fs cur (init ++ [c]) = Ret (cur ++ init ++ [c]).
Proof.
  induction init as [|a init IH]; intros cur c es Hplain Hc Hdir.
  - simpl. now rewrite (eqb_false _ _ Hc).
  - apply Forall_cons in Hplain as [[Ha _] Hplain].
    change ((a :: init) ++ [c]) with (a :: (init ++ [c])).
    cbn [resolve_from]. rewrite (eqb_false _ _ Ha).
    destruct (init ++ [c]) as [|c' rest] eqn:Hrest.
    { destruct init; discriminate Hrest. }
    rewrite <- Hrest.
    replace (cur ++ a :: init) with ((cur ++ [a]) ++ init) in Hdir
      by now rewrite <- app_assoc.
    destruct (lookup_prefix_dir _ _ _ _ Hdir) as (es' & ->).
    rewrite (IH (cur ++ [a]) c es Hplain Hc Hdir).
    now rewrite <- app_assoc.
Qed.

Lemma plain_no_nul comps : Forall plain comps -> existsb has_nul comps = false.
Proof.
  induction 1 as [|c comps [_ Hc] _ IH]; [reflexivity|].
  simpl. now rewrite Hc, IH.
Qed.

(** The place of a new name in a directory reached by plain components. *)
Lemma locate_plain e fs p init c es :
  parts p = init ++ [c] ->
  Forall plain init -> plain c ->
  lookup_node fs (base e p ++ init) = Some (Dir es) ->
  locate e fs p = Ret (base e p ++ init ++ [c]).
Proof.
  intros Hparts Hinit [Hc Hnul] Hdir. unfold locate. rewrite Hparts.
  rewrite plain_no_nul
    by (apply Forall_app; split; [exact Hinit | repeat constructor; assumption]).
  now apply resolve_plain with es.
Qed.

(** *** [os.makedirs] along plain components *)

Lemma makedirs_existing comps : forall w cur es,
  Forall plain comps ->
  lookup_node (fs w) (cur ++ comps) = Some (Dir es) ->
  makedirs_from cur comps w = (Ret tt, w).
Proof.
  induction comps as [|c comps IH]; intros w cur es Hplain Hdir; [reflexivity|].
  apply Forall_cons in Hplain as [[Hc Hnul] Hplain].
  cbn [makedirs_from]. rewrite Hnul, (eqb_false _ _ Hc).
  replace (cur ++ c :: comps) with ((cur ++ [c]) ++ comps) in Hdir
    by now rewrite <- app_assoc.
  destruct (lookup_prefix_dir _ _ _ _ Hdir) as (es' & ->).
  now apply IH with es.
Qed.

Lemma makedirs_new comps : forall w cur c held disk,
  Forall plain comps -> plain c ->
  lookup_node (fs w) (cur ++ comps) = Some (Dir held) ->
  c ∉ map fst held ->
  write_node (fs w) (cur ++ comps ++ [c]) (Dir []) = Some disk ->
  makedirs_from cur (comps ++ [c]) w = (Ret tt, set_fs disk w).
Proof.
  induction comps as [|a comps IH]; intros w cur c held disk Hplain Hc Hdir
    Hfresh Hwrite.
  - destruct Hc as [Hc Hnul]. rewrite app_nil_r in Hdir.
    cbn [app makedirs_from]. rewrite Hnul, (eqb_false _ _ Hc).
    rewrite (lookup_new_entry _ _ _ _ Hdir Hfresh).
    simpl in Hwrite. now rewrite Hwrite.
  - apply Forall_cons in Hplain as [[Ha Hnul] Hplain].
    change ((a :: comps) ++ [c]) with (a :: (comps ++ [c])).
    cbn [makedirs_from]. rewrite Hnul, (eqb_false _ _ Ha).
    replace (cur ++ a :: comps) with ((cur ++ [a]) ++ comps) in Hdir
      by now rewrite <- app_assoc.
    destruct (lookup_prefix_dir _ _ _ _ Hdir) as (es' & ->).
    apply IH with held; try assumption.
    now rewrite <- app_assoc.
Qed.

(** *** One file *)

Lemma write_node_at_existing p : forall n x y,
  lookup_node n p = Some x -> exists n', write_node n p y = Some n'.
Proof.
  induction p as [|c p IH]; intros n x y; simpl; [now eexists|].
  destruct n as [|es]; [discriminate|].
  destruct (dict_get c es) as [v|]; [|discriminate].
  intros Hl. destruct (IH v x y Hl) as (v' & ->). now eexists.
Qed.

Lemma write_node_unchanged p : forall n x,
  lookup_node n p = Some x -> write_node n p x = Some n.
Proof.
  induction p as [|c p IH]; intros n x; simpl; [now intros [= ->]|].
  destruct n as [|es]; [discriminate|].
  destruct (dict_get c es) as [v|] eqn:Hc; [|discriminate].
  intros Hl. rewrite (IH v x Hl). now rewrite dict_set_same.
Qed.

Lemma set_fs_same w : set_fs (fs w) w = w.
Proof. now destruct w. Qed.

(** Creating the file [name] in the directory at [dir]. *)
Lemma write_file_new w dir held name c :
  lookup_node (fs w) dir = Some (Dir held) ->
  name ∉ map fst held ->
  exists disk,
    write_node (fs w) dir (Dir (held ++ [(name, File c)])) = Some disk
    /\ write_file (dir ++ [name]) c w = (Ret tt, set_fs disk w)
    /\ grown (fs w) disk.
Proof.
  intros Hdir Hfresh.
  destruct (write_node_at_existing dir (fs w) _
              (Dir (held ++ [(name, File c)])) Hdir) as (disk & Hdisk).
  exists disk. split; [exact Hdisk|].
  pose proof (lookup_new_entry _ _ _ _ Hdir Hfresh) as Hnone.
  pose proof (write_new_entry _ _ _ _ (File c) Hdir Hfresh) as Hwrite.
  rewrite Hdisk in Hwrite. split.
  - unfold write_file. now rewrite Hnone, Hwrite.
  - now apply (write_fresh_grown (dir ++ [name]) _ (File c)).
Qed.

Lemma entry_get_dict k f v : entry_get k f = Some v -> exists fi, f = JDict fi.
Proof. destruct f; try discriminate. now eexists. Qed.

Lemma plain_node_entries es :
  plain_node (Dir es) ->
  NoDup (map fst es)
  /\ Forall simple_name (map fst es)
  /\ Forall (fun kv => plain_node (snd kv)) es.
Proof.
  intros (Hnd & Hnames & Hall). split; [exact Hnd|]. split; [exact Hnames|].
  clear Hnd Hnames. induction es as [|kv es IH]; constructor.
  - apply Hall.
  - apply IH, Hall.
Qed.

Lemma NoDup_app_head {A} (l : list A) x r :
  NoDup (l ++ x :: r) -> (x ∉ l) /\ NoDup ((l ++ [x]) ++ r).
Proof.
  intros H. split.
  - apply NoDup_app in H as (_ & H & _). intros Hin. apply (H x Hin). now left.
  - now rewrite <- app_assoc.
Qed.

Lemma files_list_getitem contents files :
  files_list contents = Some files ->
  py_getitem contents "files" = Ret (JList files).
Proof.
  unfold files_list. destruct contents as [| | | | |c]; try discriminate.
  simpl. destruct (dict_get "files" c) as [[| | | |l|]|]; try discriminate.
  now intros [= ->].
Qed.

Lemma base_joinpath_simple e p c :
  simple_name c -> base e (joinpath p c) = base e p.
Proof. intros Hc. now rewrite (joinpath_simple _ _ Hc). Qed.

Lemma parts_joinpath_simple p c :
  simple_name c -> parts (joinpath p c) = parts p ++ [c].
Proof. intros Hc. now rewrite (joinpath_simple _ _ Hc). Qed.

Lemma base_joinpath_empty e p : base e (joinpath p "") = base e p.
Proof. reflexivity. Qed.

Lemma parts_joinpath_empty p : parts (joinpath p "") = parts p.
Proof. rewrite joinpath_empty. simpl. apply app_nil_r. Qed.

Section DeclaredStructure.

(** The generation runs in [e] and found the disk [before]. *)
Variable e : env.
Variable before : node.

(** The round of the inner loop for one declared file. *)
Lemma generate_file_creates f name y w subdir_path dir held :
  declared_file e before f = Some (name, y) ->
  grown before (fs w) ->
  Forall plain (parts subdir_path) ->
  base e subdir_path ++ parts subdir_path = dir ->
  lookup_node (fs w) dir = Some (Dir held) ->
  simple_name name ->
  name ∉ map fst held ->
  exists disk,
    write_node (fs w) dir (Dir (held ++ [(name, y)])) = Some disk
    /\ generate_file e subdir_path f w = (Ret tt, set_fs disk w)
    /\ grown before disk.
Proof.
  intros Hdecl Hgrown Hplain Hbase Hdir Hname Hfresh.
  unfold declared_file in Hdecl.
  destruct (entry_get "name" f) as [[| | |name'| |]|] eqn:Hn; try discriminate.
  destruct (entry_get "type" f) as [[| | |ty| |]|] eqn:Ht; try discriminate.
  destruct (entry_get_dict _ _ _ Hn) as (fi & ->). simpl in Hn, Ht, Hdecl.
  assert (Hloc : locate e (fs w) (joinpath subdir_path name)
                 = Ret (dir ++ [name])).
  { rewrite (joinpath_simple _ _ Hname).
    rewrite (locate_plain e (fs w) _ (parts subdir_path) name held);
      [now rewrite app_assoc, <- Hbase | reflexivity | exact Hplain
      | now apply simple_name_plain | now rewrite <- Hbase in Hdir]. }
  pose proof (lookup_new_entry _ _ _ _ Hdir Hfresh) as Hnone.
  destruct (String.eqb ty "empty") eqn:Hempty.
  - (* an empty file *)
    injection Hdecl as <- <-.
    destruct (write_file_new w dir held name' (Text "") Hdir Hfresh)
      as (disk & Hdisk & Hwrite & Hg).
    exists disk. split; [exact Hdisk|]. split; [|now apply grown_trans with (fs w)].
    unfold generate_file, M_bind, lift. simpl. rewrite Hn, Ht. simpl.
    rewrite Hempty. unfold touch. rewrite Hloc.
    unfold exists_at. now rewrite Hnone.
  - destruct (String.eqb ty "template") eqn:Htemplate; [|discriminate].
    destruct (dict_get "source" fi) as [[| | |source| |]|] eqn:Hs;
      try discriminate.
    destruct (locate e before (Path source)) as [q|] eqn:Hq; [|discriminate].
    destruct (lookup_node before q) as [[c|]|] eqn:Hc; try discriminate.
    injection Hdecl as <- <-.
    destruct (write_file_new w dir held name' c Hdir Hfresh)
      as (disk & Hdisk & Hwrite & Hg).
    exists disk. split; [exact Hdisk|]. split; [|now apply grown_trans with (fs w)].
    pose proof (grown_locate e _ _ _ _ Hgrown Hq) as Hq'.
    destruct (Hgrown q) as [Hfile _]. specialize (Hfile c Hc).
    assert (Hnul : existsb has_nul (parts (Path source)) = false).
    { unfold locate in Hq.
      destruct (existsb has_nul (parts (Path source))); [discriminate | reflexivity]. }
    assert (Hnul' : existsb has_nul (parts (joinpath subdir_path name')) = false).
    { rewrite (joinpath_simple _ _ Hname). simpl. apply plain_no_nul.
      apply Forall_app. split; [exact Hplain|].
      repeat constructor; apply simple_name_plain in Hname; apply Hname. }
    unfold generate_file, M_bind, lift. simpl. rewrite Hn, Ht, Hs. simpl.
    rewrite Hempty, Htemplate.
    unfold path_exists, copy, path_is_dir, exists_at, is_dir_at.
    rewrite Hq', Hfile, Hloc, Hnone, Hnul, Hnul'. simpl.
    rewrite Hloc, Hnone. simpl. exact Hwrite.
Qed.

(** *** The loops *)

(** The inner loop: the declared files are added to the directory. *)
Lemma generate_files_create subdir_path dir files :
  forall new w held,
    declared_files e before files = Some new ->
    grown before (fs w) ->
    Forall plain (parts subdir_path) ->
    base e subdir_path ++ parts subdir_path = dir ->
    lookup_node (fs w) dir = Some (Dir held) ->
    Forall simple_name (map fst new) ->
    NoDup (map fst (held ++ new)) ->
    exists disk,
      write_node (fs w) dir (Dir (held ++ new)) = Some disk
      /\ M_for files (generate_file e subdir_path) w = (Ret tt, set_fs disk w)
      /\ grown before disk.
Proof.
  induction files as [|f files IH];
    intros new w held Hdecl Hgrown Hplain Hbase Hdir Hnames Hnodup.
  - injection Hdecl as <-. exists (fs w). rewrite app_nil_r.
    split; [now apply write_node_unchanged|].
    split; [now rewrite set_fs_same | exact Hgrown].
  - cbn [declared_files] in Hdecl.
    destruct (declared_file e before f) as [[name y]|] eqn:Hf; [|discriminate].
    destruct (declared_files e before files) as [new'|] eqn:Hfiles;
      [|discriminate].
    injection Hdecl as <-. simpl in Hnames.
    apply Forall_cons in Hnames as [Hname Hnames].
    rewrite map_app in Hnodup. simpl in Hnodup.
    apply NoDup_app_head in Hnodup as [Hfresh Hnodup].
    destruct (generate_file_creates f name y w subdir_path dir held
                Hf Hgrown Hplain Hbase Hdir Hname Hfresh)
      as (disk1 & Hdisk1 & Hrun1 & Hgrown1).
    destruct (IH new' (set_fs disk1 w) (held ++ [(name, y)]) eq_refl Hgrown1
                Hplain Hbase (write_node_lookup _ _ _ _ Hdisk1) Hnames)
      as (disk2 & Hdisk2 & Hrun2 & Hgrown2).
    { rewrite !map_app. exact Hnodup. }
    exists disk2. split; [|split; [|exact Hgrown2]].
    + simpl in Hdisk2. rewrite (write_node_again _ _ _ _ _ Hdisk1) in Hdisk2.
      now rewrite <- app_assoc in Hdisk2.
    + cbn [M_for]. unfold M_bind at 1. rewrite Hrun1. exact Hrun2.
Qed.

(** The round of the outer loop for one subdirectory entry. *)
Lemma generate_subdir_creates main_dir dir item new w held :
  declared_subdir e before item = Some new ->
  grown before (fs w) ->
  Forall plain (parts main_dir) ->
  base e main_dir ++ parts main_dir = dir ->
  lookup_node (fs w) dir = Some (Dir held) ->
  Forall simple_name (map fst new) ->
  Forall (fun kv => plain_node (snd kv)) new ->
  NoDup (map fst (held ++ new)) ->
  exists disk,
    write_node (fs w) dir (Dir (held ++ new)) = Some disk
    /\ generate_subdir e main_dir item w = (Ret tt, set_fs disk w)
    /\ grown before disk.
Proof.
  intros Hdecl Hgrown Hplain Hbase Hdir Hnames Hchildren Hnodup.
  destruct item as [key contents]. unfold declared_subdir in Hdecl.
  simpl in Hdecl.
  destruct (files_list contents) as [files|] eqn:Hfiles; [|discriminate].
  destruct (declared_files e before files) as [declared|] eqn:Hdeclared;
    [|discriminate].
  unfold generate_subdir. cbn [fst snd].
  rewrite (files_list_getitem _ _ Hfiles).
  destruct (String.eqb key "") eqn:Hkey; injection Hdecl as <-.
  - (* the files go into the main directory itself *)
    apply String.eqb_eq in Hkey. subst key.
    destruct (generate_files_create (joinpath main_dir "") dir files
                declared w held Hdeclared Hgrown)
      as (disk & Hdisk & Hrun & Hgrown'); try assumption.
    { now rewrite parts_joinpath_empty. }
    { now rewrite base_joinpath_empty, parts_joinpath_empty. }
    exists disk. split; [exact Hdisk|]. split; [|exact Hgrown'].
    unfold M_bind at 1. unfold makedirs.
    rewrite base_joinpath_empty, parts_joinpath_empty.
    rewrite (makedirs_existing _ w _ held); [|exact Hplain | now rewrite Hbase].
    unfold M_bind, lift. simpl. exact Hrun.
  - (* a directory of its own *)
    simpl in Hnames, Hchildren.
    apply Forall_cons in Hnames as [Hname _].
    apply Forall_cons in Hchildren as [Hchild _]. simpl in Hchild.
    apply plain_node_entries in Hchild as (Hnd' & Hnames' & _).
    rewrite map_app in Hnodup. simpl in Hnodup.
    apply NoDup_app_head in Hnodup as [Hfresh _].
    destruct (write_node_at_existing dir (fs w) _
                (Dir (held ++ [(key, Dir [])])) Hdir) as (disk1 & Hdisk1).
    pose proof (write_new_entry _ _ _ _ (Dir []) Hdir Hfresh) as Hmk.
    rewrite Hdisk1 in Hmk.
    assert (Hgrown1 : grown before disk1).
    { apply grown_trans with (fs w); [exact Hgrown|].
      apply (write_fresh_grown (dir ++ [key]) _ (Dir [])); [|exact Hmk].
      now apply lookup_new_entry with held. }
    destruct (generate_files_create (joinpath main_dir key)
                (dir ++ [key]) files declared (set_fs disk1 w) []
                Hdeclared Hgrown1)
      as (disk2 & Hdisk2 & Hrun & Hgrown2); try assumption.
    { rewrite (parts_joinpath_simple _ _ Hname). apply Forall_app.
      split; [exact Hplain|]. repeat constructor; now apply simple_name_plain. }
    { rewrite (base_joinpath_simple _ _ _ Hname),
        (parts_joinpath_simple _ _ Hname).
      now rewrite app_assoc, Hbase. }
    { simpl. now apply write_node_lookup with (fs w). }
    exists disk2. split; [|split; [|exact Hgrown2]].
    + simpl in Hdisk2. rewrite (write_node_again _ _ _ _ _ Hmk) in Hdisk2.
      now rewrite (write_new_entry _ _ _ _ _ Hdir Hfresh) in Hdisk2.
    + unfold M_bind at 1. unfold makedirs.
      rewrite (base_joinpath_simple _ _ _ Hname),
        (parts_joinpath_simple _ _ Hname).
      assert (Hmakedirs : makedirs_from (base e main_dir)
                            (parts main_dir ++ [key]) w
                          = (Ret tt, set_fs disk1 w)).
      { apply makedirs_new with held; try assumption.
        - now apply simple_name_plain.
        - now rewrite Hbase.
        - now rewrite app_assoc, Hbase. }
      rewrite Hmakedirs. unfold M_bind, lift. simpl. exact Hrun.
Qed.

(** The outer loop: the declared entries are added to the main directory. *)
Lemma generate_subdirs_create main_dir dir items :
  forall new w held,
    declared_entries e before items = Some new ->
    grown before (fs w) ->
    Forall plain (parts main_dir) ->
    base e main_dir ++ parts main_dir = dir ->
    lookup_node (fs w) dir = Some (Dir held) ->
    Forall simple_name (map fst new) ->
    Forall (fun kv => plain_node (snd kv)) new ->
    NoDup (map fst (held ++ new)) ->
    exists disk,
      write_node (fs w) dir (Dir (held ++ new)) = Some disk
      /\ M_for items (generate_subdir e main_dir) w = (Ret tt, set_fs disk w)
      /\ grown before disk.
Proof.
  induction items as [|item items IH];
    intros new w held Hdecl Hgrown Hplain Hbase Hdir Hnames Hchildren Hnodup.
  - injection Hdecl as <-. exists (fs w). rewrite app_nil_r.
    split; [now apply write_node_unchanged|].
    split; [now rewrite set_fs_same | exact Hgrown].
  - cbn [declared_entries] in Hdecl.
    destruct (declared_subdir e before item) as [es|] eqn:Hitem; [|discriminate].
    destruct (declared_entries e before items) as [rest|] eqn:Hitems;
      [|discriminate].
    injection Hdecl as <-.
    rewrite map_app in Hnames. apply Forall_app in Hnames as [Hnames1 Hnames2].
    apply Forall_app in Hchildren as [Hchildren1 Hchildren2].
    rewrite app_assoc in Hnodup.
    assert (Hnodup1 : NoDup (map fst (held ++ es))).
    { rewrite map_app in Hnodup. now apply NoDup_app in Hnodup as (H & _ & _). }
    destruct (generate_subdir_creates main_dir dir item es w held
                Hitem Hgrown Hplain Hbase Hdir Hnames1 Hchildren1 Hnodup1)
      as (disk1 & Hdisk1 & Hrun1 & Hgrown1).
    destruct (IH rest (set_fs disk1 w) (held ++ es) eq_refl Hgrown1 Hplain Hbase
                (write_node_lookup _ _ _ _ Hdisk1) Hnames2 Hchildren2 Hnodup)
      as (disk2 & Hdisk2 & Hrun2 & Hgrown2).
    exists disk2. split; [|split; [|exact Hgrown2]].
    + simpl in Hdisk2. rewrite (write_node_again _ _ _ _ _ Hdisk1) in Hdisk2.
      now rewrite <- app_assoc in Hdisk2.
    + cbn [M_for]. unfold M_bind at 1. rewrite Hrun1. exact Hrun2.
Qed.

End DeclaredStructure.

(** *** The whole generation *)

Lemma M_bind_run {A B} (m : M A) (k : A -> M B) w a w' :
  m w = (Ret a, w') -> M_bind m k w = k a w'.
Proof. unfold M_bind. now intros ->. Qed.

Lemma M_bind_lift {A B} (r : res A) (k : A -> M B) w a :
  r = Ret a -> M_bind (lift r) k w = k a w.
Proof. now intros ->. Qed.

Lemma plain_node_Dir es :
  NoDup (map fst es) ->
  Forall simple_name (map fst es) ->
  Forall (fun kv => plain_node (snd kv)) es ->
  plain_node (Dir es).
Proof.
  intros Hnd Hnames Hchildren. split; [exact Hnd|]. split; [exact Hnames|].
  clear Hnd Hnames. induction Hchildren as [|kv es Hkv _ IH]; [exact I|].
  split; assumption.
Qed.

(** C1, as amended.  Let the template that [generate_from_template] has
    prepared pass validation; let its main directory, its non-empty
    subdirectory keys and its file names be plain names, no directory being
    declared to hold a name twice; let every ["template"] entry have a
    source that is there as a file ([declared_entries] is defined); and let
    the output path, free of [".."], name an empty directory.  Then the call
    returns, and the disk it leaves is the disk it found with exactly the
    declared tree added under the output directory: the main directory,
    holding one directory per non-empty subdirectory key and, in each (or
    in the main directory for the empty key), one file per file entry,
    empty for ["empty"] and with the bytes of the source for
    ["template"]. *)
Theorem generate_creates_declared_structure (e : env)
    (name out pn pname : string) (w w1 : world) (t : json) (main : string)
    (entries : list (string * node)) (root : location) :
  prepared_template e name pn pname w = (Ret t, w1) ->
  validate_errors t = Ret [] ->
  py_getitem t "main_directory" = Ret (JStr main) ->
  simple_name main ->
  declared_entries e (fs w) (subdirectory_items t) = Some entries ->
  plain_node (Dir entries) ->
  Forall plain (parts (Path out)) ->
  root = base e (Path out) ++ parts (Path out) ->
  lookup_node (fs w) root = Some (Dir []) ->
  exists disk,
    write_node (fs w) (root ++ [main]) (Dir entries) = Some disk
    /\ lookup_node disk root = Some (Dir [(main, Dir entries)])
    /\ generate_from_template e name out pn pname w
       = (Ret tt,
          {| fs := disk;
             stdout := (stdout w1 ++ [NoValidationErrors name])
                       ++ [StructureGenerated (joinpath (Path out) main)];
             logfile := logfile w
                        ++ [StructureGenerated (joinpath (Path out) main)] |}).
Proof.
  intros Hprep Hvalid Hmain Hsimple Hdecl Hplain_entries Hout Hroot Hempty.
  destruct (prepared_template_keeps_disk e name pn pname w) as [Hfs Hlog].
  rewrite Hprep in Hfs, Hlog. simpl in Hfs, Hlog.
  pose proof Hvalid as Hkeys. apply validate_errors_nil in Hkeys
    as [(d & items & -> & Hd & Hitems) _].
  assert (Htruthy : truthy (JDict d) = true).
  { destruct d; [now contradiction Hd | reflexivity]. }
  unfold subdirectory_items in Hdecl. rewrite Hitems in Hdecl.
  apply plain_node_entries in Hplain_entries as (Hnd & Hnames & Hchildren).
  set (main_dir := joinpath (Path out) main).
  set (w2 := {| fs := fs w1; stdout := stdout w1 ++ [NoValidationErrors name];
                logfile := logfile w1 |}).
  (* the main directory *)
  destruct (write_node_at_existing root (fs w) _ (Dir [(main, Dir [])]) Hempty)
    as (disk1 & Hdisk1).
  pose proof (write_new_entry (fs w) root [] main (Dir []) Hempty
                ltac:(apply not_elem_of_nil)) as Hmk.
  simpl in Hmk. rewrite Hdisk1 in Hmk.
  assert (Hmb : base e main_dir = base e (Path out))
    by now apply base_joinpath_simple.
  assert (Hmp : parts main_dir = parts (Path out) ++ [main])
    by now apply parts_joinpath_simple.
  assert (Hfs2 : fs w2 = fs w) by exact Hfs.
  assert (Hmakedirs : makedirs e main_dir w2 = (Ret tt, set_fs disk1 w2)).
  { unfold makedirs. rewrite Hmb, Hmp.
    apply makedirs_new with []; rewrite ?Hfs2.
    - exact Hout.
    - now apply simple_name_plain.
    - now rewrite <- Hroot.
    - apply not_elem_of_nil.
    - now rewrite app_assoc, <- Hroot. }
  assert (Hgrown1 : grown (fs w) disk1).
  { apply (write_fresh_grown (root ++ [main]) _ (Dir [])); [|exact Hmk].
    now apply lookup_new_entry with []; [|apply not_elem_of_nil]. }
  (* the subdirectories *)
  destruct (generate_subdirs_create e (fs w) main_dir (root ++ [main]) items
              entries (set_fs disk1 w2) [] Hdecl Hgrown1)
    as (disk2 & Hdisk2 & Hrun & _); try assumption.
  { rewrite Hmp. apply Forall_app. split; [exact Hout|].
    repeat constructor; now apply simple_name_plain. }
  { rewrite Hmb, Hmp. now rewrite app_assoc, <- Hroot. }
  { now apply write_node_lookup with (fs w). }
  simpl in Hdisk2. rewrite (write_node_again _ _ _ _ _ Hmk) in Hdisk2.
  exists disk2. split; [exact Hdisk2|]. split.
  - rewrite (write_new_entry _ _ _ _ _ Hempty ltac:(apply not_elem_of_nil))
      in Hdisk2.
    now apply write_node_lookup with (fs w).
  - assert (Hcheck : validate_template (JDict d) name w1 = (Ret true, w2)).
    { unfold validate_template, M_bind, lift. now rewrite Hvalid. }
    rewrite generate_from_template_prepared.
    rewrite (M_bind_run _ _ _ _ _ Hprep). rewrite Htruthy. cbn [negb].
    rewrite (M_bind_run _ _ _ _ _ Hcheck). cbn [negb].
    rewrite (M_bind_lift _ _ _ _ Hmain).
    rewrite (M_bind_lift _ _ _ main_dir eq_refl).
    rewrite (M_bind_run _ _ _ _ _ Hmakedirs).
    rewrite (M_bind_lift _ _ _ (JDict items)) by (simpl; now rewrite Hitems).
    rewrite (M_bind_lift _ _ _ items eq_refl).
    rewrite (M_bind_run _ _ _ _ _ Hrun).
    unfold M_bind, print, log. simpl. now rewrite Hlog.
Qed.

(** Closed goals about concrete names. *)
Ltac distinct_names :=
  apply (bool_decide_unpack _); vm_compute; exact I.
Ltac simple_names :=
  repeat (apply Forall_cons_2; [repeat split; discriminate || reflexivity|]);
  apply Forall_nil_2.

Lemma generate_creates_declared_structure_witness :
  exists disk,
    write_node demo_disk ["work"; "Acme-042"] (Dir site_entries) = Some disk
    /\ lookup_node disk ["work"] = Some (Dir [("Acme-042", Dir site_entries)])
    /\ generate_from_template demo_env "site.json" "/work" "042" "Acme"
         demo_world
       = (Ret tt,
          {| fs := disk;
             stdout := [NoValidationErrors "site.json";
                        StructureGenerated (Path "/work/Acme-042")];
             logfile := [StructureGenerated (Path "/work/Acme-042")] |}).
Proof.
  apply (generate_creates_declared_structure demo_env "site.json" "/work"
           "042" "Acme" demo_world demo_world
           (substituted "042" "Acme" site_template) "Acme-042" site_entries
           ["work"]).
  - reflexivity.
  - reflexivity.
  - reflexivity.
  - repeat split; discriminate || reflexivity.
  - reflexivity.
  - apply plain_node_Dir.
    + distinct_names.
    + simple_names.
    + apply Forall_cons_2; [|apply Forall_nil_2]. apply plain_node_Dir.
      * distinct_names.
      * simple_names.
      * repeat (apply Forall_cons_2; [exact I|]). apply Forall_nil_2.
  - repeat constructor; discriminate || reflexivity.
  - reflexivity.
  - reflexivity.
Defined.

(** C1, as stated, fails: [nested_name_template] passes validation, it has
    no ["template"] entry, and [/work] is an empty directory; the
    generation stops with an exception at the first file, whose name has a
    directory part, and the second file, [main.py], is never created. *)
Lemma generate_misses_declared_files :
  validate_errors nested_name_template = Ret []
  /\ lookup_node nested_name_disk ["work"] = Some (Dir [])
  /\ fst (generate_from_template demo_env "nested.json" "/work" "" ""
            nested_name_world) = Raise FileNotFoundError
  /\ fs (snd (generate_from_template demo_env "nested.json" "/work" "" ""
                nested_name_world))
     = Dir [("app", Dir [("templates",
                          Dir [("nested.json",
                                File (Doc nested_name_template))])]);
            ("work", Dir [("site", Dir [("src", Dir [])])])].
Proof. repeat split; reflexivity. Qed.

(** Plain names are not enough: when a name is declared twice in one
    directory, here as a file and as a subdirectory of the main directory,
    [os.makedirs] finds the file in its way. *)
Example generate_name_declared_twice :
  validate_errors twice_declared_template = Ret []
  /\ generate_from_template demo_env "twice.json" "/work" "" ""
       odd_templates_world
     = (Raise FileExistsError,
        {| fs := Dir [("app",
                       Dir [("templates",
                             Dir [("twice.json",
                                   File (Doc twice_declared_template));
                                  ("dirsource.json",
                                   File (Doc directory_source_template))])]);
                      ("tpl", Dir [("readme.txt", File (Text "Read me first."))]);
                      ("work", Dir [("site", Dir [("docs", File (Text ""))])])];
           stdout := [NoValidationErrors "twice.json"];
           logfile := [] |}).
Proof. split; reflexivity. Qed.

(** Nor is it enough that a source exists: when it is a directory,
    [shutil.copy] cannot read it. *)
Example generate_source_is_directory :
  validate_errors directory_source_template = Ret []
  /\ path_exists demo_env odd_templates_disk (Path "/tpl") = true
  /\ fst (generate_from_template demo_env "dirsource.json" "/work" "" ""
            odd_templates_world) = Raise IsADirectoryError
  /\ lookup_node
       (fs (snd (generate_from_template demo_env "dirsource.json" "/work" "" ""
                   odd_templates_world)))
       ["work"; "site"; "src"; "readme.txt"] = None.
Proof. repeat split; reflexivity. Qed.

(* ===================================================================== *)
(** * Properties of the store *)
(* ===================================================================== *)

(** ** Writing a file and reading it back *)

(** Replacing or creating a file leaves every directory a directory. *)
Lemma write_node_keeps_dirs q : forall n c n' L,
  write_node n q (File c) = Some n' ->
  is_dir_at n q = false ->
  is_dir_at n L = true -> is_dir_at n' L = true.
Proof.
  unfold is_dir_at.
  induction q as [|a q IH]; intros n c n' L Hw Hq HL.
  - simpl in Hq. destruct n as [|es]; [|discriminate Hq].
    destruct L; simpl in HL; discriminate HL.
  - simpl in Hw. destruct n as [|es]; [discriminate Hw|].
    destruct L as [|b L]; simpl in Hw.
    { destruct (dict_get a es) as [v|]; [destruct (write_node v q (File c))|];
        [injection Hw as <-; reflexivity | discriminate Hw|].
      destruct q; [injection Hw as <-; reflexivity | discriminate Hw]. }
    simpl in Hq, HL.
    destruct (dict_get a es) as [v|] eqn:Ha.
    + destruct (write_node v q (File c)) as [v'|] eqn:Hv; [|discriminate Hw].
      injection Hw as <-. simpl.
      destruct (String.eqb a b) eqn:Hab.
      * apply String.eqb_eq in Hab as <-. rewrite dict_get_set_eq.
        rewrite Ha in HL. exact (IH v c v' L Hv Hq HL).
      * rewrite dict_get_set_ne by (intros ->; now rewrite String.eqb_refl in Hab).
        exact HL.
    + destruct q; [|discriminate Hw]. injection Hw as <-. simpl.
      destruct (String.eqb a b) eqn:Hab.
      * apply String.eqb_eq in Hab as <-. rewrite Ha in HL. discriminate HL.
      * rewrite dict_get_set_ne by (intros ->; now rewrite String.eqb_refl in Hab).
        exact HL.
Qed.

Lemma write_file_keeps_dirs q c w w1 L :
  write_file q c w = (Ret tt, w1) ->
  is_dir_at (fs w) L = true -> is_dir_at (fs w1) L = true.
Proof.
  unfold write_file. intros Hw HL.
  destruct (write_node (fs w) q (File c)) as [fs'|] eqn:Hn.
  - assert (Hq : is_dir_at (fs w) q = false).
    { unfold is_dir_at. destruct (lookup_node (fs w) q) as [[|]|];
        [reflexivity | discriminate Hw | reflexivity]. }
    assert (w1 = set_fs fs' w) as ->.
    { destruct (lookup_node (fs w) q) as [[|]|]; congruence. }
    simpl. exact (write_node_keeps_dirs q _ c fs' L Hn Hq HL).
  - destruct (lookup_node (fs w) q) as [[|]|]; discriminate Hw.
Qed.

Lemma write_file_lookup q c w w1 :
  write_file q c w = (Ret tt, w1) -> lookup_node (fs w1) q = Some (File c).
Proof.
  unfold write_file. intros Hw.
  destruct (write_node (fs w) q (File c)) as [fs'|] eqn:Hn.
  - assert (w1 = set_fs fs' w) as ->.
    { destruct (lookup_node (fs w) q) as [[|]|]; congruence. }
    simpl. exact (write_node_lookup _ _ _ _ Hn).
  - destruct (lookup_node (fs w) q) as [[|]|]; discriminate Hw.
Qed.

(** The walk along a path depends on the directories only. *)
Lemma resolve_keeps fs0 fs1 comps :
  (forall L, is_dir_at fs0 L = true -> is_dir_at fs1 L = true) ->
  forall cur q,
    resolve_from fs0 cur comps = Ret q -> resolve_from fs1 cur comps = Ret q.
Proof.
  intros Hdirs. unfold is_dir_at in Hdirs.
  induction comps as [|c rest IH]; intros cur q; [trivial|].
  cbn [resolve_from]. destruct (String.eqb c "..").
  - pose proof (Hdirs cur) as Hcur.
    destruct (lookup_node fs0 cur) as [[|es]|]; try discriminate.
    destruct (lookup_node fs1 cur) as [[|es1]|];
      [discriminate (Hcur eq_refl) | | discriminate (Hcur eq_refl)].
    apply IH.
  - destruct rest as [|c' rest']; [trivial|].
    pose proof (Hdirs (cur ++ [c])) as Hcur.
    destruct (lookup_node fs0 (cur ++ [c])) as [[|es]|]; try discriminate.
    destruct (lookup_node fs1 (cur ++ [c])) as [[|es1]|];
      [discriminate (Hcur eq_refl) | | discriminate (Hcur eq_refl)].
    apply IH.
Qed.

(** What [json.dump] has written to a path, [json.load] reads from it. *)
Lemma dump_then_load e p data w w1 :
  dump_json e p data w = (Ret tt, w1) ->
  path_exists e (fs w1) p = true /\ load_json e p w1 = (Ret data, w1).
Proof.
  unfold dump_json, path_exists, load_json, locate.
  destruct (existsb has_nul (parts p)); [discriminate|].
  destruct (resolve_from (fs w) (base e p) (parts p)) as [q|err] eqn:Hq;
    [|discriminate].
  intros Hw.
  rewrite (resolve_keeps (fs w) (fs w1) (parts p)
             (fun L => write_file_keeps_dirs q (Doc data) w w1 L Hw) _ _ Hq).
  unfold exists_at. now rewrite (write_file_lookup _ _ _ _ Hw).
Qed.

(** *** The prefix of a name and [str.replace] *)

Lemma prefix_app p s : String.prefix p (p +:+ s) = true.
Proof.
  induction p as [|a p IH]; [apply prefix_nil_l|].
  change (String a p +:+ s) with (String a (p +:+ s)).
  rewrite prefix_cons. now destruct (ascii_dec a a).
Qed.

Lemma replace_from_skip old new p s :
  replace_from old new (String.length p) (p +:+ s) = replace_from old new 0 s.
Proof.
  induction p as [|a p IH]; [reflexivity|].
  change (String a p +:+ s) with (String a (p +:+ s)). exact IH.
Qed.

(** A name behind its prefix: the prefix goes, the name stays. *)
Lemma replace_prefix old s :
  old <> "" -> str_contains old s = false ->
  str_replace old "" (old +:+ s) = s.
Proof.
  intros Hold Hs. pose proof (replace_absent old "" s Hs) as Habs.
  unfold str_replace in *. destruct old as [|a old]; [contradiction|].
  change (String a old +:+ s) with (String a (old +:+ s)).
  cbn [replace_from].
  change (String a (old +:+ s)) with (String a old +:+ s).
  rewrite prefix_app.
  replace (String.length (String a old) - 1) with (String.length old)
    by (simpl; lia).
  rewrite replace_from_skip. exact Habs.
Qed.



(** ** The listed names and the stored templates *)

Lemma str_contains_step needle c hay :
  str_contains needle (String c hay)
  = String.prefix needle (String c hay) || str_contains needle hay.
Proof. reflexivity. Qed.

Lemma prefix_contains a b c :
  String.prefix b c = true -> str_contains a b = true -> str_contains a c = true.
Proof.
  revert c. induction b as [|x b IH]; intros c Hbc Hab.
  - destruct a; [|discriminate Hab]. destruct c; reflexivity.
  - destruct c as [|y c]; [discriminate Hbc|].
    rewrite prefix_cons in Hbc. destruct (ascii_dec x y) as [<-|]; [|discriminate].
    rewrite str_contains_step in Hab |- *.
    apply orb_true_iff in Hab as [Hp|Hin]; apply orb_true_iff.
    + left. apply prefix_shorter with (q := String x b); [exact Hp|].
      rewrite prefix_cons. now destruct (ascii_dec x x).
    + right. now apply IH.
Qed.

Lemma contains_trans a b c :
  str_contains a b = true -> str_contains b c = true -> str_contains a c = true.
Proof.
  intros Hab. induction c as [|y c IH]; intros Hbc.
  - apply prefix_contains with b; [|exact Hab].
    simpl in Hbc. now rewrite orb_false_r in Hbc.
  - rewrite str_contains_step in Hbc.
    apply orb_true_iff in Hbc as [Hp|Hin].
    + now apply prefix_contains with b.
    + rewrite str_contains_step. apply orb_true_iff. right. now apply IH.
Qed.

(** A name without a slash does not contain a piece with one. *)
Lemma no_slash_no_piece piece name :
  str_contains "/" piece = true -> str_contains "/" name = false ->
  str_contains piece name = false.
Proof.
  intros Hp Hn. destruct (str_contains piece name) eqn:H; [|reflexivity].
  now rewrite (contains_trans _ _ _ Hp H) in Hn.
Qed.

Lemma ends_with_nonempty suffix s :
  suffix <> "" -> ends_with suffix s = true -> s <> "".
Proof.
  intros Hs H ->. simpl in H. rewrite orb_false_r in H.
  destruct suffix; [contradiction | discriminate H].
Qed.

Lemma plain_node_lookup p : forall n x,
  plain_node n -> lookup_node n p = Some x -> plain_node x.
Proof.
  induction p as [|c p IH]; intros n x Hn; simpl; [now intros [= <-]|].
  destruct n as [|es]; [discriminate|].
  destruct (dict_get c es) as [v|] eqn:Hc; [|discriminate].
  apply IH. apply plain_node_entries in Hn as (_ & _ & Hall).
  rewrite Forall_forall in Hall. exact (Hall (c, v) (proj2 (list_elem_of_In _ _) (dict_get_in _ _ _ Hc))).
Qed.

Lemma in_keys_get {A} k (d : list (string * A)) :
  In k (map fst d) -> exists v, dict_get k d = Some v.
Proof.
  induction d as [|[k' v'] d IH]; simpl; [contradiction|].
  destruct (String.eqb k' k) eqn:E; [now eexists|].
  intros [->|H]; [now rewrite String.eqb_refl in E | now apply IH].
Qed.

Lemma get_in_keys {A} k (d : list (string * A)) v :
  dict_get k d = Some v -> In k (map fst d).
Proof.
  intros H. apply dict_get_in in H. now apply (in_map fst) in H.
Qed.

(** Going one name further from a directory. *)
Lemma resolve_snoc fs0 comps : forall cur q c es,
  resolve_from fs0 cur comps = Ret q ->
  lookup_node fs0 q = Some (Dir es) ->
  c <> ".." ->
  resolve_from fs0 cur (comps ++ [c]) = Ret (q ++ [c]).
Proof.
  induction comps as [|a rest IH]; intros cur q c es Hq Hdir Hc.
  - injection Hq as <-. simpl. now rewrite (eqb_false _ _ Hc).
  - change ((a :: rest) ++ [c]) with (a :: (rest ++ [c])).
    cbn [resolve_from] in Hq |- *. destruct (String.eqb a "..").
    + destruct (lookup_node fs0 cur) as [[|es0]|]; try discriminate Hq.
      now apply IH with es.
    + destruct rest as [|b rest'].
      * injection Hq as <-. cbn [app]. rewrite Hdir.
        cbn [resolve_from]. now rewrite (eqb_false _ _ Hc).
      * change ((b :: rest') ++ [c]) with (b :: (rest' ++ [c])).
        change (b :: (rest' ++ [c])) with ((b :: rest') ++ [c]).
        destruct (lookup_node fs0 (cur ++ [a])) as [[|es0]|];
          try discriminate Hq.
        now apply IH with es.
Qed.

(** Where a path ends that goes one name further. *)
Lemma resolve_snoc_inv fs0 comps : forall cur q c,
  resolve_from fs0 cur (comps ++ [c]) = Ret q ->
  c <> ".." ->
  exists q0, resolve_from fs0 cur comps = Ret q0 /\ q = q0 ++ [c].
Proof.
  induction comps as [|a rest IH]; intros cur q c Hq Hc.
  - simpl in Hq. rewrite (eqb_false _ _ Hc) in Hq. injection Hq as <-.
    now exists cur.
  - change ((a :: rest) ++ [c]) with (a :: (rest ++ [c])) in Hq.
    cbn [resolve_from] in Hq |- *. destruct (String.eqb a "..").
    + destruct (lookup_node fs0 cur) as [[|es0]|]; try discriminate Hq.
      now apply IH.
    + destruct rest as [|b rest'].
      * cbn [app] in Hq.
        destruct (lookup_node fs0 (cur ++ [a])) as [[|es0]|];
          try discriminate Hq.
        simpl in Hq. rewrite (eqb_false _ _ Hc) in Hq. injection Hq as <-.
        now eexists.
      * change ((b :: rest') ++ [c]) with (b :: (rest' ++ [c])) in Hq.
        change (b :: (rest' ++ [c])) with ((b :: rest') ++ [c]) in Hq.
        destruct (lookup_node fs0 (cur ++ [a])) as [[|es0]|];
          try discriminate Hq.
        now apply IH.
Qed.

(** A name that [glob_json] yields is a plain name of an entry of the
    directory. *)
Lemma glob_json_entry e fs0 dir name :
  plain_node fs0 ->
  In name (glob_json e fs0 dir) ->
  exists q es x,
    locate e fs0 dir = Ret q
    /\ lookup_node fs0 q = Some (Dir es)
    /\ dict_get name es = Some x
    /\ simple_name name
    /\ ends_with ".json" name = true.
Proof.
  intros Hplain. unfold glob_json.
  destruct (locate e fs0 dir) as [q|err] eqn:Hq; [|contradiction].
  destruct (lookup_node fs0 q) as [[|es]|] eqn:Hdir; try contradiction.
  intros Hin. apply filter_In in Hin as [Hin Hend].
  destruct (in_keys_get _ _ Hin) as (x & Hx).
  exists q, es, x.
  split; [reflexivity|]. split; [exact Hdir|]. split; [exact Hx|].
  split; [|exact Hend].
  pose proof (plain_node_lookup q fs0 (Dir es) Hplain Hdir) as Hd.
  apply plain_node_entries in Hd as (_ & Hnames & _).
  rewrite Forall_forall in Hnames. apply Hnames. now apply list_elem_of_In.
Qed.

(** The file a plain name stands for in a directory of the store. *)
Lemma locate_in_directory e fs0 dir q es name :
  locate e fs0 dir = Ret q ->
  lookup_node fs0 q = Some (Dir es) ->
  simple_name name ->
  locate e fs0 (joinpath dir name) = Ret (q ++ [name]).
Proof.
  unfold locate. intros Hq Hdir Hname.
  rewrite (joinpath_simple _ _ Hname). cbn [parts anchored].
  rewrite existsb_app. unfold base in *. cbn [anchored].
  destruct (existsb has_nul (parts dir)); [discriminate Hq|].
  destruct Hname as (_ & _ & Hdd & _ & Hnul). simpl. rewrite Hnul. simpl.
  now apply resolve_snoc with es.
Qed.

Lemma template_path_defaults e name :
  simple_name name ->
  template_path e ("defaults/" +:+ name)
  = joinpath (DEFAULT_TEMPLATES_DIR e) name.
Proof.
  intros (_ & _ & _ & Hslash & _). unfold template_path.
  rewrite prefix_app, replace_prefix; [reflexivity | discriminate|].
  now apply no_slash_no_piece.
Qed.

Lemma template_path_user_created e name :
  simple_name name ->
  template_path e ("user_created/" +:+ name)
  = joinpath (TEMPLATES_DIR e) name.
Proof.
  intros (_ & _ & _ & Hslash & _). unfold template_path.
  change (String.prefix "defaults/" ("user_created/" +:+ name)) with false.
  cbv iota. rewrite replace_prefix; [reflexivity | discriminate|].
  now apply no_slash_no_piece.
Qed.

(** X2.  On a disk whose names are plain, every name that [list_templates]
    takes from the defaults directory or from the templates directory itself
    is the name of something stored: [load_template] finds it. *)
Theorem listed_templates_are_stored (e : env) (disk : node) (name : string) :
  plain_node disk ->
  In name
    (map (fun name => "defaults/" +:+ name)
       (glob_json e disk (DEFAULT_TEMPLATES_DIR e))
     ++ map (fun name => "user_created/" +:+ name)
          (glob_json e disk (TEMPLATES_DIR e))) ->
  In name (list_templates e disk)
  /\ path_exists e disk (template_path e name) = true.
Proof.
  intros Hplain Hin. split.
  { unfold list_templates. rewrite app_assoc. apply in_or_app. now left. }
  apply in_app_or in Hin as [Hin|Hin]; apply in_map_iff in Hin as (n & <- & Hin);
    destruct (glob_json_entry _ _ _ _ Hplain Hin)
      as (q & es & x & Hq & Hdir & Hx & Hname & _).
  - rewrite (template_path_defaults _ _ Hname). unfold path_exists.
    rewrite (locate_in_directory _ _ _ _ _ _ Hq Hdir Hname).
    unfold exists_at. rewrite lookup_node_app, Hdir. simpl. now rewrite Hx.
  - rewrite (template_path_user_created _ _ Hname). unfold path_exists.
    rewrite (locate_in_directory _ _ _ _ _ _ Hq Hdir Hname).
    unfold exists_at. rewrite lookup_node_app, Hdir. simpl. now rewrite Hx.
Qed.

(** X3.  A template that lies in the directory [user_created] only is listed
    under [user_created/], and [load_template] looks for it in the templates
    directory: it reports that the template does not exist and returns
    [None]. *)
Theorem user_created_template_is_not_found (e : env) (w : world)
    (name : string) :
  plain_node (fs w) ->
  In name (glob_json e (fs w) (USER_CREATED_DIR e)) ->
  ~ In name (glob_json e (fs w) (TEMPLATES_DIR e)) ->
  In ("user_created/" +:+ name) (list_templates e (fs w))
  /\ load_template e ("user_created/" +:+ name) w
     = (Ret JNull,
        {| fs := fs w;
           stdout := stdout w ++ [TemplateDoesNotExist ("user_created/" +:+ name)];
           logfile := logfile w |}).
Proof.
  intros Hplain Hin Hnot. split.
  { unfold list_templates. apply in_or_app. right. apply in_or_app. right.
    apply in_map_iff. now exists name. }
  destruct (glob_json_entry _ _ _ _ Hplain Hin)
    as (qu & us & x & Hqu & Hdir & Hx & Hname & Hend).
  assert (Huc : simple_name "user_created") by (repeat split; discriminate).
  assert (Hlocate : exists q es,
             locate e (fs w) (TEMPLATES_DIR e) = Ret q
             /\ lookup_node (fs w) q = Some (Dir es)).
  { revert Hqu. unfold USER_CREATED_DIR, locate.
    rewrite (joinpath_simple _ _ Huc). cbn [parts anchored].
    rewrite existsb_app. unfold base. cbn [anchored].
    destruct (existsb has_nul (parts (TEMPLATES_DIR e))); [discriminate|].
    simpl. intros Hqu.
    apply resolve_snoc_inv in Hqu as (q & Hq & ->); [|discriminate].
    destruct (lookup_prefix_dir _ _ _ _ Hdir) as (es & Hes).
    now exists q, es. }
  destruct Hlocate as (q & es & Hq & Hes).
  assert (Hnone : dict_get name es = None).
  { destruct (dict_get name es) as [y|] eqn:Hy; [|reflexivity].
    exfalso. apply Hnot. unfold glob_json. rewrite Hq, Hes.
    apply filter_In. split; [now apply get_in_keys with y | exact Hend]. }
  unfold load_template. rewrite (template_path_user_created _ _ Hname).
  unfold path_exists.
  rewrite (locate_in_directory _ _ _ _ _ _ Hq Hes Hname).
  unfold exists_at. rewrite lookup_node_app, Hes. simpl. rewrite Hnone.
  reflexivity.
Qed.

(** Closed goals about a concrete tree. *)
Ltac plain_tree :=
  cbn [snd];
  lazymatch goal with
  | |- plain_node (File _) => exact I
  | |- plain_node (Dir _) =>
      apply plain_node_Dir;
      [ distinct_names
      | simple_names
      | repeat (apply Forall_cons_2; [plain_tree|]); apply Forall_nil_2 ]
  end.

Lemma listing_disk_plain : plain_node listing_disk.
Proof. unfold listing_disk. plain_tree. Qed.

Lemma listed_templates_are_stored_witness :
  In "defaults/ace_basic.json" (list_templates demo_env listing_disk)
  /\ path_exists demo_env listing_disk
       (template_path demo_env "defaults/ace_basic.json") = true.
Proof.
  apply (listed_templates_are_stored demo_env listing_disk
           "defaults/ace_basic.json").
  - exact listing_disk_plain.
  - left. reflexivity.
Defined.

Lemma user_created_template_is_not_found_witness :
  In "user_created/mine.json" (list_templates demo_env listing_disk)
  /\ load_template demo_env "user_created/mine.json" listing_world
     = (Ret JNull,
        {| fs := listing_disk;
           stdout := [TemplateDoesNotExist "user_created/mine.json"];
           logfile := [] |}).
Proof.
  apply (user_created_template_is_not_found demo_env listing_world "mine.json").
  - exact listing_disk_plain.
  - left. reflexivity.
  - vm_compute. intros [H|[]]. discriminate H.
Defined.

Example list_templates_example :
  list_templates demo_env listing_disk
  = ["defaults/ace_basic.json"; "user_created/site.json";
     "user_created/mine.json"].
Proof. reflexivity. Qed.

(** ** The configuration file *)

(** X4.  What [save_config] has written, [load_config] returns. *)
Theorem saved_config_loads_back (e : env) (data : json) (w w1 : world) :
  save_config e data w = (Ret tt, w1) ->
  load_config e w1 = (Ret data, w1).
Proof.
  unfold save_config, load_config. intros Hdump.
  destruct (dump_then_load _ _ _ _ _ Hdump) as [-> Hload]. exact Hload.
Qed.

Lemma saved_config_loads_back_witness :
  load_config demo_env
    (snd (save_config demo_env (JDict [("output_dir", JStr "/work")]) demo_world))
  = (Ret (JDict [("output_dir", JStr "/work")]),
     snd (save_config demo_env (JDict [("output_dir", JStr "/work")]) demo_world)).
Proof.
  apply (saved_config_loads_back demo_env (JDict [("output_dir", JStr "/work")])
           demo_world).
  reflexivity.
Defined.

(** ** The directories of the store *)

Lemma grown_refl n : grown n n.
Proof. intros q. split; auto. Qed.

Lemma is_dir_parent n cur :
  is_dir_at n cur = true -> is_dir_at n (parent cur) = true.
Proof.
  unfold parent. destruct cur as [|c cur] using rev_ind; [trivial|].
  rewrite removelast_last. unfold is_dir_at. intros H.
  destruct (lookup_node n (cur ++ [c])) as [[|es]|] eqn:Hl; try discriminate H.
  now destruct (lookup_prefix_dir _ _ _ _ Hl) as (es' & ->).
Qed.

Lemma is_dir_lookup n q :
  is_dir_at n q = true -> exists es, lookup_node n q = Some (Dir es).
Proof.
  unfold is_dir_at. destruct (lookup_node n q) as [[|es]|]; try discriminate.
  now eexists.
Qed.

(** What [os.makedirs] leaves when it returns: the path leads to a
    directory, and nothing that was there is lost. *)
Lemma makedirs_from_makes comps : forall cur w w1,
  makedirs_from cur comps w = (Ret tt, w1) ->
  is_dir_at (fs w) cur = true \/ comps <> [] ->
  exists q,
    resolve_from (fs w1) cur comps = Ret q
    /\ is_dir_at (fs w1) q = true
    /\ existsb has_nul comps = false
    /\ grown (fs w) (fs w1)
    /\ stdout w1 = stdout w
    /\ logfile w1 = logfile w.
Proof.
  induction comps as [|c rest IH]; intros cur w w1 Hrun Hcur.
  - injection Hrun as <-. destruct Hcur as [Hcur|Hne]; [|contradiction].
    exists cur. split; [reflexivity|]. split; [exact Hcur|].
    split; [reflexivity|]. split; [apply grown_refl|]. now split.
  - cbn [makedirs_from] in Hrun. cbn [existsb resolve_from].
    destruct (has_nul c); [discriminate Hrun|]. cbn [orb].
    destruct (String.eqb c "..").
    + destruct (lookup_node (fs w) cur) as [[|es]|] eqn:Hl;
        try discriminate Hrun.
      assert (Hd : is_dir_at (fs w) cur = true)
        by (unfold is_dir_at; now rewrite Hl).
      destruct (IH _ _ _ Hrun (or_introl (is_dir_parent _ _ Hd)))
        as (q & Hq & Hqd & Hnul & Hg & Hout & Hlog).
      destruct (grown_dir _ _ _ _ Hg Hl) as (es' & ->).
      exists q. split; [exact Hq|]. split; [exact Hqd|]. split; [exact Hnul|].
      split; [exact Hg|]. now split.
    + assert (Hstep : exists w',
                 makedirs_from (cur ++ [c]) rest w' = (Ret tt, w1)
                 /\ is_dir_at (fs w') (cur ++ [c]) = true
                 /\ grown (fs w) (fs w')
                 /\ stdout w' = stdout w /\ logfile w' = logfile w).
      { destruct (lookup_node (fs w) (cur ++ [c])) as [[|es]|] eqn:Hl.
        - discriminate Hrun.
        - exists w. unfold is_dir_at. rewrite Hl.
          split; [exact Hrun|]. split; [reflexivity|].
          split; [apply grown_refl|]. now split.
        - destruct (write_node (fs w) (cur ++ [c]) (Dir [])) as [fs'|] eqn:Hw;
            [|discriminate Hrun].
          exists (set_fs fs' w). unfold is_dir_at. cbn [set_fs fs stdout logfile].
          rewrite (write_node_lookup _ _ _ _ Hw).
          split; [exact Hrun|]. split; [reflexivity|].
          split; [now apply (write_fresh_grown (cur ++ [c]) _ (Dir []))|].
          now split. }
      destruct Hstep as (w' & Hrest & Hd & Hg & Hout & Hlog).
      destruct (IH _ _ _ Hrest (or_introl Hd))
        as (q & Hq & Hqd & Hnul & Hg' & Hout' & Hlog').
      exists q. split;
        [|split; [exact Hqd|]; split; [exact Hnul|];
          split; [now apply grown_trans with (fs w')|]; split; congruence].
      destruct rest as [|c' rest']; [exact Hq|].
      destruct (Hg' (cur ++ [c])) as [_ Hkeep].
      destruct (is_dir_lookup _ _ (Hkeep Hd)) as (es' & ->). exact Hq.
Qed.

(** [os.makedirs] on a path that leads to a directory changes nothing. *)
Lemma makedirs_from_there comps : forall cur w q,
  resolve_from (fs w) cur comps = Ret q ->
  is_dir_at (fs w) q = true ->
  existsb has_nul comps = false ->
  makedirs_from cur comps w = (Ret tt, w).
Proof.
  induction comps as [|c rest IH]; intros cur w q Hq Hd Hnul; [reflexivity|].
  cbn [existsb] in Hnul. apply orb_false_iff in Hnul as [Hc Hnul].
  cbn [makedirs_from resolve_from] in Hq |- *. rewrite Hc.
  destruct (String.eqb c "..").
  - destruct (lookup_node (fs w) cur) as [[|es]|]; try discriminate Hq.
    now apply IH with q.
  - destruct rest as [|c' rest'].
    + injection Hq as <-. destruct (is_dir_lookup _ _ Hd) as (es & ->).
      reflexivity.
    + destruct (lookup_node (fs w) (cur ++ [c])) as [[|es]|];
        try discriminate Hq.
      now apply IH with q.
Qed.

Lemma makedirs_makes e p w w1 :
  makedirs e p w = (Ret tt, w1) ->
  parts p <> [] ->
  path_is_dir e (fs w1) p = true
  /\ grown (fs w) (fs w1)
  /\ stdout w1 = stdout w
  /\ logfile w1 = logfile w.
Proof.
  unfold makedirs, path_is_dir, locate. intros Hrun Hne.
  destruct (makedirs_from_makes _ _ _ _ Hrun (or_intror Hne))
    as (q & Hq & Hqd & Hnul & Hg & Hout & Hlog).
  rewrite Hnul, Hq. auto.
Qed.

Lemma makedirs_there e p w :
  path_is_dir e (fs w) p = true -> makedirs e p w = (Ret tt, w).
Proof.
  unfold makedirs, path_is_dir, locate.
  destruct (existsb has_nul (parts p)) eqn:Hnul; [discriminate|].
  destruct (resolve_from (fs w) (base e p) (parts p)) as [q|] eqn:Hq;
    [|discriminate].
  intros Hd. now apply makedirs_from_there with q.
Qed.

Lemma path_is_dir_grown e before after p :
  grown before after ->
  path_is_dir e before p = true -> path_is_dir e after p = true.
Proof.
  unfold path_is_dir. intros Hg.
  destruct (locate e before p) as [q|] eqn:Hq; [|discriminate].
  rewrite (grown_locate _ _ _ _ _ Hg Hq). apply (Hg q).
Qed.

Lemma store_directory_parts p c :
  simple_name c -> parts (joinpath p c) <> [].
Proof.
  intros Hc. rewrite (parts_joinpath_simple _ _ Hc). now destruct (parts p).
Qed.

(** X5.  When [ensure_directories] returns, the four directories of the store
    are there as directories, everything the disk held is still there (the
    files with their contents), nothing has been printed or logged, and a
    second call changes nothing. *)
Theorem ensure_directories_makes_the_store (e : env) (w w1 : world) :
  ensure_directories e w = (Ret tt, w1) ->
  (path_is_dir e (fs w1) (TEMPLATES_DIR e) = true
   /\ path_is_dir e (fs w1) (DEFAULT_TEMPLATES_DIR e) = true
   /\ path_is_dir e (fs w1) (FILE_TEMPLATES_DIR e) = true
   /\ path_is_dir e (fs w1) (USER_CREATED_DIR e) = true)
  /\ grown (fs w) (fs w1)
  /\ stdout w1 = stdout w
  /\ logfile w1 = logfile w
  /\ ensure_directories e w1 = (Ret tt, w1).
Proof.
  unfold ensure_directories. intros Hrun.
  assert (Ht : simple_name "templates") by (repeat split; discriminate).
  assert (Hd : simple_name "defaults") by (repeat split; discriminate).
  assert (Hf : simple_name "file_templates") by (repeat split; discriminate).
  assert (Hu : simple_name "user_created") by (repeat split; discriminate).
  unfold M_bind in Hrun.
  destruct (makedirs e (TEMPLATES_DIR e) w) as [[[]|] wa] eqn:H1;
    [|discriminate Hrun].
  destruct (makedirs e (DEFAULT_TEMPLATES_DIR e) wa) as [[[]|] wb] eqn:H2;
    [|discriminate Hrun].
  destruct (makedirs e (FILE_TEMPLATES_DIR e) wb) as [[[]|] wc] eqn:H3;
    [|discriminate Hrun].
  apply makedirs_makes in H1 as (D1 & G1 & O1 & L1);
    [|now apply store_directory_parts].
  apply makedirs_makes in H2 as (D2 & G2 & O2 & L2);
    [|now apply store_directory_parts].
  apply makedirs_makes in H3 as (D3 & G3 & O3 & L3);
    [|now apply store_directory_parts].
  apply makedirs_makes in Hrun as (D4 & G4 & O4 & L4);
    [|now apply store_directory_parts].
  assert (T : path_is_dir e (fs w1) (TEMPLATES_DIR e) = true).
  { apply path_is_dir_grown with (fs wc); [exact G4|].
    apply path_is_dir_grown with (fs wb); [exact G3|].
    now apply path_is_dir_grown with (fs wa). }
  assert (D : path_is_dir e (fs w1) (DEFAULT_TEMPLATES_DIR e) = true).
  { apply path_is_dir_grown with (fs wc); [exact G4|].
    now apply path_is_dir_grown with (fs wb). }
  assert (F : path_is_dir e (fs w1) (FILE_TEMPLATES_DIR e) = true)
    by now apply path_is_dir_grown with (fs wc).
  split; [now repeat split|].
  split.
  { apply grown_trans with (fs wc); [|exact G4].
    apply grown_trans with (fs wb); [|exact G3].
    now apply grown_trans with (fs wa). }
  split; [congruence|]. split; [congruence|].
  unfold M_bind.
  now rewrite (makedirs_there _ _ _ T), (makedirs_there _ _ _ D),
    (makedirs_there _ _ _ F), (makedirs_there _ _ _ D4).
Qed.

Lemma ensure_directories_makes_the_store_witness :
  let w1 := snd (ensure_directories demo_env example_world) in
  (path_is_dir demo_env (fs w1) (TEMPLATES_DIR demo_env) = true
   /\ path_is_dir demo_env (fs w1) (DEFAULT_TEMPLATES_DIR demo_env) = true
   /\ path_is_dir demo_env (fs w1) (FILE_TEMPLATES_DIR demo_env) = true
   /\ path_is_dir demo_env (fs w1) (USER_CREATED_DIR demo_env) = true)
  /\ grown (fs example_world) (fs w1)
  /\ stdout w1 = stdout example_world
  /\ logfile w1 = logfile example_world
  /\ ensure_directories demo_env w1 = (Ret tt, w1).
Proof.
  apply (ensure_directories_makes_the_store demo_env example_world
           (snd (ensure_directories demo_env example_world))).
  reflexivity.
Defined.

(* ===================================================================== *)
(** * Properties of the generation *)
(* ===================================================================== *)

(** ** A template that is not there *)

(** X6.  When nothing is stored under the template name, both generating
    methods report it and leave the disk and the log file alone; but
    [modify_template] is applied to [None] first when the project arguments
    ask for it, and the call then ends with a [TypeError] instead of
    returning: in [generate_from_template] when both arguments are non-empty,
    in [generate_default] when the number is missing or empty and the name is
    the empty string. *)
Theorem generate_from_missing_template (e : env) (template_name output_dir
    : string) (w : world) :
  stored e (fs w) template_name = None ->
  let w1 := {| fs := fs w;
               stdout := stdout w ++ [TemplateDoesNotExist template_name];
               logfile := logfile w |} in
  (forall project_number project_name : string,
      generate_from_template e template_name output_dir project_number
        project_name w
      = (if negb (String.eqb project_number "")
            && negb (String.eqb project_name "")
         then Raise TypeError else Ret tt, w1))
  /\ (forall project_number project_name : option string,
        generate_default e project_number project_name template_name
          output_dir w
        = (if falsy_arg project_number
              && match project_name with
                 | Some s => String.eqb s ""
                 | None => false
                 end
           then Raise TypeError else Ret tt, w1)).
Proof.
  intros Hnone w1.
  assert (Hload : load_template e template_name w = (Ret JNull, w1)).
  { unfold load_template. rewrite stored_exists, Hnone. reflexivity. }
  split; intros pn pname.
  - unfold generate_from_template. rewrite (M_bind_run _ _ _ _ _ Hload).
    destruct (negb (String.eqb pn "") && negb (String.eqb pname ""));
      reflexivity.
  - unfold generate_default. rewrite (M_bind_run _ _ _ _ _ Hload).
    destruct (falsy_arg pn
              && match pname with Some s => String.eqb s "" | None => false end);
      reflexivity.
Qed.

Lemma generate_from_missing_template_witness :
  (forall project_number project_name : string,
      generate_from_template demo_env "absent.json" "/work" project_number
        project_name demo_world
      = (if negb (String.eqb project_number "")
            && negb (String.eqb project_name "")
         then Raise TypeError else Ret tt,
         {| fs := demo_disk;
            stdout := [TemplateDoesNotExist "absent.json"];
            logfile := [] |}))
  /\ (forall project_number project_name : option string,
        generate_default demo_env project_number project_name "absent.json"
          "/work" demo_world
        = (if falsy_arg project_number
              && match project_name with
                 | Some s => String.eqb s ""
                 | None => false
                 end
           then Raise TypeError else Ret tt,
           {| fs := demo_disk;
              stdout := [TemplateDoesNotExist "absent.json"];
              logfile := [] |})).
Proof.
  apply (generate_from_missing_template demo_env "absent.json" "/work"
           demo_world).
  reflexivity.
Defined.

(** ** No project number *)

Lemma res_map_raise_or_keep {A} (f : A -> res A) (p : A -> bool) err l :
  Forall (fun a => f a = if p a then Raise err else Ret a) l ->
  res_map f l = if existsb p l then Raise err else Ret l.
Proof.
  induction 1 as [|a l Ha _ IH]; [reflexivity|].
  simpl. rewrite Ha. destruct (p a); [reflexivity|].
  rewrite IH. now destruct (existsb p l).
Qed.

Lemma modify_file_without_number f :
  typed_entry f ->
  modify_file None f = if has_placeholder f then Raise TypeError else Ret f.
Proof.
  intros (fi & name & -> & Hname). unfold modify_file, has_placeholder. simpl.
  unfold dict_has. rewrite Hname. simpl.
  now destruct (str_contains "xxxxx" name).
Qed.

Lemma modify_contents_without_number contents :
  typed_contents contents ->
  modify_contents None contents
  = if existsb has_placeholder
         (match files_list contents with Some files => files | None => [] end)
    then Raise TypeError else Ret contents.
Proof.
  intros (c & files & -> & Hfiles & Htyped).
  unfold modify_contents, files_list. simpl.
  unfold dict_has. rewrite Hfiles. simpl.
  rewrite (res_map_raise_or_keep _ has_placeholder TypeError).
  - destruct (existsb has_placeholder files); [reflexivity|].
    simpl. now rewrite dict_set_same.
  - eapply Forall_impl; [exact Htyped|]. intros f.
    apply modify_file_without_number.
Qed.

Lemma existsb_flat_map {A B} (p : B -> bool) (f : A -> list B) l :
  existsb p (flat_map f l) = existsb (fun a => existsb p (f a)) l.
Proof.
  induction l as [|a l IH]; [reflexivity|].
  simpl. now rewrite existsb_app, IH.
Qed.

(** The loop over the subdirectories stops at the first file name that
    holds the token, and changes nothing otherwise. *)
Lemma modify_items_without_number items :
  Forall (fun item : string * json => typed_contents (snd item)) items ->
  res_map (modify_item None) items
  = if existsb (fun item => existsb has_placeholder
                              match files_list (snd item) with
                              | Some files => files
                              | None => []
                              end) items
    then Raise TypeError else Ret items.
Proof.
  intros Htyped. apply res_map_raise_or_keep.
  eapply Forall_impl; [exact Htyped|]. intros [subdir contents] H.
  unfold modify_item. simpl in *.
  rewrite (modify_contents_without_number _ H).
  now destruct (existsb has_placeholder _).
Qed.

(** X7.  Without a project number ([None], as the command line leaves it when
    the option is absent), [modify_template] on a template of the data model
    raises [TypeError] as soon as a file name holds the token ["xxxxx"];
    when no name holds it, the call only sets ["main_directory"], to the
    project name followed by ["-None"]. *)
Theorem modify_template_without_number (t : json)
    (project_name : option string) :
  typed_template t ->
  modify_template t None project_name
  = if existsb has_placeholder (file_entries t) then Raise TypeError
    else Ret (with_main_directory (fstr project_name +:+ "-None") t).
Proof.
  intros (d & items & -> & Hsub & Htyped).
  unfold modify_template, with_main_directory, file_entries. simpl.
  rewrite Hsub.
  rewrite dict_get_set_ne by discriminate. rewrite Hsub. simpl.
  rewrite existsb_flat_map, (modify_items_without_number _ Htyped).
  destruct (existsb _ items); [reflexivity|]. simpl.
  rewrite dict_set_same; [reflexivity|].
  now rewrite dict_get_set_ne by discriminate.
Qed.

Lemma modify_template_without_number_witness :
  modify_template plan_template None (Some "Acme") = Raise TypeError.
Proof.
  apply (modify_template_without_number plan_template (Some "Acme")).
  exact plan_template_typed.
Defined.

Lemma typed_template_truthy t : typed_template t -> truthy t = true.
Proof.
  intros (d & items & -> & Hsub & _). destruct d; [discriminate Hsub | reflexivity].
Qed.

(** X8.  The command-line generation without a project number, on a stored
    template of the data model that passes validation and has a file name
    with the token ["xxxxx"], ends with a [TypeError]: nothing is created on
    the disk and nothing is logged. *)
Theorem generate_default_without_number (e : env) (template_name output_dir
    : string) (project_name : option string) (w : world) (t : json) :
  stored e (fs w) template_name = Some (File (Doc t)) ->
  typed_template t ->
  validate_errors t = Ret [] ->
  existsb has_placeholder (file_entries t) = true ->
  let r := generate_default e None project_name template_name output_dir w in
  fst r = Raise TypeError /\ fs (snd r) = fs w /\ logfile (snd r) = logfile w.
Proof.
  intros Hs Ht Hvalid Htoken r.
  assert (Hmod : modify_template t None project_name = Raise TypeError).
  { destruct Ht as (d & items & -> & Hsub & Htyped).
    unfold file_entries, subdirectory_items in Htoken. rewrite Hsub in Htoken.
    rewrite existsb_flat_map in Htoken.
    unfold modify_template. simpl. rewrite dict_get_set_ne by discriminate.
    rewrite Hsub. simpl.
    now rewrite (modify_items_without_number _ Htyped), Htoken. }
  assert (Hrun : exists lines,
             r = (Raise TypeError,
                  {| fs := fs w; stdout := stdout w ++ lines;
                     logfile := logfile w |})).
  { subst r. unfold generate_default.
    rewrite (M_bind_run _ _ _ _ _ (load_stored_template _ _ _ _ Hs)).
    cbn [falsy_arg andb].
    destruct (match project_name with
              | Some s => String.eqb s ""
              | None => false
              end).
    - exists []. unfold M_bind, lift. rewrite Hmod, app_nil_r.
      now destruct w.
    - exists [NoValidationErrors template_name].
      unfold M_bind at 1. unfold M_ret at 1.
      rewrite (typed_template_truthy _ Ht). cbn [negb].
      unfold validate_template, M_bind, lift. rewrite Hvalid, Hmod.
      reflexivity. }
  destruct Hrun as (lines & ->). now repeat split.
Qed.

Lemma generate_default_without_number_witness :
  let r := generate_default demo_env None (Some "Acme") "plan.json" "/work"
             plan_world in
  fst r = Raise TypeError
  /\ fs (snd r) = fs plan_world
  /\ logfile (snd r) = logfile plan_world.
Proof.
  apply (generate_default_without_number demo_env "plan.json" "/work"
           (Some "Acme") plan_world plan_template).
  - reflexivity.
  - exact plan_template_typed.
  - reflexivity.
  - reflexivity.
Defined.

(** ** Generating where everything is in place *)

Lemma said_nil w : said [] w = w.
Proof. unfold said. rewrite app_nil_r. now destruct w. Qed.

Lemma said_said a b w : said b (said a w) = said (a ++ b) w.
Proof. unfold said. simpl. now rewrite app_assoc. Qed.

Lemma generate_file_settled e disk subdir_path f w :
  fs w = disk ->
  settled_entry e disk subdir_path f ->
  generate_file e subdir_path f w = (Ret tt, said (entry_warning f) w).
Proof.
  intros Hfs (name & Hname & Hcase).
  destruct (entry_get_dict _ _ _ Hname) as (fi & ->). simpl in Hname.
  unfold generate_file, entry_warning. cbn [entry_get].
  rewrite (M_bind_lift _ _ _ (JStr name))
    by (simpl; now rewrite Hname).
  rewrite (M_bind_lift _ _ _ (joinpath subdir_path name)) by reflexivity.
  destruct Hcase as [[Hty Hthere]|(Hty & source & Hsource & Hgone)];
    simpl in Hty; rewrite Hty.
  - rewrite (M_bind_lift _ _ _ (JStr "empty")) by (simpl; now rewrite Hty).
    cbn [json_is_str String.eqb Ascii.eqb Bool.eqb].
    replace (said match dict_get "source" fi with
                  | Some (JStr _) => []
                  | _ => []
                  end w) with w
      by (destruct (dict_get "source" fi) as [[]|]; now rewrite said_nil).
    unfold touch. revert Hthere. unfold path_exists. rewrite Hfs.
    destruct (locate e disk (joinpath subdir_path name)) as [q|];
      [|discriminate].
    now intros ->.
  - simpl in Hsource. rewrite Hsource.
    rewrite (M_bind_lift _ _ _ (JStr "template")) by (simpl; now rewrite Hty).
    cbn [json_is_str String.eqb Ascii.eqb Bool.eqb].
    rewrite (M_bind_lift _ _ _ (JStr source)) by (simpl; now rewrite Hsource).
    rewrite (M_bind_lift _ _ _ (Path source)) by reflexivity.
    now rewrite Hfs, Hgone.
Qed.

Lemma generate_files_settled e disk subdir_path files : forall w,
  fs w = disk ->
  Forall (settled_entry e disk subdir_path) files ->
  M_for files (generate_file e subdir_path) w
  = (Ret tt, said (flat_map entry_warning files) w).
Proof.
  induction files as [|f files IH]; intros w Hfs Hall.
  - simpl. now rewrite said_nil.
  - apply Forall_cons in Hall as [Hf Hall]. cbn [M_for flat_map].
    rewrite (M_bind_run _ _ _ _ _ (generate_file_settled _ _ _ _ _ Hfs Hf)).
    rewrite IH by assumption. now rewrite said_said.
Qed.

Lemma generate_subdirs_settled e disk main_dir items : forall w,
  fs w = disk ->
  Forall (fun item : string * json =>
            path_is_dir e disk (joinpath main_dir (fst item)) = true
            /\ exists files,
                 files_list (snd item) = Some files
                 /\ Forall (settled_entry e disk (joinpath main_dir (fst item)))
                      files) items ->
  M_for items (generate_subdir e main_dir) w
  = (Ret tt,
     said (flat_map entry_warning
             (flat_map (fun item => match files_list (snd item) with
                                    | Some files => files
                                    | None => []
                                    end) items)) w).
Proof.
  induction items as [|[k contents] items IH]; intros w Hfs Hall.
  - simpl. now rewrite said_nil.
  - apply Forall_cons in Hall as [(Hdir & files & Hfiles & Hsettled) Hall].
    cbn [fst snd] in *. cbn [M_for flat_map snd]. rewrite Hfiles.
    assert (Hone : generate_subdir e main_dir (k, contents) w
                   = (Ret tt, said (flat_map entry_warning files) w)).
    { unfold generate_subdir. cbn [fst snd].
      rewrite (M_bind_run _ _ _ tt w)
        by (apply makedirs_there; now rewrite Hfs).
      rewrite (M_bind_lift _ _ _ _ (files_list_getitem _ _ Hfiles)).
      rewrite (M_bind_lift _ _ _ files) by reflexivity.
      now apply generate_files_settled with disk. }
    rewrite (M_bind_run _ _ _ _ _ Hone).
    rewrite IH by assumption.
    now rewrite said_said, flat_map_app.
Qed.

(** X9.  Let the template that [generate_from_template] has prepared pass
    validation, let the main directory and every subdirectory be there as
    directories, and let every entry be an ["empty"] entry whose path is
    there already (whatever it holds) or a ["template"] entry whose source
    is missing.  Then the call returns with the disk as it was: no file is
    emptied or replaced; one warning is printed per missing source, in the
    order of the template, and the generation is logged. *)
Theorem generation_leaves_what_is_there (e : env) (template_name output_dir
    project_number project_name : string) (w w1 : world) (t : json)
    (main : string) :
  prepared_template e template_name project_number project_name w
  = (Ret t, w1) ->
  validate_errors t = Ret [] ->
  py_getitem t "main_directory" = Ret (JStr main) ->
  path_is_dir e (fs w) (joinpath (Path output_dir) main) = true ->
  Forall (fun item : string * json =>
            let subdir_path :=
              joinpath (joinpath (Path output_dir) main) (fst item) in
            path_is_dir e (fs w) subdir_path = true
            /\ exists files,
                 files_list (snd item) = Some files
                 /\ Forall (settled_entry e (fs w) subdir_path) files)
    (subdirectory_items t) ->
  generate_from_template e template_name output_dir project_number
    project_name w
  = (Ret tt,
     {| fs := fs w;
        stdout := stdout w1
                  ++ [NoValidationErrors template_name]
                  ++ flat_map entry_warning (file_entries t)
                  ++ [StructureGenerated (joinpath (Path output_dir) main)];
        logfile := logfile w
                   ++ [StructureGenerated (joinpath (Path output_dir) main)] |}).
Proof.
  intros Hprep Hvalid Hmain Hdir Hitems.
  destruct (prepared_template_keeps_disk e template_name project_number
              project_name w) as [Hfs Hlog].
  rewrite Hprep in Hfs, Hlog. cbn [snd] in Hfs, Hlog.
  pose proof Hvalid as Hkeys.
  apply validate_errors_nil in Hkeys as [(d & items & -> & _ & Hsub) _].
  unfold file_entries, subdirectory_items in *. rewrite Hsub in *.
  rewrite generate_from_template_prepared.
  rewrite (M_bind_run _ _ _ _ _ Hprep).
  assert (Htruthy : truthy (JDict d) = true)
    by (destruct d; [discriminate Hsub | reflexivity]).
  rewrite Htruthy. cbn [negb].
  set (w2 := said [NoValidationErrors template_name] w1).
  rewrite (M_bind_run _ _ _ true w2)
    by (unfold validate_template, M_bind, lift; now rewrite Hvalid).
  cbn [negb].
  rewrite (M_bind_lift _ _ _ _ Hmain).
  rewrite (M_bind_lift _ _ _ (joinpath (Path output_dir) main)) by reflexivity.
  rewrite (M_bind_run _ _ _ tt w2)
    by (apply makedirs_there; subst w2; cbn [said fs]; now rewrite Hfs).
  rewrite (M_bind_lift _ _ _ (JDict items))
    by (simpl; now rewrite Hsub).
  rewrite (M_bind_lift _ _ _ items) by reflexivity.
  rewrite (M_bind_run _ _ _ _ _
             (generate_subdirs_settled e (fs w) _ items w2 Hfs Hitems)).
  unfold M_bind, print, log, said. subst w2. cbn [said fs stdout logfile].
  rewrite Hfs, Hlog. now rewrite <- !app_assoc.
Qed.

Lemma generation_leaves_what_is_there_witness :
  generate_from_template demo_env "settled.json" "/work" "" "" settled_world
  = (Ret tt,
     {| fs := settled_disk;
        stdout := [NoValidationErrors "settled.json";
                   TemplateFileNotFound (Path "/tpl/gone.txt");
                   StructureGenerated (Path "/work/site")];
        logfile := [StructureGenerated (Path "/work/site")] |}).
Proof.
  apply (generation_leaves_what_is_there demo_env "settled.json" "/work" "" ""
           settled_world settled_world settled_template "site").
  - reflexivity.
  - reflexivity.
  - reflexivity.
  - reflexivity.
  - apply Forall_cons_2; [|apply Forall_nil_2].
    split; [reflexivity|]. eexists. split; [reflexivity|].
    apply Forall_cons_2; [|apply Forall_cons_2; [|apply Forall_nil_2]].
    + exists "main.py". split; [reflexivity|]. left. now split.
    + exists "readme.txt". split; [reflexivity|]. right.
      split; [reflexivity|]. exists "/tpl/gone.txt". now split.
Defined.

(** ** The command-line generation creates the empty files *)

(** One round of the inner loop of [generate_default] is a round of the
    loop of [generate_from_template] on an ["empty"] entry, and nothing on
    any other. *)
Lemma generate_default_file_round e subdir_path f w :
  named_entry f ->
  generate_default_file e subdir_path f w
  = if is_empty_entry f then generate_file e subdir_path f w else (Ret tt, w).
Proof.
  intros (fi & s & ty & -> & Hname & Hty).
  unfold generate_default_file, generate_file, is_empty_entry.
  unfold M_bind, lift. simpl. rewrite Hname, Hty. simpl.
  now destruct (json_is_str ty "empty").
Qed.

Lemma M_bind_ext {A B} (m : M A) (k1 k2 : A -> M B) w :
  (forall a w', k1 a w' = k2 a w') -> M_bind m k1 w = M_bind m k2 w.
Proof.
  intros Hk. unfold M_bind. destruct (m w) as [[a|err] w']; [apply Hk | reflexivity].
Qed.

Lemma generate_default_files_loop e subdir_path files :
  Forall named_entry files ->
  forall w,
    M_for files (generate_default_file e subdir_path) w
    = M_for (List.filter is_empty_entry files) (generate_file e subdir_path) w.
Proof.
  induction 1 as [|f files Hf _ IH]; intros w; [reflexivity|].
  cbn [M_for List.filter]. unfold M_bind at 1.
  rewrite (generate_default_file_round e subdir_path f w Hf).
  destruct (is_empty_entry f); [|apply IH].
  cbn [M_for]. unfold M_bind.
  destruct (generate_file e subdir_path f w) as [[[]|err] w'];
    [apply IH | reflexivity].
Qed.

Lemma generate_default_subdir_round e main_dir item files w :
  files_list (snd item) = Some files ->
  Forall named_entry files ->
  generate_default_subdir e main_dir item w
  = generate_subdir e main_dir (empty_entries_only item) w.
Proof.
  intros Hfiles Hnamed.
  unfold generate_default_subdir, generate_subdir, empty_entries_only.
  rewrite Hfiles. cbn [fst snd].
  rewrite (files_list_getitem _ _ Hfiles).
  apply M_bind_ext. intros _ w'.
  unfold M_bind, lift. simpl. now apply generate_default_files_loop.
Qed.

Lemma generate_default_subdirs_loop e main_dir items :
  Forall (fun item => exists files,
            files_list (snd item) = Some files /\ Forall named_entry files)
    items ->
  forall w,
    M_for items (generate_default_subdir e main_dir) w
    = M_for (map empty_entries_only items) (generate_subdir e main_dir) w.
Proof.
  induction 1 as [|item items (files & Hfiles & Hnamed) _ IH]; intros w;
    [reflexivity|].
  cbn [M_for map]. unfold M_bind.
  rewrite (generate_default_subdir_round e main_dir item files w Hfiles Hnamed).
  destruct (generate_subdir e main_dir (empty_entries_only item) w)
    as [[[]|err] w']; [apply IH | reflexivity].
Qed.

(** The entries of a substituted template that passes validation as it was
    have a name and a type. *)
Lemma rename_entry_named pn f :
  typed_entry f -> entry_ok f -> named_entry (rename_entry pn f).
Proof.
  intros (fi & s & -> & Hname) [[_ Hty] _]. simpl in Hty.
  destruct (dict_get "type" fi) as [ty|] eqn:Htype; [|now contradiction Hty].
  unfold rename_entry. rewrite Hname.
  eexists _, _, ty. split; [reflexivity|]. split.
  - apply dict_get_set_eq.
  - rewrite dict_get_set_ne by discriminate. exact Htype.
Qed.

Lemma substituted_items pn pname t :
  typed_template t ->
  subdirectory_items (substituted pn pname t)
  = map (rename_item pn) (subdirectory_items t).
Proof.
  intros (d & items & -> & Hsub & _). unfold substituted.
  rewrite dict_get_set_ne by discriminate. rewrite Hsub.
  unfold subdirectory_items. now rewrite dict_get_set_eq, Hsub.
Qed.

Lemma substituted_named pn pname t :
  typed_template t ->
  validate_errors t = Ret [] ->
  Forall (fun item => exists files,
            files_list (snd item) = Some files /\ Forall named_entry files)
    (subdirectory_items (substituted pn pname t)).
Proof.
  intros Htyped Hvalid. rewrite (substituted_items _ _ _ Htyped).
  apply validate_errors_nil in Hvalid as [_ Hok].
  destruct Htyped as (d & items & -> & Hsub & Htyped).
  unfold subdirectory_items in *. rewrite Hsub in *.
  apply Forall_map. clear Hsub. revert Hok.
  induction Htyped as [|[subdir contents] items Hc _ IH]; intros Hok;
    [constructor|].
  apply Forall_cons in Hok as [(files & Hfiles & Hentries) Hok].
  constructor; [|now apply IH].
  simpl in Hc, Hfiles.
  destruct Hc as (c & files' & -> & Hfiles' & Hnames). simpl in Hfiles.
  rewrite Hfiles' in Hfiles. injection Hfiles as ->.
  exists (map (rename_entry pn) files). unfold rename_item. simpl.
  rewrite Hfiles'. simpl.
  rewrite dict_get_set_eq. split; [reflexivity|].
  apply Forall_map. clear -Hnames Hentries.
  induction Hnames as [|f files Hf _ IH]; [constructor|].
  apply Forall_cons in Hentries as [Hf' Hentries].
  constructor; [now apply rename_entry_named | now apply IH].
Qed.

(** X20.  The command-line generation with a project name and a non-empty
    project number, on a stored template of the data model that passes
    validation: let the main directory [name-number], the non-empty
    subdirectory keys and the substituted names of the ["empty"] entries be
    plain names, no directory being declared to hold a name twice, and let
    the output path, free of [".."], name an empty directory.  Then the call
    returns, and the disk it leaves is the disk it found with the main
    directory added under the output directory, holding one directory per
    non-empty subdirectory key and one empty file per ["empty"] entry: a
    ["template"] entry gives no file, whether its source is there or not.
    The call prints the validation message only, and writes nothing to the
    log. *)
Theorem generate_default_creates_empty_files (e : env)
    (name out number pname : string) (w : world) (t : json)
    (entries : list (string * node)) (root : location) :
  stored e (fs w) name = Some (File (Doc t)) ->
  typed_template t ->
  validate_errors t = Ret [] ->
  number <> "" ->
  simple_name (pname +:+ "-" +:+ number) ->
  declared_entries e (fs w)
    (map empty_entries_only (subdirectory_items (substituted number pname t)))
  = Some entries ->
  plain_node (Dir entries) ->
  Forall plain (parts (Path out)) ->
  root = base e (Path out) ++ parts (Path out) ->
  lookup_node (fs w) root = Some (Dir []) ->
  exists disk,
    write_node (fs w) (root ++ [pname +:+ "-" +:+ number]) (Dir entries)
    = Some disk
    /\ lookup_node disk root
       = Some (Dir [(pname +:+ "-" +:+ number, Dir entries)])
    /\ generate_default e (Some number) (Some pname) name out w
       = (Ret tt,
          {| fs := disk;
             stdout := stdout w ++ [NoValidationErrors name];
             logfile := logfile w |}).
Proof.
  intros Hstored Htyped Hvalid Hnumber Hsimple Hdecl Hplain_entries Hout Hroot
    Hempty.
  set (main := pname +:+ "-" +:+ number) in *.
  set (t2 := substituted number pname t) in *.
  pose proof (substituted_named number pname t Htyped Hvalid) as Hnamed.
  pose proof (substituted_main_directory number pname t Htyped) as Hmain.
  fold t2 in Hnamed, Hmain. fold main in Hmain.
  assert (Hitems : py_getitem t2 "subdirectories"
                   = Ret (JDict (subdirectory_items t2))).
  { destruct (substituted_typed number pname t Htyped)
      as (d2 & items2 & Ht2 & Hsub2 & _). fold t2 in Ht2. rewrite Ht2.
    unfold subdirectory_items. simpl. now rewrite Hsub2. }
  apply plain_node_entries in Hplain_entries as (Hnd & Hnames & Hchildren).
  set (main_dir := joinpath (Path out) main).
  set (w2 := {| fs := fs w; stdout := stdout w ++ [NoValidationErrors name];
                logfile := logfile w |}).
  (* the main directory *)
  destruct (write_node_at_existing root (fs w) _ (Dir [(main, Dir [])]) Hempty)
    as (disk1 & Hdisk1).
  pose proof (write_new_entry (fs w) root [] main (Dir []) Hempty
                ltac:(apply not_elem_of_nil)) as Hmk.
  simpl in Hmk. rewrite Hdisk1 in Hmk.
  assert (Hmb : base e main_dir = base e (Path out))
    by now apply base_joinpath_simple.
  assert (Hmp : parts main_dir = parts (Path out) ++ [main])
    by now apply parts_joinpath_simple.
  assert (Hmakedirs : makedirs e main_dir w2 = (Ret tt, set_fs disk1 w2)).
  { unfold makedirs. rewrite Hmb, Hmp.
    apply makedirs_new with []; change (fs w2) with (fs w).
    - exact Hout.
    - now apply simple_name_plain.
    - now rewrite <- Hroot.
    - apply not_elem_of_nil.
    - now rewrite app_assoc, <- Hroot. }
  assert (Hgrown1 : grown (fs w) disk1).
  { apply (write_fresh_grown (root ++ [main]) _ (Dir [])); [|exact Hmk].
    now apply lookup_new_entry with []; [|apply not_elem_of_nil]. }
  (* the subdirectories *)
  destruct (generate_subdirs_create e (fs w) main_dir (root ++ [main])
              (map empty_entries_only (subdirectory_items t2))
              entries (set_fs disk1 w2) [] Hdecl Hgrown1)
    as (disk2 & Hdisk2 & Hrun & _); try assumption.
  { rewrite Hmp. apply Forall_app. split; [exact Hout|].
    repeat constructor; now apply simple_name_plain. }
  { rewrite Hmb, Hmp. now rewrite app_assoc, <- Hroot. }
  { now apply write_node_lookup with (fs w). }
  simpl in Hdisk2. rewrite (write_node_again _ _ _ _ _ Hmk) in Hdisk2.
  exists disk2. split; [exact Hdisk2|]. split.
  - rewrite (write_new_entry _ _ _ _ _ Hempty ltac:(apply not_elem_of_nil))
      in Hdisk2.
    now apply write_node_lookup with (fs w).
  - assert (Hcheck : validate_template t name w = (Ret true, w2)).
    { unfold validate_template, M_bind, lift. now rewrite Hvalid. }
    unfold generate_default.
    rewrite (M_bind_run _ _ _ _ _ (load_stored_template e name w t Hstored)).
    assert (Hfalsy : falsy_arg (Some number) = false).
    { simpl. apply String.eqb_neq. exact Hnumber. }
    rewrite Hfalsy. cbn [andb].
    rewrite (M_bind_run _ _ _ t w eq_refl).
    rewrite (typed_template_truthy t Htyped). cbn [negb].
    rewrite (M_bind_run _ _ _ _ _ Hcheck). cbn [negb].
    rewrite (M_bind_lift _ _ _ _ (modify_template_typed number pname t Htyped)).
    fold t2.
    rewrite (M_bind_lift _ _ _ _ Hmain).
    rewrite (M_bind_lift _ _ _ main_dir eq_refl).
    rewrite (M_bind_run _ _ _ _ _ Hmakedirs).
    rewrite (M_bind_lift _ _ _ _ Hitems).
    rewrite (M_bind_lift _ _ _ (subdirectory_items t2) eq_refl).
    rewrite (generate_default_subdirs_loop e main_dir _ Hnamed).
    exact Hrun.
Qed.

Lemma generate_default_creates_empty_files_witness :
  exists disk,
    write_node demo_disk ["work"; "Acme-042"] (Dir site_empty_entries)
    = Some disk
    /\ lookup_node disk ["work"]
       = Some (Dir [("Acme-042", Dir site_empty_entries)])
    /\ generate_default demo_env (Some "042") (Some "Acme") "site.json" "/work"
         demo_world
       = (Ret tt,
          {| fs := disk;
             stdout := [NoValidationErrors "site.json"];
             logfile := [] |}).
Proof.
  apply (generate_default_creates_empty_files demo_env "site.json" "/work"
           "042" "Acme" demo_world site_template site_empty_entries ["work"]).
  - reflexivity.
  - eexists _, _. split; [reflexivity | split; [reflexivity|]].
    repeat constructor. eexists _, _.
    split; [reflexivity | split; [reflexivity|]].
    repeat constructor; eexists _, _; split; reflexivity.
  - reflexivity.
  - discriminate.
  - repeat split; discriminate || reflexivity.
  - reflexivity.
  - apply plain_node_Dir.
    + distinct_names.
    + simple_names.
    + apply Forall_cons_2; [|apply Forall_nil_2]. apply plain_node_Dir.
      * distinct_names.
      * simple_names.
      * repeat (apply Forall_cons_2; [exact I|]). apply Forall_nil_2.
  - repeat constructor; discriminate || reflexivity.
  - reflexivity.
  - reflexivity.
Defined.

(* ===================================================================== *)
(** * Properties of cloning and searching *)
(* ===================================================================== *)

(** ** Cloning stores the template *)

(** A path that does not end in a slash or in [.] ends in its base name. *)
Lemma parts_basename s :
  basename s <> "" -> basename s <> "." ->
  exists init, parts (Path s) = init ++ [basename s].
Proof.
  unfold basename, Path. cbn [parts].
  destruct (last (split_on "/" s)) as [b|] eqn:Hlast; [|now intros []].
  intros Hne Hdot. apply last_Some in Hlast as (l & ->).
  exists (List.filter kept_part l). rewrite List.filter_app. cbn [List.filter].
  unfold kept_part. now rewrite (eqb_false _ _ Hne), (eqb_false _ _ Hdot).
Qed.

(** What such a path leads to is held by its parent under the base name. *)
Lemma os_locate_base_name e fs0 s q :
  basename s <> "" -> basename s <> "." -> basename s <> ".." ->
  os_locate e fs0 s = Ret q ->
  exists above, q = above ++ [basename s].
Proof.
  intros Hne Hdot Hdd. destruct (parts_basename s Hne Hdot) as (init & Hparts).
  unfold os_locate. destruct (String.eqb s ""); [discriminate|].
  destruct (locate e fs0 (Path s)) as [q0|err] eqn:Hloc; [|discriminate].
  simpl. destruct (ends_with_slash s && is_file_at fs0 q0); [discriminate|].
  intros [= <-]. unfold locate in Hloc.
  destruct (existsb has_nul (parts (Path s))); [discriminate|].
  rewrite Hparts in Hloc.
  apply resolve_snoc_inv in Hloc as (above & _ & ->); [|exact Hdd].
  now exists above.
Qed.

(** [save_template] in the templates directory, under a plain name that is
    not the name of a directory there. *)
Lemma save_template_stores e name data w store held :
  locate e (fs w) (TEMPLATES_DIR e) = Ret store ->
  lookup_node (fs w) store = Some (Dir held) ->
  simple_name name ->
  (forall es, dict_get name held <> Some (Dir es)) ->
  exists disk,
    write_node (fs w) (store ++ [name]) (File (Doc data)) = Some disk
    /\ save_template e name data false w
       = (Ret tt,
          {| fs := disk;
             stdout := stdout w ++ [TemplateSaved name];
             logfile := logfile w ++ [TemplateSaved name] |}).
Proof.
  intros Hstore Hheld Hname Hnodir.
  assert (Hwrite : exists disk,
             write_node (fs w) (store ++ [name]) (File (Doc data)) = Some disk).
  { rewrite (write_node_app _ _ _ _ _ Hheld). simpl.
    destruct (write_node_at_existing store (fs w) _
                (Dir (dict_set name (File (Doc data)) held)) Hheld)
      as (disk & Hdisk).
    exists disk. now destruct (dict_get name held). }
  destruct Hwrite as (disk & Hdisk). exists disk. split; [exact Hdisk|].
  unfold save_template, dump_json, M_bind.
  rewrite (locate_in_directory _ _ _ _ _ _ Hstore Hheld Hname).
  unfold write_file. rewrite lookup_node_app, Hheld. simpl.
  destruct (dict_get name held) as [[c|es]|] eqn:Hget;
    [| now elim (Hnodir es) |]; rewrite Hdisk; reflexivity.
Qed.

(** C7, as amended.  Let the source path be one that the cleaning leaves as
    it is and that does not end in a slash, in [.] or in [..]; let it name
    a directory; and let the templates directory be there, the name of the
    template being a plain name that is not the name of a directory in it.
    Then [clone_directory] returns, and the disk it leaves is the disk it
    found with a template stored under that name in the templates
    directory.  The ["main_directory"] of the template is the base name of
    the path, which is the name of the directory in its parent; and its
    ["subdirectories"] has exactly one entry per directory of the tree (the
    top included, under the empty key), keyed by the path from the top and
    recording the names of the files directly in it. *)
Theorem clone_directory_records_every_directory (e : env)
    (source_dir name : string) (w : world) (q : location)
    (es : list (string * node)) (store : location)
    (held : list (string * node)) :
  strip source_dir = source_dir ->
  basename source_dir <> "" ->
  basename source_dir <> "." ->
  basename source_dir <> ".." ->
  os_locate e (fs w) source_dir = Ret q ->
  lookup_node (fs w) q = Some (Dir es) ->
  wf_node (Dir es) ->
  locate e (fs w) (TEMPLATES_DIR e) = Ret store ->
  lookup_node (fs w) store = Some (Dir held) ->
  simple_name name ->
  (forall es', dict_get name held <> Some (Dir es')) ->
  exists template disk above,
    clone_directory e source_dir name w
    = (Ret tt,
       {| fs := disk;
          stdout := stdout w ++ [CloneSuccess source_dir; TemplateSaved name];
          logfile := logfile w ++ [TemplateSaved name] |})
    /\ write_node (fs w) (store ++ [name]) (File (Doc template)) = Some disk
    /\ lookup_node disk (store ++ [name]) = Some (File (Doc template))
    /\ q = above ++ [basename source_dir]
    /\ py_getitem template "main_directory"
       = Ret (JStr (basename source_dir))
    /\ (forall p es',
         lookup_node (Dir es) p = Some (Dir es') ->
         dict_get (relative_root p) (subdirectory_items template)
         = Some (cloned_entry es'))
    /\ (forall k v,
         dict_get k (subdirectory_items template) = Some v ->
         exists p es',
           k = relative_root p
           /\ lookup_node (Dir es) p = Some (Dir es')
           /\ v = cloned_entry es').
Proof.
  intros Hstrip Hne Hdot Hdd Hq Hdir Hwf Hstore Hheld Hname Hnodir.
  destruct (os_locate_base_name _ _ _ _ Hne Hdot Hdd Hq) as (above & Habove).
  set (template := clone_template source_dir (walk [] (Dir es))).
  set (w0 := {| fs := fs w;
                stdout := stdout w ++ [CloneSuccess source_dir];
                logfile := logfile w |}).
  destruct (save_template_stores e name template w0 store held
              Hstore Hheld Hname Hnodir) as (disk & Hdisk & Hsave).
  exists template, disk, above.
  split.
  { rewrite <- Hstrip in Hq.
    rewrite (clone_directory_on_directory e source_dir name w q es Hq Hdir).
    rewrite Hstrip, String.eqb_refl, app_nil_r. fold template w0.
    rewrite Hsave. simpl. now rewrite <- app_assoc. }
  split; [exact Hdisk|].
  split; [exact (write_node_lookup _ _ _ _ Hdisk)|].
  split; [exact Habove|]. split; [reflexivity|].
  apply (cloned_subdirectories (Dir es) Hwf).
Qed.

Lemma clone_directory_records_every_directory_witness :
  exists template disk,
    clone_directory demo_env "/srv/proj" "proj.json" example_world
    = (Ret tt,
       {| fs := disk;
          stdout := [CloneSuccess "/srv/proj"; TemplateSaved "proj.json"];
          logfile := [TemplateSaved "proj.json"] |})
    /\ lookup_node disk ["app"; "templates"; "proj.json"]
       = Some (File (Doc template))
    /\ py_getitem template "main_directory" = Ret (JStr "proj")
    /\ dict_get "" (subdirectory_items template)
       = Some (JDict [("files", JList [])])
    /\ dict_get "a" (subdirectory_items template)
       = Some (JDict [("files", JList [JStr "f1.txt"])])
    /\ dict_get "b" (subdirectory_items template)
       = Some (JDict [("files", JList [])]).
Proof.
  destruct (clone_directory_records_every_directory demo_env "/srv/proj"
              "proj.json" example_world ["srv"; "proj"]
              [("a", Dir [("f1.txt", File (Text "one"))]); ("b", Dir [])]
              ["app"; "templates"] [])
    as (template & disk & above & Hrun & _ & Hstored & _ & Hmain & Hget & _).
  - reflexivity.
  - discriminate.
  - discriminate.
  - discriminate.
  - reflexivity.
  - reflexivity.
  - exact example_tree_wf.
  - reflexivity.
  - reflexivity.
  - repeat split; discriminate || reflexivity.
  - discriminate.
  - exists template, disk. split; [exact Hrun|]. split; [exact Hstored|].
    split; [exact Hmain|]. split; [exact (Hget [] _ eq_refl)|].
    split; [exact (Hget ["a"] _ eq_refl) | exact (Hget ["b"] _ eq_refl)].
Defined.

(** C7, as stated, fails.  The directory of the example, named with a slash
    at the end, is cloned to a template whose ["main_directory"] is the
    empty string, not [proj].  And when the name of the directory ends in a
    character that the cleaning strips, [/srv/proj_] here, the path that is
    looked at is another one, [/srv/proj]: nothing is there, so that the
    call ends with [ValueError] and no template is made. *)
Lemma clone_directory_misses_base_name :
  (lookup_node example_disk ["srv"; "proj"] = Some example_tree
   /\ os_path_isdir demo_env example_disk "/srv/proj/" = true
   /\ exists template disk,
        clone_directory demo_env "/srv/proj/" "proj.json" example_world
        = (Ret tt,
           {| fs := disk;
              stdout := [CloneSuccess "/srv/proj/"; TemplateSaved "proj.json"];
              logfile := [TemplateSaved "proj.json"] |})
        /\ lookup_node disk ["app"; "templates"; "proj.json"]
           = Some (File (Doc template))
        /\ py_getitem template "main_directory" = Ret (JStr ""))
  /\ (lookup_node underscore_disk ["srv"; "proj_"] = Some example_tree
      /\ os_path_isdir demo_env underscore_disk "/srv/proj_" = true
      /\ clone_directory demo_env "/srv/proj_" "proj.json" underscore_world
         = (Raise ValueError,
            {| fs := underscore_disk;
               stdout := [PathCleaned "/srv/proj_" "/srv/proj"];
               logfile := [] |})).
Proof.
  split.
  - split; [reflexivity|]. split; [reflexivity|].
    eexists _, _. split; [reflexivity|]. split; reflexivity.
  - split; [reflexivity|]. split; reflexivity.
Qed.

(** ** Cloning something that is not a directory *)

(** X10.  When the path, stripped, does not name a directory, the check in
    [clone_directory] answers with a pair, and unpacking it into three names
    raises [ValueError]: the message of the check is never printed, and
    nothing is saved. *)
Theorem clone_directory_raises_on_bad_path (e : env) (source_dir
    output_template_name : string) (w : world) :
  os_path_isdir e (fs w) (strip source_dir) = false ->
  clone_directory e source_dir output_template_name w
  = (Raise ValueError,
     {| fs := fs w;
        stdout := stdout w
                  ++ (if String.eqb (strip source_dir) source_dir then []
                      else [PathCleaned source_dir (strip source_dir)]);
        logfile := logfile w |}).
Proof.
  intros Hdir. unfold clone_directory, validate_directory_path.
  unfold M_bind at 1. unfold M_bind at 1.
  destruct (String.eqb (strip source_dir) source_dir).
  - unfold M_ret at 1. cbn [fs]. rewrite Hdir. rewrite app_nil_r.
    destruct (negb (os_path_exists e (fs w) (strip source_dir)));
      [destruct w; reflexivity|].
    destruct (os_path_isfile e (fs w) (strip source_dir));
      destruct w; reflexivity.
  - unfold print at 1. cbn [fs]. rewrite Hdir.
    destruct (negb (os_path_exists e (fs w) (strip source_dir)));
      [reflexivity|].
    destruct (os_path_isfile e (fs w) (strip source_dir)); reflexivity.
Qed.

Lemma clone_directory_raises_on_bad_path_witness :
  clone_directory demo_env "/srv/proj/a/f1.txt" "proj.json" example_world
  = (Raise ValueError, example_world).
Proof.
  apply (clone_directory_raises_on_bad_path demo_env "/srv/proj/a/f1.txt"
           "proj.json" example_world).
  reflexivity.
Defined.

(** ** Searching a cloned template *)

Lemma any_in_strings query names :
  any_in query (map JStr names) = Ret (existsb (str_contains query) names).
Proof.
  induction names as [|name names IH]; [reflexivity|].
  cbn [map any_in existsb py_in res_bind].
  destruct (str_contains query name); [reflexivity | exact IH].
Qed.

Lemma existsb_strings query names :
  existsb (fun f => match f with
                    | JStr name => str_contains query name
                    | _ => false
                    end) (map JStr names)
  = existsb (str_contains query) names.
Proof. induction names as [|n names IH]; simpl; now rewrite ?IH. Qed.

Lemma search_items_cloned query items :
  Forall (fun item : string * json => exists files,
            snd item = JDict [("files", JList (map JStr files))]) items ->
  search_items query items
  = Ret (map fst (List.filter (names_hit query) items)).
Proof.
  induction 1 as [|[k v] items (names & Hv) _ IH]; [reflexivity|].
  simpl in Hv. subst v.
  cbn [search_items List.filter]. rewrite IH. unfold search_hit, names_hit.
  cbn [fst snd files_list dict_get String.eqb Ascii.eqb Bool.eqb].
  rewrite existsb_strings.
  destruct (str_contains query k); [reflexivity|].
  cbn [py_getitem dict_get String.eqb Ascii.eqb Bool.eqb res_bind py_iter orb].
  rewrite any_in_strings. cbn [res_bind].
  now destruct (existsb (str_contains query) names).
Qed.

Lemma dict_set_keys {A} k (v : A) d :
  NoDup (map fst d) -> NoDup (map fst (dict_set k v d)).
Proof.
  intros Hnd. destruct (dict_get k d) as [x|] eqn:Hk.
  - replace (map fst (dict_set k v d)) with (map fst d); [exact Hnd|].
    clear Hnd. revert Hk. induction d as [|[k' v'] d IH]; simpl; [discriminate|].
    destruct (String.eqb k' k) eqn:E.
    + apply String.eqb_eq in E. now subst.
    + intros H. simpl. now rewrite <- IH.
  - rewrite (dict_set_fresh _ _ _ Hk), map_app. simpl.
    apply NoDup_app. split; [exact Hnd|]. split.
    + intros x Hx Hx'. apply list_elem_of_singleton in Hx'. subst x.
      apply list_elem_of_In, in_keys_get in Hx as (y & Hy). congruence.
    + apply NoDup_singleton.
Qed.

Lemma clone_subdirectories_keys visits : forall subdirs,
  NoDup (map fst subdirs) ->
  NoDup (map fst (clone_subdirectories visits subdirs)).
Proof.
  induction visits as [|[rel files] visits IH]; intros subdirs Hnd; [exact Hnd|].
  cbn [clone_subdirectories]. apply IH.
  destruct (dict_has (relative_root rel) subdirs); [exact Hnd|].
  now apply dict_set_keys.
Qed.

Lemma filter_keys {A} (f : string * A -> bool) d :
  NoDup (map fst d) -> NoDup (map fst (List.filter f d)).
Proof.
  induction d as [|kv d IH]; simpl; [trivial|].
  intros Hnd. apply NoDup_cons in Hnd as [Hk Hnd].
  destruct (f kv); [|now apply IH].
  simpl. apply NoDup_cons. split; [|now apply IH].
  intros Hin. apply Hk. apply list_elem_of_In in Hin. apply list_elem_of_In.
  apply in_map_iff in Hin as (kv' & <- & Hin').
  apply filter_In in Hin' as [Hin' _]. now apply in_map.
Qed.

(** X11.  On the template cloned from a directory whose names are as a disk
    has them, [search_template] finds what its docstring says: the result
    holds, each once, the keys of exactly those directories whose path from
    the top, or one of whose file names, contains the query. *)
Theorem search_finds_names_in_cloned_template (cleaned query : string)
    (top : node) :
  wf_node top ->
  exists results,
    search_results (clone_template cleaned (walk [] top)) query = Ret results
    /\ NoDup results
    /\ forall k,
         In k results
         <-> exists p es,
               lookup_node top p = Some (Dir es)
               /\ k = relative_root p
               /\ (str_contains query k = true
                   \/ exists name, In name (file_names es)
                                   /\ str_contains query name = true).
Proof.
  intros Hwf.
  set (items := clone_subdirectories (walk [] top) []).
  assert (Hshape : Forall (fun item : string * json => exists files,
                     snd item = JDict [("files", JList (map JStr files))])
                     items)
    by (apply clone_subdirectories_shape; constructor).
  assert (Hkeys : NoDup (map fst items))
    by (apply clone_subdirectories_keys; constructor).
  destruct (cloned_subdirectories top Hwf) as [Hthere Hback].
  fold items in Hthere, Hback.
  exists (map fst (List.filter (names_hit query) items)).
  split; [|split].
  - unfold search_results, clone_template. fold items.
    cbn [py_getitem dict_get String.eqb Ascii.eqb Bool.eqb res_bind py_items].
    now apply search_items_cloned.
  - now apply filter_keys.
  - intros k. rewrite in_map_iff. split.
    + intros ([k' v] & Hk & Hin). simpl in Hk. subst k'.
      apply filter_In in Hin as [Hin Hhit].
      apply (in_dict_get _ _ _ Hkeys) in Hin.
      destruct (Hback k v Hin) as (p & es & -> & Hl & ->).
      exists p, es. split; [exact Hl|]. split; [reflexivity|].
      unfold names_hit, cloned_entry in Hhit.
      cbn [fst snd files_list dict_get String.eqb Ascii.eqb Bool.eqb] in Hhit.
      rewrite existsb_strings in Hhit.
      apply orb_true_iff in Hhit as [Hhit|Hhit]; [now left | right].
      apply existsb_exists in Hhit as (name & Hname & Hc). now exists name.
    + intros (p & es & Hl & -> & Hhit).
      exists (relative_root p, cloned_entry es). split; [reflexivity|].
      apply filter_In. split; [apply dict_get_in, Hthere, Hl|].
      unfold names_hit, cloned_entry.
      cbn [fst snd files_list dict_get String.eqb Ascii.eqb Bool.eqb].
      rewrite existsb_strings. apply orb_true_iff.
      destruct Hhit as [Hhit|(name & Hname & Hc)]; [now left | right].
      apply existsb_exists. now exists name.
Qed.

Lemma search_finds_names_in_cloned_template_witness :
  exists results,
    search_results (clone_template "/srv/proj" (walk [] example_tree)) "f1"
    = Ret results
    /\ NoDup results
    /\ forall k,
         In k results
         <-> exists p es,
               lookup_node example_tree p = Some (Dir es)
               /\ k = relative_root p
               /\ (str_contains "f1" k = true
                   \/ exists name, In name (file_names es)
                                   /\ str_contains "f1" name = true).
Proof.
  apply (search_finds_names_in_cloned_template "/srv/proj" "f1" example_tree).
  exact example_tree_wf.
Defined.

Example search_cloned_example :
  search_results example_clone "f1" = Ret ["a"].
Proof. reflexivity. Qed.

(* ===================================================================== *)
(** * Properties of the console *)
(* ===================================================================== *)

(** ** Templates made by the dialogue *)

Lemma dict_set_Forall {A} (P : string * A -> Prop) k v d :
  Forall P d -> P (k, v) -> Forall P (dict_set k v d).
Proof.
  intros Hd Hv. induction Hd as [|[k' v'] d Hkv Hd IH]; simpl.
  - now constructor.
  - destruct (String.eqb k' k); constructor; assumption.
Qed.

Lemma dict_get_Forall {A} (P : string * A -> Prop) k v d :
  Forall P d -> dict_get k d = Some v -> P (k, v).
Proof.
  intros Hd Hk. rewrite Forall_forall in Hd. apply Hd.
  apply list_elem_of_In. now apply dict_get_in.
Qed.

Lemma dict_get_set_known {A} k k' (v : A) d :
  (exists x, dict_get k d = Some x) ->
  exists x, dict_get k (dict_set k' v d) = Some x.
Proof.
  intros (x & Hx). destruct (String.eqb k' k) eqn:E.
  - apply String.eqb_eq in E as ->. exists v. apply dict_get_set_eq.
  - exists x. rewrite dict_get_set_ne; [exact Hx|].
    intros ->. now rewrite String.eqb_refl in E.
Qed.

(** Appending an entry to a subdirectory of the mapping goes through. *)
Lemma append_file_dialogue subdir entry subdirs :
  dialogue_subdirs subdirs -> dialogue_entry entry ->
  (exists contents, dict_get subdir subdirs = Some contents) ->
  exists subdirs',
    append_file subdir entry subdirs = Ret subdirs'
    /\ dialogue_subdirs subdirs'
    /\ forall k, (exists x, dict_get k subdirs = Some x) ->
                 exists x, dict_get k subdirs' = Some x.
Proof.
  intros Hs He (contents & Hc).
  destruct (dict_get_Forall _ _ _ _ Hs Hc) as (files & Hfiles & Hall).
  simpl in Hfiles. subst contents.
  unfold append_file. simpl. rewrite Hc. simpl.
  eexists. split; [reflexivity|]. split.
  - apply dict_set_Forall; [exact Hs|]. exists (files ++ [entry]).
    split; [reflexivity|]. apply Forall_app. split; [exact Hall|].
    now constructor.
  - intros k. apply dict_get_set_known.
Qed.

(** The loops keep the mapping in the shape of the data model, and never
    break. *)
Lemma ask_subdirectories_shape answers : forall next subdirs invalid,
  dialogue_subdirs subdirs -> prompt_known next subdirs ->
  match ask_subdirectories answers next subdirs invalid with
  | Told (subdirs', _, _) => dialogue_subdirs subdirs'
  | EndOfAnswers => True
  | Broke _ => False
  end.
Proof.
  induction answers as [|answer rest IH]; intros next subdirs invalid Hs Hk;
    [exact I|].
  destruct next as [|subdir|subdir file_name|subdir file_name];
    cbn [ask_subdirectories].
  - destruct (String.eqb answer ""); [exact Hs|].
    apply IH.
    + apply dict_set_Forall; [exact Hs|]. exists []. now split.
    + exists (JDict [("files", JList [])]). apply dict_get_set_eq.
  - destruct (String.eqb answer ""); apply IH; try assumption. exact I.
  - destruct (String.eqb answer "1").
    + destruct (append_file_dialogue subdir
                  (JDict [("name", JStr file_name); ("type", JStr "empty")])
                  subdirs Hs) as (subdirs' & -> & Hs' & Hkeep);
        [exists file_name; now left | exact Hk|].
      apply IH; [exact Hs' | now apply Hkeep].
    + destruct (String.eqb answer "2"); apply IH; assumption.
  - destruct (append_file_dialogue subdir
                (JDict [("name", JStr file_name); ("type", JStr "template");
                        ("source", JStr answer)])
                subdirs Hs) as (subdirs' & -> & Hs' & Hkeep);
      [exists file_name; right; now exists answer | exact Hk|].
    apply IH; [exact Hs' | now apply Hkeep].
Qed.

Lemma dialogue_entry_ok f : dialogue_entry f -> entry_ok f /\ typed_entry f.
Proof.
  intros (name & [->|(source & ->)]); split;
    try (eexists _, name; split; reflexivity);
    apply (check_file_info_nil ""); reflexivity.
Qed.

(** X12.  Whatever is answered, the dialogue of [create_template] does not
    break, and the template it hands to [save_template] is a template of the
    data model that passes validation. *)
Theorem created_template_is_valid (answers : list string) :
  match create_template_dialogue answers with
  | Told (_, template, _) =>
      validate_errors template = Ret [] /\ typed_template template
  | EndOfAnswers => True
  | Broke _ => False
  end.
Proof.
  unfold create_template_dialogue.
  destruct answers as [|main answers]; [exact I|].
  pose proof (ask_subdirectories_shape answers AskSubdirectory [] 0
                (Forall_nil_2 _) I) as Hshape.
  destruct (ask_subdirectories answers AskSubdirectory [] 0)
    as [[[subdirs invalid] rest]| |err]; [|exact I | exact Hshape].
  destruct rest as [|template_name rest]; [exact I|].
  split.
  - apply validate_errors_nil. split.
    + eexists _, subdirs. split; [reflexivity|]. split; [discriminate|].
      reflexivity.
    + simpl. eapply Forall_impl; [exact Hshape|].
      intros [subdir contents] (files & -> & Hall). exists files.
      split; [reflexivity|].
      eapply Forall_impl; [exact Hall|]. intros f Hf.
      now apply dialogue_entry_ok.
  - eexists _, subdirs. split; [reflexivity|]. split; [reflexivity|].
    eapply Forall_impl; [exact Hshape|].
    intros [subdir contents] (files & -> & Hall). exists [("files", JList files)], files.
    split; [reflexivity|]. split; [reflexivity|].
    eapply Forall_impl; [exact Hall|]. intros f Hf.
    now apply dialogue_entry_ok.
Qed.

Example create_template_site :
  create_template_dialogue site_answers = Told ("site.json", site_template, 1).
Proof. reflexivity. Qed.

(** ** The preview *)

Lemma shown_subdirectories_app a b :
  shown_subdirectories (a ++ b)
  = shown_subdirectories a ++ shown_subdirectories b.
Proof. apply flat_map_app. Qed.

Lemma shown_files_app a b : shown_files (a ++ b) = shown_files a ++ shown_files b.
Proof. apply flat_map_app. Qed.

Lemma print_files_shown is_last files :
  shown_subdirectories (print_files is_last files) = []
  /\ shown_files (print_files is_last files) = files.
Proof.
  induction files as [|f files [IH1 IH2]]; [now split|].
  destruct files as [|g files]; [now split|].
  change (print_files is_last (f :: g :: files))
    with (Leaf is_last false f :: print_files is_last (g :: files)).
  split; [exact IH1|]. unfold shown_files in *. simpl in *. now rewrite IH2.
Qed.

Lemma print_tree_shown items :
  Forall (fun item => files_list (snd item) <> None) items ->
  snd (print_tree items) = Ret tt
  /\ shown_subdirectories (fst (print_tree items)) = map fst items
  /\ shown_files (fst (print_tree items))
     = flat_map (fun item => match files_list (snd item) with
                             | Some files => files
                             | None => []
                             end) items.
Proof.
  induction 1 as [|[sub contents] items Hfiles _ (IH1 & IH2 & IH3)];
    [now repeat split|].
  cbn [print_tree map flat_map fst snd] in *.
  destruct (files_list contents) as [files|] eqn:Hf; [|contradiction].
  rewrite (files_list_getitem _ _ Hf).
  destruct (print_tree items) as [lines r]. cbn [fst snd] in *.
  destruct files as [|f files]; cbn [truthy negb py_iter fst snd].
  - split; [exact IH1|]. split.
    + unfold shown_subdirectories in *. simpl. now rewrite IH2.
    + unfold shown_files in *. simpl. exact IH3.
  - destruct (print_files_shown
                match items with [] => true | _ => false end (f :: files))
      as [P1 P2].
    split; [exact IH1|]. split.
    + change (Branch ?b sub :: ?l) with ([Branch b sub] ++ l).
      rewrite !shown_subdirectories_app, P1, IH2. reflexivity.
    + change (Branch ?b sub :: ?l) with ([Branch b sub] ++ l).
      rewrite !shown_files_app, P2, IH3. reflexivity.
Qed.

(** X13.  The preview of a template that passes validation does not raise; it
    shows every subdirectory key once, in the order of the template, and
    under the keys every file entry once, in order. *)
Theorem preview_shows_the_template (t : json) :
  validate_errors t = Ret [] ->
  snd (display_template_tree t) = Ret tt
  /\ shown_subdirectories (fst (display_template_tree t))
     = map fst (subdirectory_items t)
  /\ shown_files (fst (display_template_tree t)) = file_entries t.
Proof.
  intros Hvalid. apply validate_errors_nil in Hvalid as [Hkeys Hitems].
  destruct Hkeys as (d & items & -> & Hmain & Hsub).
  unfold file_entries, subdirectory_items in *. rewrite Hsub in *.
  unfold display_template_tree. cbn [py_getitem res_bind].
  destruct (dict_get "main_directory" d) as [main|]; [|contradiction].
  rewrite Hsub. cbn [res_bind py_items].
  assert (Hlists : Forall (fun item : string * json =>
                             files_list (snd item) <> None) items).
  { eapply Forall_impl; [exact Hitems|]. intros item (files & -> & _).
    discriminate. }
  destruct (print_tree_shown items Hlists) as (H1 & H2 & H3).
  destruct (print_tree items) as [lines r]. cbn [fst snd] in *.
  split; [exact H1|]. split.
  - rewrite shown_subdirectories_app. exact H2.
  - rewrite shown_files_app. exact H3.
Qed.

Lemma preview_shows_the_template_witness :
  snd (display_template_tree site_template) = Ret tt
  /\ shown_subdirectories (fst (display_template_tree site_template))
     = ["src"]
  /\ shown_files (fst (display_template_tree site_template))
     = file_entries site_template.
Proof.
  apply (preview_shows_the_template site_template). reflexivity.
Defined.

(** The preview of a template that could not be loaded stops after its
    first line. *)
Example preview_of_nothing :
  display_template_tree JNull = ([BlankLine], Raise TypeError).
Proof. reflexivity. Qed.

Example preview_of_site_template :
  fst (display_template_tree site_template)
  = [BlankLine; PreviewTitle (JStr "site"); MainDirectory (JStr "site");
     Branch true "src";
     Leaf true false (JDict [("name", JStr "main.py"); ("type", JStr "empty")]);
     Leaf true true (JDict [("name", JStr "readme.txt");
                            ("type", JStr "template");
                            ("source", JStr "/tpl/readme.txt")])].
Proof. reflexivity. Qed.

(* ===================================================================== *)
(** * Properties of the directory map *)
(* ===================================================================== *)

Lemma str_app_assoc a b c : (a +:+ b) +:+ c = a +:+ (b +:+ c).
Proof.
  induction a as [|x a IH]; [reflexivity|].
  change (String x ((a +:+ b) +:+ c) = String x (a +:+ (b +:+ c))).
  now f_equal.
Qed.

Lemma str_app_nil_r a : a +:+ "" = a.
Proof.
  induction a as [|x a IH]; [reflexivity|].
  change (String x (a +:+ "") = String x a). now f_equal.
Qed.

Lemma ends_with_app suffix x a :
  a <> "" -> String.length suffix = 1 ->
  ends_with suffix (x +:+ a) = ends_with suffix a.
Proof.
  intros Ha Hs. induction x as [|c x IH]; [reflexivity|].
  change (String c x +:+ a) with (String c (x +:+ a)).
  cbn [ends_with]. rewrite IH.
  replace (String.eqb (String c (x +:+ a)) suffix) with false; [reflexivity|].
  symmetry. apply String.eqb_neq. intros Heq.
  destruct suffix as [|s1 [|s2 suffix]]; try discriminate Hs.
  injection Heq as _ Heq. destruct x; [simpl in Heq; contradiction | discriminate].
Qed.

Lemma ends_with_slash_free name :
  str_contains "/" name = false -> ends_with "/" name = false.
Proof.
  induction name as [|c name IH]; intros H; [reflexivity|].
  cbn [ends_with]. rewrite IH by (eapply str_contains_cons; exact H).
  rewrite orb_false_r. apply String.eqb_neq. intros [= -> ->].
  discriminate H.
Qed.

(** The roots of the walk are the top followed by the way below it. *)
Lemma walk_root_below rel : forall top,
  top <> "" -> ends_with "/" top = false -> Forall entry_name rel ->
  walk_root top rel = top +:+ below rel.
Proof.
  unfold walk_root.
  induction rel as [|name rel IH]; intros top Htop Hend Hrel.
  - simpl. now rewrite str_app_nil_r.
  - apply Forall_cons in Hrel as [[Hne Hslash] Hrel].
    cbn [fold_left below fold_right]. unfold os_path_join at 2.
    rewrite (eqb_false _ _ Htop), Hend. cbn [orb].
    rewrite IH; [| |  |exact Hrel].
    + change (String "/" name) with ("/" +:+ name).
      now rewrite !str_app_assoc.
    + destruct top; [contradiction | discriminate].
    + rewrite <- str_app_assoc.
      rewrite ends_with_app by (assumption || reflexivity).
      now apply ends_with_slash_free.
Qed.

Lemma str_length_app a b :
  String.length (a +:+ b) = String.length a + String.length b.
Proof.
  induction a as [|c a IH]; [reflexivity|].
  change (String c a +:+ b) with (String c (a +:+ b)).
  cbn [String.length]. now rewrite IH.
Qed.

Lemma count_sep_app a b : count_sep (a +:+ b) = count_sep a + count_sep b.
Proof.
  induction a as [|c a IH]; [reflexivity|].
  change (String c a +:+ b) with (String c (a +:+ b)).
  cbn [count_sep]. rewrite IH. lia.
Qed.

Lemma count_sep_slash_free name :
  str_contains "/" name = false -> count_sep name = 0.
Proof.
  induction name as [|c name IH]; intros H; [reflexivity|].
  cbn [count_sep]. rewrite (no_slash_head _ _ H).
  now rewrite IH by (eapply str_contains_cons; exact H).
Qed.

Lemma count_sep_below rel :
  Forall entry_name rel -> count_sep (below rel) = length rel.
Proof.
  induction 1 as [|name rel [_ Hslash] _ IH]; [reflexivity|].
  cbn [below fold_right length].
  change (String "/" name +:+ fold_right
            (fun name rest => String "/" name +:+ rest) "" rel)
    with (String "/" (name +:+ below rel)).
  cbn [count_sep]. change (Ascii.eqb "/" "/") with true.
  rewrite count_sep_app, (count_sep_slash_free _ Hslash), IH. lia.
Qed.

Lemma prefix_split old s :
  String.prefix old s = true -> exists rest, s = old +:+ rest.
Proof.
  revert s. induction old as [|a old IH]; intros s H; [now exists s|].
  destruct s as [|c s]; [discriminate H|].
  rewrite prefix_cons in H. destruct (ascii_dec a c) as [<-|]; [|discriminate].
  destruct (IH _ H) as (rest & ->). now exists rest.
Qed.

(** An occurrence at the head is replaced, and the search goes on behind
    it. *)
Lemma replace_from_match old new rest :
  old <> "" ->
  replace_from old new 0 (old +:+ rest) = new +:+ replace_from old new 0 rest.
Proof.
  intros Hold. destruct old as [|a old]; [contradiction|].
  change (String a old +:+ rest) with (String a (old +:+ rest)).
  cbn [replace_from].
  change (String a (old +:+ rest)) with (String a old +:+ rest).
  rewrite prefix_app.
  replace (String.length (String a old) - 1) with (String.length old)
    by (simpl; lia).
  now rewrite replace_from_skip.
Qed.

(** Taking out the occurrences of a string without a slash takes out no
    slash. *)
Lemma count_sep_replace old s :
  old <> "" -> str_contains "/" old = false ->
  count_sep (replace_from old "" 0 s) = count_sep s.
Proof.
  intros Hold Hslash.
  remember (String.length s) as n eqn:Hn. revert s Hn.
  induction n as [n IH] using lt_wf_ind. intros s Hn.
  destruct (String.prefix old s) eqn:Hp.
  - destruct (prefix_split _ _ Hp) as (rest & ->).
    rewrite (replace_from_match _ _ _ Hold).
    change ("" +:+ replace_from old "" 0 rest)
      with (replace_from old "" 0 rest).
    rewrite count_sep_app, (count_sep_slash_free _ Hslash).
    apply (IH (String.length rest)); [|reflexivity].
    subst n. rewrite str_length_app.
    destruct old; [contradiction | simpl; lia].
  - destruct s as [|c s]; [reflexivity|].
    cbn [replace_from]. rewrite Hp. cbn [count_sep]. f_equal.
    apply (IH (String.length s)); [subst n; simpl; lia | reflexivity].
Qed.

Lemma split_on_length s :
  length (split_on "/" s) = S (count_sep s).
Proof.
  induction s as [|c s IH]; [reflexivity|].
  cbn [split_on count_sep]. destruct (Ascii.eqb c "/").
  - simpl. now rewrite IH.
  - destruct (split_on "/" s); [discriminate IH | exact IH].
Qed.

Lemma last_split_on_behind_slash x y :
  last (split_on "/" (x +:+ String "/" y)) = last (split_on "/" y).
Proof.
  induction x as [|c x IH].
  - change ("" +:+ String "/" y) with (String "/" y).
    cbn [split_on]. change (Ascii.eqb "/" "/") with true. cbv iota.
    pose proof (split_on_length y) as Hlen.
    destruct (split_on "/" y); [discriminate Hlen | reflexivity].
  - change (String c x +:+ String "/" y) with (String c (x +:+ String "/" y)).
    cbn [split_on].
    pose proof (split_on_length (x +:+ String "/" y)) as Hlen.
    rewrite count_sep_app in Hlen. cbn [count_sep] in Hlen.
    change (Ascii.eqb "/" "/") with true in Hlen.
    destruct (Ascii.eqb c "/").
    + destruct (split_on "/" (x +:+ String "/" y)) as [|l ls];
        [discriminate Hlen | exact IH].
    + destruct (split_on "/" (x +:+ String "/" y)) as [|l [|l' ls]];
        [discriminate Hlen | simpl in Hlen; lia | exact IH].
Qed.

Lemma last_split_below rel : forall name,
  Forall entry_name (name :: rel) ->
  last (split_on "/" (name +:+ below rel)) = last (name :: rel).
Proof.
  induction rel as [|name' rel IH]; intros name Hrel;
    apply Forall_cons in Hrel as [[_ Hslash] Hrel].
  - cbn [below fold_right]. now rewrite str_app_nil_r, (split_on_name _ Hslash).
  - cbn [below fold_right].
    change (String "/" name' +:+ ?r) with (String "/" (name' +:+ r)).
    rewrite (split_on_name_slash _ _ Hslash).
    change (last (name :: name' :: rel)) with (last (name' :: rel)).
    rewrite <- (IH name' Hrel). unfold below.
    pose proof (split_on_length
                  (name' +:+ fold_right
                     (fun name rest => String "/" name +:+ rest) "" rel))
      as Hlen.
    destruct (split_on "/" _) as [|l ls]; [discriminate Hlen | reflexivity].
Qed.

Lemma basename_below root rel :
  Forall entry_name rel ->
  basename (root +:+ below rel) = written_name root rel.
Proof.
  unfold basename, written_name. intros Hrel.
  destruct rel as [|name rel].
  { change (below []) with "". now rewrite str_app_nil_r. }
  change (below (name :: rel)) with (String "/" (name +:+ below rel)).
  rewrite last_split_on_behind_slash, (last_split_below rel name Hrel).
  destruct (last (name :: rel)) eqn:E; [reflexivity|].
  apply last_None in E. discriminate E.
Qed.

(** The level the loop computes is the number of steps below the top. *)
Lemma map_level root_dir rel :
  root_dir <> "" -> Forall entry_name rel ->
  str_contains "/" root_dir = false
  \/ str_contains root_dir (below rel) = false ->
  count_sep (str_replace root_dir "" (root_dir +:+ below rel)) = length rel.
Proof.
  intros Hroot Hrel Hcase.
  assert (Hrep : str_replace root_dir "" (root_dir +:+ below rel)
                 = replace_from root_dir "" 0 (below rel)).
  { unfold str_replace. destruct root_dir as [|a r]; [contradiction|].
    now rewrite replace_from_match. }
  rewrite Hrep. destruct Hcase as [Hslash|Habsent].
  - rewrite (count_sep_replace _ _ Hroot Hslash). now apply count_sep_below.
  - pose proof (replace_absent root_dir "" (below rel) Habsent) as Hsame.
    unfold str_replace in Hsame. destruct root_dir as [|a r]; [contradiction|].
    rewrite Hsame. now apply count_sep_below.
Qed.

(** X16.  Let the root directory be given without a slash at its end, and
    let it hold no slash at all or else occur nowhere in the way from the
    top to a directory of the walk.  Then the map that
    [export_directory_map] writes is the indented listing: every directory
    under its own name, indented by four spaces for each step below the
    top, and every file four spaces further, in the order of the walk. *)
Theorem directory_map_is_indented (root_dir : string)
    (visits : list (list string * list string)) :
  root_dir <> "" ->
  ends_with "/" root_dir = false ->
  Forall (fun visit =>
            Forall entry_name (fst visit)
            /\ (str_contains "/" root_dir = false
                \/ str_contains root_dir (below (fst visit)) = false))
    visits ->
  directory_map root_dir visits = flat_map (indented_lines root_dir) visits.
Proof.
  intros Hroot Hend Hvisits. unfold directory_map.
  induction Hvisits as [|[rel files] visits [Hrel Hcase] _ IH]; [reflexivity|].
  cbn [flat_map]. rewrite IH. f_equal.
  unfold map_lines, indented_lines. cbn [fst snd] in *.
  rewrite (walk_root_below _ _ Hroot Hend Hrel).
  rewrite (map_level _ _ Hroot Hrel Hcase).
  now rewrite (basename_below _ _ Hrel).
Qed.

Lemma directory_map_is_indented_witness :
  directory_map "/srv/proj" (walk [] example_tree)
  = flat_map (indented_lines "/srv/proj") (walk [] example_tree).
Proof.
  apply (directory_map_is_indented "/srv/proj" (walk [] example_tree)).
  - discriminate.
  - reflexivity.
  - simpl.
    repeat (apply Forall_cons_2;
            [split;
             [repeat (apply Forall_cons_2; [split; [discriminate|reflexivity]|]);
              apply Forall_nil_2
             | right; reflexivity]|]).
    apply Forall_nil_2.
Defined.

(** The map of [/srv/proj], written into the directory itself, lists the
    map file. *)
Example export_directory_map_example :
  let r := export_directory_map demo_env "/srv/proj" "/srv/proj/map.txt"
             example_world in
  fst r = Ret (DirectoryMapExported "/srv/proj/map.txt")
  /\ lookup_node (fs (snd r)) ["srv"; "proj"; "map.txt"]
     = Some (File (Text (lines_text ["proj/"; "    map.txt"; "    a/";
                                     "        f1.txt"; "    b/"]))).
Proof. split; reflexivity. Qed.

(** With a slash at the end of the root directory, the top is written
    without a name and the directories below it are not indented. *)
Example directory_map_trailing_slash :
  directory_map "/srv/proj/" (walk [] example_tree)
  = ["/"; "a/"; "    f1.txt"; "b/"].
Proof. reflexivity. Qed.

(** A directory whose way from the top repeats the root directory is
    written at the wrong level. *)
Example directory_map_repeated_root :
  directory_map "/a" (walk [] (Dir [("a", Dir [("f.txt", File (Text ""))])]))
  = ["a/"; "a/"; "    f.txt"].
Proof. reflexivity. Qed.

(* ===================================================================== *)
(** * Properties of the file templates *)
(* ===================================================================== *)







(** The new name is listed last by a system that lists the entries as they
    were made, and first by one that lists them the other way round. *)
Example add_file_template_example :
  fst (add_file_template demo_env "/tpl/readme.txt" file_templates_world)
  = FileTemplateAdded (Path "/app/templates/file_templates/readme.txt")
  /\ list_file_templates demo_env (fun names => names)
       (fs (snd (add_file_template demo_env "/tpl/readme.txt"
                   file_templates_world)))
     = Ret ["old.txt"; "readme.txt"]
  /\ list_file_templates demo_env (@rev string)
       (fs (snd (add_file_template demo_env "/tpl/readme.txt"
                   file_templates_world)))
     = Ret ["readme.txt"; "old.txt"].
Proof. repeat split. Qed.

(** A directory is refused, and a file template cannot be added again from
    its own place. *)
Example add_file_template_refused :
  add_file_template demo_env "/tpl" file_templates_world
  = (NotAValidFile "/tpl", file_templates_world)
  /\ add_file_template demo_env "/app/templates/file_templates/old.txt"
       file_templates_world
     = (ErrorAddingFileTemplate SameFileError, file_templates_world).
Proof. split; reflexivity. Qed.

(* ===================================================================== *)
(** * What stays on the disk *)
(* ===================================================================== *)

Lemma kept_refl n : kept n n.
Proof. intros q. split; auto. Qed.

Lemma kept_trans a b c : kept a b -> kept b c -> kept a c.
Proof.
  intros Hab Hbc q. destruct (Hab q) as [H1 H2]. destruct (Hbc q) as [H3 H4].
  split; auto.
Qed.

Lemma grown_kept a b : grown a b -> kept a b.
Proof.
  intros Hg q. destruct (Hg q) as [Hfile Hdir]. split; [|exact Hdir].
  unfold is_file_at. destruct (lookup_node a q) as [[c|]|]; try discriminate.
  now rewrite (Hfile c eq_refl).
Qed.

(** Replacing or creating a file leaves every file a file. *)
Lemma write_node_keeps_files q : forall n c n' L,
  write_node n q (File c) = Some n' ->
  is_dir_at n q = false ->
  is_file_at n L = true -> is_file_at n' L = true.
Proof.
  unfold is_dir_at, is_file_at.
  induction q as [|a q IH]; intros n c n' L Hw Hq HL.
  - simpl in Hw. injection Hw as <-. simpl in Hq.
    destruct n as [|es]; [|discriminate Hq].
    destruct L; [reflexivity | discriminate HL].
  - simpl in Hw. destruct n as [|es]; [discriminate Hw|].
    destruct L as [|b L]; [discriminate HL|].
    simpl in Hq, HL.
    destruct (dict_get a es) as [v|] eqn:Ha.
    + destruct (write_node v q (File c)) as [v'|] eqn:Hv; [|discriminate Hw].
      injection Hw as <-. simpl.
      destruct (String.eqb a b) eqn:Hab.
      * apply String.eqb_eq in Hab as <-. rewrite dict_get_set_eq.
        rewrite Ha in HL. exact (IH v c v' L Hv Hq HL).
      * rewrite dict_get_set_ne by (intros ->; now rewrite String.eqb_refl in Hab).
        exact HL.
    + destruct q; [|discriminate Hw]. injection Hw as <-. simpl.
      destruct (String.eqb a b) eqn:Hab.
      * apply String.eqb_eq in Hab as <-. rewrite Ha in HL. discriminate HL.
      * rewrite dict_get_set_ne by (intros ->; now rewrite String.eqb_refl in Hab).
        exact HL.
Qed.

Lemma keeps_write_file q c : keeps_paths (write_file q c).
Proof.
  intros w. unfold write_file.
  destruct (lookup_node (fs w) q) as [[c0|es]|] eqn:Hq;
    try (destruct (write_node (fs w) q (File c)) as [fs'|] eqn:Hw);
    cbn [snd fs set_fs]; try apply kept_refl.
  - intros L. split.
    + apply (write_node_keeps_files q _ c); [exact Hw|].
      unfold is_dir_at. now rewrite Hq.
    + apply (write_node_keeps_dirs q _ c); [exact Hw|].
      unfold is_dir_at. now rewrite Hq.
  - apply grown_kept. now apply (write_fresh_grown q _ (File c)).
Qed.

Lemma keeps_ret {A} (a : A) : keeps_paths (M_ret a).
Proof. intros w. apply kept_refl. Qed.

Lemma keeps_raise {A} err : keeps_paths (@M_raise A err).
Proof. intros w. apply kept_refl. Qed.

Lemma keeps_lift {A} (r : res A) : keeps_paths (lift r).
Proof. intros w. apply kept_refl. Qed.

Lemma keeps_print m : keeps_paths (print m).
Proof. intros w. apply kept_refl. Qed.

Lemma keeps_log m : keeps_paths (log m).
Proof. intros w. apply kept_refl. Qed.

Lemma keeps_bind {A B} (m : M A) (k : A -> M B) :
  keeps_paths m -> (forall a, keeps_paths (k a)) -> keeps_paths (M_bind m k).
Proof.
  intros Hm Hk w. unfold M_bind. specialize (Hm w).
  destruct (m w) as [[a|err] w1]; cbn [snd] in *; [|exact Hm].
  apply kept_trans with (fs w1); [exact Hm | apply Hk].
Qed.

Lemma keeps_for {A} (l : list A) (body : A -> M unit) :
  (forall a, keeps_paths (body a)) -> keeps_paths (M_for l body).
Proof.
  intros Hbody. induction l as [|a l IH]; [apply keeps_ret|].
  cbn [M_for]. apply keeps_bind; [apply Hbody | intros _; exact IH].
Qed.

Lemma keeps_makedirs_from comps : forall cur,
  keeps_paths (makedirs_from cur comps).
Proof.
  induction comps as [|c rest IH]; intros cur w; [apply kept_refl|].
  cbn [makedirs_from]. destruct (has_nul c); [apply kept_refl|].
  destruct (String.eqb c "..").
  - destruct (lookup_node (fs w) cur) as [[|es]|];
      [apply kept_refl | apply IH | apply kept_refl].
  - destruct (lookup_node (fs w) (cur ++ [c])) as [[|es]|] eqn:Hl;
      [apply kept_refl | apply IH |].
    destruct (write_node (fs w) (cur ++ [c]) (Dir [])) as [fs'|] eqn:Hw;
      [|apply kept_refl].
    apply kept_trans with fs'.
    + apply grown_kept. now apply (write_fresh_grown (cur ++ [c]) _ (Dir [])).
    + apply (IH (cur ++ [c]) (set_fs fs' w)).
Qed.

Lemma keeps_makedirs e p : keeps_paths (makedirs e p).
Proof. apply keeps_makedirs_from. Qed.

Lemma keeps_touch e p : keeps_paths (touch e p).
Proof.
  intros w. unfold touch. destruct (locate e (fs w) p) as [q|];
    [|apply kept_refl].
  destruct (exists_at (fs w) q); [apply kept_refl | apply keeps_write_file].
Qed.

Lemma keeps_copy e src dst : keeps_paths (copy e src dst).
Proof.
  intros w. unfold copy.
  destruct (existsb has_nul (parts src) || existsb has_nul (parts _));
    [apply kept_refl|].
  destruct (locate e (fs w) src) as [qs|]; [|apply kept_refl].
  destruct (lookup_node (fs w) qs) as [[c|es]|]; try apply kept_refl.
  - destruct (locate e (fs w) _) as [qd|]; [|apply kept_refl].
    destruct (exists_at (fs w) qd && bool_decide (qs = qd));
      [apply kept_refl | apply keeps_write_file].
  - destruct (locate e (fs w) _) as [qd|]; [|apply kept_refl].
    destruct (exists_at (fs w) qd && bool_decide (qs = qd)); apply kept_refl.
Qed.

Lemma keeps_load_template e name : keeps_paths (load_template e name).
Proof.
  intros w. rewrite (proj1 (load_template_keeps_disk e name w)).
  apply kept_refl.
Qed.

Lemma keeps_save_template e name data is_default :
  keeps_paths (save_template e name data is_default).
Proof.
  unfold save_template. apply keeps_bind.
  - intros w. unfold dump_json.
    destruct (locate e (fs w) _) as [q|];
      [apply keeps_write_file | apply kept_refl].
  - intros _. apply keeps_bind; [apply keeps_print | intros _; apply keeps_log].
Qed.

Lemma keeps_validate_template t name : keeps_paths (validate_template t name).
Proof.
  unfold validate_template. apply keeps_bind; [apply keeps_lift|].
  intros [|err errs]; (apply keeps_bind; [apply keeps_print|]);
    intros _; apply keeps_ret.
Qed.

Lemma keeps_generate_file e subdir_path f :
  keeps_paths (generate_file e subdir_path f).
Proof.
  unfold generate_file.
  apply keeps_bind; [apply keeps_lift | intros name].
  apply keeps_bind; [apply keeps_lift | intros file_path].
  apply keeps_bind; [apply keeps_lift | intros ty].
  destruct (json_is_str ty "empty"); [apply keeps_touch|].
  destruct (json_is_str ty "template"); [|apply keeps_print].
  apply keeps_bind; [apply keeps_lift | intros source].
  apply keeps_bind; [apply keeps_lift | intros source_path].
  intros w. destruct (path_exists e (fs w) source_path);
    [apply keeps_copy | apply keeps_print].
Qed.

Lemma keeps_generate_default_file e subdir_path f :
  keeps_paths (generate_default_file e subdir_path f).
Proof.
  unfold generate_default_file.
  apply keeps_bind; [apply keeps_lift | intros name].
  apply keeps_bind; [apply keeps_lift | intros file_path].
  apply keeps_bind; [apply keeps_lift | intros ty].
  destruct (json_is_str ty "empty"); [apply keeps_touch | apply keeps_ret].
Qed.

Lemma keeps_export_directory_map e root_dir output_map_file :
  keeps_paths (export_directory_map e root_dir output_map_file).
Proof.
  unfold export_directory_map. apply keeps_bind.
  - intros w. unfold open_for_writing.
    destruct (String.eqb output_map_file ""); [apply kept_refl|].
    destruct (locate e (fs w) (Path output_map_file)) as [q|];
      [|apply kept_refl].
    destruct (ends_with_slash output_map_file); [apply kept_refl|].
    pose proof (keeps_write_file q (Text "") w) as Hw.
    now destruct (write_file q (Text "") w) as [[[]|err] w1].
  - intros q. apply keeps_bind; [|intros _; apply keeps_ret].
    intros w. apply keeps_write_file.
Qed.

Lemma keeps_ensure_directories e : keeps_paths (ensure_directories e).
Proof.
  unfold ensure_directories.
  repeat (apply keeps_bind; [apply keeps_makedirs | intros _]).
  apply keeps_makedirs.
Qed.

(** X19.  However they end, with a result or with an exception, the methods
    that write to the disk never remove anything and never put a file where
    a directory was or a directory where a file was: every file is still a
    file afterwards, and every directory a directory.  This holds for
    [generate_from_template], [generate_default] (also behind
    [ensure_directories], as the command line runs it), [clone_directory],
    [save_template] and [export_directory_map]. *)
Theorem writing_methods_keep_paths (e : env) :
  (forall template_name output_dir project_number project_name,
      keeps_paths (generate_from_template e template_name output_dir
                     project_number project_name))
  /\ (forall project_number project_name template_name output_dir,
        keeps_paths (generate_default e project_number project_name
                       template_name output_dir))
  /\ (forall template output project_name project_number,
        keeps_paths (main_generate e template output project_name
                       project_number))
  /\ (forall source_dir output_template_name,
        keeps_paths (clone_directory e source_dir output_template_name))
  /\ (forall template_name data is_default,
        keeps_paths (save_template e template_name data is_default))
  /\ (forall root_dir output_map_file,
        keeps_paths (export_directory_map e root_dir output_map_file)).
Proof.
  assert (Hdefault : forall pn pname name out,
             keeps_paths (generate_default e pn pname name out)).
  { intros pn pname name out. unfold generate_default.
    apply keeps_bind; [apply keeps_load_template | intros t].
    apply keeps_bind.
    { destruct (falsy_arg pn && _); [apply keeps_lift | apply keeps_ret]. }
    intros t'. destruct (negb (truthy t')); [apply keeps_ret|].
    apply keeps_bind; [apply keeps_validate_template | intros valid].
    destruct (negb valid); [apply keeps_print|].
    apply keeps_bind; [apply keeps_lift | intros t''].
    apply keeps_bind; [apply keeps_lift | intros main_name].
    apply keeps_bind; [apply keeps_lift | intros main_dir].
    apply keeps_bind; [apply keeps_makedirs | intros _].
    apply keeps_bind; [apply keeps_lift | intros subdirs].
    apply keeps_bind; [apply keeps_lift | intros items].
    apply keeps_for. intros item. unfold generate_default_subdir.
    apply keeps_bind; [apply keeps_makedirs | intros _].
    apply keeps_bind; [apply keeps_lift | intros files].
    apply keeps_bind; [apply keeps_lift | intros seen].
    apply keeps_for. intros f. apply keeps_generate_default_file. }
  split; [|split; [exact Hdefault|split; [|split; [|split]]]].
  - intros name out pn pname. unfold generate_from_template.
    apply keeps_bind; [apply keeps_load_template | intros t].
    apply keeps_bind.
    { destruct (negb (String.eqb pn "") && negb (String.eqb pname ""));
        [apply keeps_lift | apply keeps_ret]. }
    intros t'. destruct (negb (truthy t')); [apply keeps_ret|].
    apply keeps_bind; [apply keeps_validate_template | intros valid].
    destruct (negb valid); [apply keeps_print|].
    apply keeps_bind; [apply keeps_lift | intros main_name].
    apply keeps_bind; [apply keeps_lift | intros main_dir].
    apply keeps_bind; [apply keeps_makedirs | intros _].
    apply keeps_bind; [apply keeps_lift | intros subdirs].
    apply keeps_bind; [apply keeps_lift | intros items].
    apply keeps_bind.
    { apply keeps_for. intros item. unfold generate_subdir.
      apply keeps_bind; [apply keeps_makedirs | intros _].
      apply keeps_bind; [apply keeps_lift | intros files].
      apply keeps_bind; [apply keeps_lift | intros seen].
      apply keeps_for. intros f. apply keeps_generate_file. }
    intros _. apply keeps_bind; [apply keeps_print | intros _; apply keeps_log].
  - intros template output pname pn. unfold main_generate.
    apply keeps_bind; [apply keeps_ensure_directories | intros _].
    apply keeps_bind; [apply keeps_print | intros _]. apply Hdefault.
  - intros source_dir name. unfold clone_directory.
    apply keeps_bind.
    { unfold validate_directory_path. apply keeps_bind.
      - destruct (String.eqb _ _); [apply keeps_ret | apply keeps_print].
      - intros _ w.
        destruct (negb (os_path_exists e (fs w) (strip source_dir)));
          [apply kept_refl|].
        destruct (os_path_isfile e (fs w) (strip source_dir));
          [apply kept_refl|].
        destruct (negb (os_path_isdir e (fs w) (strip source_dir)));
          apply kept_refl. }
    intros [ok why|is_valid cleaned]; [apply keeps_raise|].
    destruct (negb is_valid); [apply keeps_print|].
    apply keeps_bind; [apply keeps_print | intros _].
    intros w. apply keeps_save_template.
  - intros name data is_default. apply keeps_save_template.
  - intros root_dir output_map_file. apply keeps_export_directory_map.
Qed.

(* ===================================================================== *)
(** * Properties of the watcher *)
(* ===================================================================== *)

(** ** Waiting for the project directory *)

Lemma wait_for_directory_from rounds : forall round a project_dir,
  wait_for_directory rounds round a project_dir
  = match appears_at a with
    | Some r =>
        if (0 <? rounds)%nat && (r <? round + rounds)%nat
        then match copy_error a with
             | Some err => Raise err
             | None => Ret [CopiedJSON project_dir]
             end
        else Ret [TimeoutWaiting project_dir]
    | None => Ret [TimeoutWaiting project_dir]
    end.
Proof.
  induction rounds as [|rounds IH]; intros round a project_dir.
  - simpl. now destruct (appears_at a).
  - cbn [wait_for_directory]. rewrite IH.
    destruct (appears_at a) as [r|]; [|reflexivity].
    change (0 <? S rounds)%nat with true. cbn [andb].
    destruct (r <=? round)%nat eqn:Hle.
    + apply Nat.leb_le in Hle.
      replace (r <? round + S rounds)%nat with true
        by (symmetry; apply Nat.ltb_lt; lia).
      reflexivity.
    + apply Nat.leb_gt in Hle.
      destruct (0 <? rounds)%nat eqn:Hpos; cbn [andb].
      * now replace (S round + rounds)%nat with (round + S rounds)%nat by lia.
      * apply Nat.ltb_ge in Hpos.
        replace (r <? round + S rounds)%nat with false; [reflexivity|].
        symmetry. apply Nat.ltb_ge. lia.
Qed.

(** X14.  For a descriptor that holds a non-empty [str] under both keys and a
    generation process that exits well, the descriptor is copied exactly when
    the project directory is seen within the forty rounds of the wait (the
    round counted from 0); otherwise the time-out is logged.  In both cases
    the descriptor is then logged as processed; only a failing copy ends the
    call before that. *)
Theorem run_directory_manager_waits_forty_rounds (filename : string)
    (a : file_answers) (d : list (string * json)) (name number : string) :
  descriptor a = Ret (JDict d) ->
  dict_get "project_name" d = Some (JStr name) ->
  dict_get "project_number" d = Some (JStr number) ->
  name <> "" -> number <> "" ->
  launch_error a = None ->
  run_directory_manager filename a
  = match appears_at a with
    | Some r =>
        if (r <? 40)%nat
        then match copy_error a with
             | Some err => [ErrorRunning err]
             | None => [CopiedJSON (name +:+ "-" +:+ number);
                        Processed (name +:+ "-" +:+ number)]
             end
        else [TimeoutWaiting (name +:+ "-" +:+ number);
              Processed (name +:+ "-" +:+ number)]
    | None => [TimeoutWaiting (name +:+ "-" +:+ number);
               Processed (name +:+ "-" +:+ number)]
    end.
Proof.
  intros Hd Hname Hnumber Hne1 Hne2 Hlaunch.
  unfold run_directory_manager, run_directory_manager_body.
  rewrite Hd. cbn [res_bind py_get]. rewrite Hname, Hnumber.
  cbn [res_bind truthy].
  rewrite (eqb_false _ _ Hne1), (eqb_false _ _ Hne2). cbn [negb andb].
  rewrite Hlaunch, wait_for_directory_from.
  destruct (appears_at a) as [r|]; [|reflexivity].
  change (0 <? 40)%nat with true. cbn [andb Nat.add].
  destruct (r <? 40)%nat; [|reflexivity].
  now destruct (copy_error a).
Qed.

Lemma run_directory_manager_waits_forty_rounds_witness :
  run_directory_manager "a.json" smooth_answers
  = [CopiedJSON "Acme-042"; Processed "Acme-042"].
Proof.
  apply (run_directory_manager_waits_forty_rounds "a.json" smooth_answers
           [("project_name", JStr "Acme"); ("project_number", JStr "042")]
           "Acme" "042"); reflexivity || discriminate.
Defined.

(** ** The seen-files log *)

Example splitlines_example :
  splitlines (String "a" (String "013" (String "010" (String "b"
                (String "010" (String "010" "c"))))))
  = ["a"; "b"; ""; "c"].
Proof. reflexivity. Qed.

(** NEL and the paragraph separator end a line; their first bytes alone do
    not. *)
Example splitlines_beyond_ascii :
  splitlines (String "a" (String "194" (String "133" (String "b"
                (String "226" (String "128" (String "169" (String "c"
                   (String "194" (String "226" (String "128" "d")))))))))))
  = ["a"; "b"; String "c" (String "194" (String "226" (String "128" "d")))].
Proof. reflexivity. Qed.

(** [splitlines], by the line boundary the text starts with. *)
Lemma splitlines_step c s :
  splitlines (String c s)
  = match after_line_break (String c s) with
    | Some rest => EmptyString :: splitlines rest
    | None => in_front c (splitlines s)
    end.
Proof.
  cbn [splitlines after_line_break]. destruct (line_break c); [reflexivity|].
  destruct s as [|c1 s2]; [reflexivity|].
  destruct (Ascii.eqb c "194" && Ascii.eqb c1 "133"); [reflexivity|].
  destruct s2 as [|c2 s3]; [reflexivity|].
  now destruct (Ascii.eqb c "226" && Ascii.eqb c1 "128"
                && (Ascii.eqb c2 "168" || Ascii.eqb c2 "169")).
Qed.

Lemma one_line_step c s :
  one_line (String c s) = true ->
  after_line_break (String c s) = None /\ one_line s = true.
Proof.
  cbn [one_line]. destruct (after_line_break (String c s)); [discriminate|].
  now split.
Qed.

Lemma one_line_cons c s :
  one_line (String c s) = true -> line_break c = false /\ one_line s = true.
Proof.
  intros H. apply one_line_step in H as [Hb Hs]. split; [|exact Hs].
  revert Hb. cbn [after_line_break]. now destruct (line_break c).
Qed.

Lemma not_line_break c :
  line_break c = false -> Ascii.eqb c "010" = false /\ Ascii.eqb c "013" = false.
Proof.
  unfold line_break. cbn [existsb]. intros H.
  repeat (apply orb_false_iff in H as [? H]). now split.
Qed.

(** A line feed behind a text does not make a line boundary with what
    stands before it. *)
Lemma no_line_break_before_lf c x rest :
  after_line_break (String c x) = None ->
  after_line_break (String c (x +:+ String "010" rest)) = None.
Proof.
  cbn [after_line_break]. destruct (line_break c); [discriminate|].
  destruct x as [|c1 x].
  - intros _. change ("" +:+ String "010" rest) with (String "010" rest).
    cbv beta iota.
    change (Ascii.eqb "010" "133") with false.
    change (Ascii.eqb "010" "128") with false.
    rewrite !andb_false_r. cbn [andb]. now destruct rest.
  - change (String c1 x +:+ String "010" rest)
      with (String c1 (x +:+ String "010" rest)).
    cbv beta iota.
    destruct (Ascii.eqb c "194" && Ascii.eqb c1 "133"); [discriminate|].
    destruct x as [|c2 x].
    2: { change (String c2 x +:+ String "010" rest)
           with (String c2 (x +:+ String "010" rest)).
         cbv beta iota.
         now destruct (Ascii.eqb c "226" && Ascii.eqb c1 "128"
                       && (Ascii.eqb c2 "168" || Ascii.eqb c2 "169")). }
    intros _. change ("" +:+ String "010" rest) with (String "010" rest).
    cbv beta iota.
    change (Ascii.eqb "010" "168") with false.
    change (Ascii.eqb "010" "169") with false.
    cbn [orb]. now rewrite andb_false_r.
Qed.

(** A line followed by a line feed is the first line of the text. *)
Lemma splitlines_first x rest :
  one_line x = true ->
  splitlines (x +:+ String "010" rest) = x :: splitlines rest.
Proof.
  induction x as [|c x IH]; intros Hx.
  - change ("" +:+ String "010" rest) with (String "010" rest).
    rewrite splitlines_step. cbn [after_line_break].
    change (line_break "010") with true. cbv iota.
    change (Ascii.eqb "010" "013") with false. cbn [andb].
    now destruct rest.
  - apply one_line_step in Hx as [Hb Hx].
    change (String c x +:+ String "010" rest)
      with (String c (x +:+ String "010" rest)).
    rewrite splitlines_step, (no_line_break_before_lf _ _ _ Hb), (IH Hx).
    reflexivity.
Qed.

Lemma splitlines_single x :
  one_line x = true -> x <> "" -> splitlines x = [x].
Proof.
  induction x as [|c x IH]; intros Hx Hne; [contradiction|].
  apply one_line_step in Hx as [Hb Hx].
  rewrite splitlines_step, Hb.
  destruct x as [|c' x]; [reflexivity|].
  now rewrite (IH Hx).
Qed.

Lemma splitlines_concat names :
  Forall (fun name => name <> "" /\ one_line name = true) names ->
  splitlines (String.concat (String "010" "") names) = names.
Proof.
  induction 1 as [|x names [Hne Hx] Hnames IH]; [reflexivity|].
  destruct names as [|y names].
  - cbn [String.concat]. now apply splitlines_single.
  - change (String.concat (String "010" "") (x :: y :: names))
      with (x +:+ String "010" (String.concat (String "010" "") (y :: names))).
    rewrite (splitlines_first _ _ Hx). now rewrite IH.
Qed.

(** What was written as text is read back when it holds no carriage
    return. *)
Lemma read_written_text crlf text :
  str_contains (String "013" "") text = false ->
  read_text (written_text crlf text) = text.
Proof.
  induction text as [|c s IH]; intros Hcr; [reflexivity|].
  rewrite str_contains_step in Hcr. apply orb_false_iff in Hcr as [Hc Hs].
  rewrite prefix_cons in Hc.
  assert (Hne : Ascii.eqb c "013" = false).
  { destruct (Ascii.eqb c "013") eqn:E; [|reflexivity].
    apply Ascii.eqb_eq in E. subst c.
    destruct (ascii_dec "013" "013") as [_|ne]; [|now elim ne].
    now rewrite prefix_nil_l in Hc. }
  cbn [written_text].
  destruct (Ascii.eqb c "010" && crlf) eqn:E.
  - apply andb_true_iff in E as [E _]. apply Ascii.eqb_eq in E. subst c.
    cbn [read_text]. change (Ascii.eqb "013" "013") with true. cbv iota.
    change (Ascii.eqb "010" "010") with true. cbv iota.
    now rewrite (IH Hs).
  - cbn [read_text]. rewrite Hne. now rewrite (IH Hs).
Qed.

Lemma one_line_no_cr x rest :
  one_line x = true ->
  str_contains (String "013" "") (x +:+ rest)
  = str_contains (String "013" "") rest.
Proof.
  induction x as [|c x IH]; intros Hx; [reflexivity|].
  apply one_line_cons in Hx as [Hc Hx].
  change (String c x +:+ rest) with (String c (x +:+ rest)).
  rewrite str_contains_step, (IH Hx), prefix_cons.
  destruct (ascii_dec "013" c) as [<-|]; [discriminate Hc | reflexivity].
Qed.

Lemma concat_no_cr names :
  Forall (fun name => name <> "" /\ one_line name = true) names ->
  str_contains (String "013" "") (String.concat (String "010" "") names)
  = false.
Proof.
  induction 1 as [|x names [Hne Hx] Hnames IH]; [reflexivity|].
  destruct names as [|y names].
  - cbn [String.concat]. clear Hne. induction x as [|c x IHx]; [reflexivity|].
    apply one_line_cons in Hx as [Hc Hx].
    rewrite str_contains_step, (IHx Hx), prefix_cons.
    destruct (ascii_dec "013" c) as [<-|]; [discriminate Hc | reflexivity].
  - change (String.concat (String "010" "") (x :: y :: names))
      with (x +:+ String "010" (String.concat (String "010" "") (y :: names))).
    rewrite (one_line_no_cr _ _ Hx). rewrite str_contains_step, IH.
    reflexivity.
Qed.

(** X15.  The set that [load_seen_files] makes of the text that
    [save_seen_files] has written is the set that was saved, on either kind
    of system, provided that no name is empty or holds a line boundary of
    [str.splitlines]: LF, VT, FF, CR, FS, GS, RS, NEL (U+0085), or the line
    or paragraph separator (U+2028, U+2029). *)
Theorem seen_files_log_round_trip (crlf : bool) (files_set : gset string) :
  (forall name, name ∈ files_set -> name <> "" /\ one_line name = true) ->
  load_seen_files (Some (Ret (written_text crlf (seen_files_text files_set))))
  = files_set.
Proof.
  intros Hnames. unfold load_seen_files, seen_files_text.
  assert (Hall : Forall (fun name => name <> "" /\ one_line name = true)
                   (sorted (elements files_set))).
  { apply Forall_forall. intros name Hin. apply Hnames.
    unfold sorted in Hin. rewrite merge_sort_Permutation in Hin.
    now apply elem_of_elements. }
  rewrite (read_written_text _ _ (concat_no_cr _ Hall)).
  rewrite (splitlines_concat _ Hall).
  unfold sorted. rewrite merge_sort_Permutation.
  apply list_to_set_elements_L.
Qed.

Lemma seen_files_log_round_trip_witness :
  load_seen_files
    (Some (Ret (written_text true (seen_files_text {["b.json"; "a.json"]}))))
  = {["b.json"; "a.json"]}.
Proof.
  apply (seen_files_log_round_trip true {["b.json"; "a.json"]}).
  intros name Hin. apply elem_of_union in Hin as [Hin|Hin];
    apply elem_of_singleton in Hin; subst name; split;
    discriminate || reflexivity.
Defined.

Example seen_files_text_example :
  seen_files_text {["b.json"; "a.json"]}
  = "a.json" +:+ String "010" "b.json".
Proof. vm_compute. reflexivity. Qed.

(** A name with a line separator in it is read back as two names. *)
Example line_separator_cuts_a_name :
  one_line separator_name = false
  /\ load_seen_files
       (Some (Ret (written_text false (seen_files_text {[separator_name]}))))
     = {["a"]} ∪ {["b.json"]}.
Proof. vm_compute. split; reflexivity. Qed.

(** The set that holds the empty name only is not read back. *)
Example empty_name_is_lost :
  load_seen_files (Some (Ret (written_text true (seen_files_text {[""]}))))
  = ∅.
Proof. vm_compute. reflexivity. Qed.

(** ** The log runs behind the set *)





(** A log that held a name is empty after a round in which the text could
    not be encoded. *)
Example emptied_log_loses_names :
  saved_files (poll fresh_monitor bad_round) = {["a.json"]}
  /\ saved_files (monitor_directory fresh_monitor [bad_round; unencodable_round])
     = ∅
  /\ seen_files (monitor_directory fresh_monitor [bad_round; unencodable_round])
     = {["a.json"]} ∪ {[ohm_name]}
  /\ service_log (monitor_directory fresh_monitor [bad_round; unencodable_round])
     = [ErrorRunning JSONDecodeError; ErrorRunning JSONDecodeError;
        ErrorWritingSeenFiles ValueError].
Proof. vm_compute. repeat split. Qed.
